(** * FreightFlow: the service models and their specification

    The development follows the Python sources of the repository, one
    module per service:
    - [Py]: what the services see of the Python runtime (exceptions, JSON
      values, the clock, [uuid4], the cache, the event log);
    - [Quotation]: [models/quotation.py] (quote lifecycle) and
      [services/pricing_engine.py] (fuel surcharge);
    - [Crm]: [models/lead.py] (lead score);
    - [Vendor]: [models/vendor.py] (running average of ratings);
    - [Notifications]: [models/notification.py] and
      [services/notification_service.py] (channel narrowing, read marks);
    - [Auth]: [shared/auth.py] (users and roles);
    - [BookingService]: [models/booking.py] and
      [services/booking_engine.py] (access to bookings, tracking history,
      container allocation).
    The modules named [...Spec] restate a rule in the words of the
    specification, to be compared with the code.

    Each Python method is a function in the effect monad [eff World], which
    threads the world a method can observe. A method that mutates [self]
    returns the object after the call. An exception leaves the world as it
    was when it was raised, as a Python [raise] keeps earlier side effects.
    The properties come after the models, one section per subject. *)

From Stdlib Require Import ZArith QArith Qround Lia Ascii String Sorted.
From Stdlib Require Import PrimFloat SpecFloat FloatOps FloatAxioms.
From stdpp Require Import gmap strings list pretty.

Set Warnings "-register-all,-inexact-float".
Open Scope Z_scope.

(* ================================================================== *)
(** * The Python runtime seen by the services *)
(* ================================================================== *)

Module Py.

(** A [datetime] is a count of microseconds since the epoch, the resolution
    of Python's [datetime]. *)
Definition datetime : Type := Z.

(** A [timedelta] normalises to days, seconds and microseconds with the
    last two non-negative, so [.days] is the floor of the difference
    divided by one day. *)
Definition microseconds_per_day : Z := 86400 * 1000000.
Definition timedelta_days (delta : Z) : Z := delta / microseconds_per_day.

(** The exception classes the modelled code raises. *)
Inductive exn : Type :=
| ValueError (msg : string)
| TypeError (msg : string)
| AttributeError (msg : string)
| ZeroDivisionError (msg : string)
| InvalidOperation (msg : string)
| BadRequest (msg : string)
| NotFound (msg : string)
| Conflict (msg : string).

Inductive outcome (A : Type) : Type :=
| Return (a : A)
| Raise (e : exn).
Arguments Return {A} a.
Arguments Raise {A} e.

(** A [datetime] object is naive, without time zone, as [datetime.utcnow()]
    and [datetime.now()] give it, or aware, as [datetime.fromisoformat]
    gives it for a text that ends in a UTC offset (the services turn a
    final [Z] into [+00:00] first). An aware one is kept as its instant on
    the UTC scale and its offset. Where the program only ever stores clock
    readings the model says [datetime]; where a value can come from a
    caller's text it says [moment]. *)
Inductive moment : Type :=
| Naive (t : datetime)
| Aware (t : datetime) (offset : Z).

Definition is_aware (m : moment) : bool :=
  match m with
  | Naive _ => false
  | Aware _ _ => true
  end.

(** The number two moments of the same kind are ordered by. *)
Definition instant (m : moment) : datetime :=
  match m with
  | Naive t => t
  | Aware t _ => t
  end.

(** Values that travel through JSON: what [to_dict] produces and what the
    cache hands back. [PIso t] stands for the string [t.isoformat()] of a
    naive datetime and [PIsoAware t offset] for that of an aware one. *)
Inductive pyval : Type :=
| PNone
| PBool (b : bool)
| PInt (z : Z)
| PStr (s : string)
| PIso (t : datetime)
| PIsoAware (t : datetime) (offset : Z)
| PList (items : list pyval)
| PDict (fields : gmap string pyval).

(** Python truthiness, as used by [if cached:] and by [and]. *)
Definition truthy (v : pyval) : bool :=
  match v with
  | PNone => false
  | PBool b => b
  | PInt z => negb (z =? 0)
  | PStr s => negb (String.eqb s "")
  | PIso _ | PIsoAware _ _ => true
  | PList items => negb (Nat.eqb (length items) 0)
  | PDict fields => negb (Nat.eqb (size fields) 0)
  end.

Definition opt_str (o : option string) : pyval :=
  match o with Some s => PStr s | None => PNone end.

Definition opt_iso (o : option datetime) : pyval :=
  match o with Some t => PIso t | None => PNone end.

(** [m.isoformat()] and [m.isoformat() if m else None]; a datetime is
    never falsy. *)
Definition moment_iso (m : moment) : pyval :=
  match m with
  | Naive t => PIso t
  | Aware t offset => PIsoAware t offset
  end.

Definition opt_moment_iso (o : option moment) : pyval :=
  match o with Some m => moment_iso m | None => PNone end.

(** Library functions the services call and the model leaves open:
    [str.upper], [json.loads] (with [None] for a [JSONDecodeError]) and
    [datetime.fromisoformat(s.replace('Z', '+00:00'))] (with [None] for a
    [ValueError]; the datetime is aware when the text carries an offset and
    naive otherwise), [t.strftime('%Y%m%d')], and the first eight hexadecimal
    digits of an identifier in upper case ([id[:8].upper()]). *)
Record Library : Type := {
  str_upper : string -> string;
  json_loads : string -> option pyval;
  parse_iso : string -> option moment;
  strftime_ymd : datetime -> string;
  short_id : string -> string
}.

(** The world: the clock and the identifier source are sequences of
    future answers with a cursor each, so that two calls of [utcnow] in one
    method may answer differently; the cache is the key-value store behind
    [cache.get] and [cache.set] (expiry of entries is not modelled); the
    events are the published ones, oldest first. *)
Record World : Type := {
  readings : nat -> datetime;
  ticks : nat;
  uuids : nat -> string;
  draws : nat;
  cache : gmap string pyval;
  events : list (string * pyval)
}.

Definition tick (w : World) : World :=
  {| readings := readings w; ticks := S (ticks w);
     uuids := uuids w; draws := draws w; cache := cache w; events := events w |}.

Definition draw (w : World) : World :=
  {| readings := readings w; ticks := ticks w;
     uuids := uuids w; draws := S (draws w); cache := cache w; events := events w |}.

Definition with_cache (c : gmap string pyval) (w : World) : World :=
  {| readings := readings w; ticks := ticks w;
     uuids := uuids w; draws := draws w; cache := c; events := events w |}.

Definition with_events (e : list (string * pyval)) (w : World) : World :=
  {| readings := readings w; ticks := ticks w;
     uuids := uuids w; draws := draws w; cache := cache w; events := e |}.

(** The time the next call of [datetime.utcnow()] answers. *)
Definition now (w : World) : datetime := readings w (ticks w).

Definition eff (S A : Type) : Type := S -> outcome A * S.

Definition ret {S A} (a : A) : eff S A := fun s => (Return a, s).

Definition raise {S A} (e : exn) : eff S A := fun s => (Raise e, s).

Definition bind {S A B} (c : eff S A) (k : A -> eff S B) : eff S B :=
  fun s =>
    match c s with
    | (Return a, s') => k a s'
    | (Raise e, s') => (Raise e, s')
    end.

Definition utcnow : eff World datetime := fun w => (Return (now w), tick w).

(** [a < b] on datetime objects: two naive ones and two aware ones are
    ordered, a naive and an aware one are not. *)
Definition moment_lt (a b : moment) : eff World bool :=
  if Bool.eqb (is_aware a) (is_aware b) then ret (instant a <? instant b)
  else raise (TypeError "can't compare offset-naive and offset-aware datetimes").

(** [datetime.now()], the local wall clock, reads the same sequence. *)
Definition datetime_now : eff World datetime := utcnow.

Definition uuid4 : eff World string := fun w => (Return (uuids w (draws w)), draw w).

Definition cache_get (key : string) : eff World (option pyval) :=
  fun w => (Return (cache w !! key), w).

Definition cache_set (key : string) (v : pyval) : eff World unit :=
  fun w => (Return tt, with_cache (<[key := v]> (cache w)) w).

(** [v == s] for a value [v] and a string [s]. *)
Definition equals_str (v : pyval) (s : string) : bool :=
  match v with
  | PStr s' => String.eqb s' s
  | _ => false
  end.

Definition cache_delete (key : string) : eff World unit :=
  fun w => (Return tt, with_cache (delete key (cache w)) w).

Definition publish (topic : string) (payload : pyval) : eff World unit :=
  fun w => (Return tt, with_events (events w ++ [(topic, payload)]) w).

(** [Enum(value)]: the member with that value, [None] for the [ValueError]
    of a value no member has. *)
Definition enum_of_value {E : Type} (members : list E) (value : E -> string) (v : string)
  : option E :=
  find (fun m => String.eqb (value m) v) members.

(** [data.get(key, default)]; a value that is no dictionary has no [get]. *)
Definition data_get (data : pyval) (key : string) (dflt : pyval) : eff World pyval :=
  match data with
  | PDict fields => ret (default dflt (fields !! key))
  | _ => raise (AttributeError "object has no attribute 'get'")
  end.

(** [json.loads(cached) if isinstance(cached, str) else cached] *)
Definition unwrap_cached (lib : Library) (cached : pyval) : eff World pyval :=
  match cached with
  | PStr s =>
      match json_loads lib s with
      | Some v => ret v
      | None => raise (ValueError "JSONDecodeError")
      end
  | PIso _ | PIsoAware _ _ => raise (ValueError "JSONDecodeError")
  | v => ret v
  end.

(** [str.upper] on ASCII text. *)
Definition ascii_upper (c : ascii) : ascii :=
  let n := nat_of_ascii c in
  if (Nat.leb 97 n && Nat.leb n 122)%bool then ascii_of_nat (n - 32) else c.

Fixpoint upper_ascii_string (s : string) : string :=
  match s with
  | EmptyString => EmptyString
  | String c rest => String (ascii_upper c) (upper_ascii_string rest)
  end.

(** A library for trying the services out: it upper-cases ASCII letters,
    decodes no JSON text and reads no timestamp. *)
Definition sample_library : Library :=
  {| str_upper := upper_ascii_string;
     json_loads := fun _ => None;
     parse_iso := fun _ => None;
     strftime_ymd := fun _ => "20240101";
     short_id := fun i => upper_ascii_string (String.substring 0 8 i) |}.

(** A world for trying the services out: the clock advances by one second
    per reading from the given start. *)
Definition sample_world (start : datetime) (c : gmap string pyval) : World :=
  {| readings := fun n => start + 1000000 * Z.of_nat n; ticks := 0;
     uuids := fun n => "uuid-" +:+ pretty n; draws := 0;
     cache := c; events := [] |}.

(** A library for trying out times with a zone: it reads one text, the
    first hour of 2030 in UTC. *)
Definition zoned_library : Library :=
  {| str_upper := str_upper sample_library;
     json_loads := json_loads sample_library;
     parse_iso := fun s =>
       if String.eqb s "2030-01-01T00:00:00Z" then Some (Aware 1893456000000000 0)
       else None;
     strftime_ymd := strftime_ymd sample_library;
     short_id := short_id sample_library |}.

End Py.

Import Py.

Notation "'let!' x ':=' c 'in' k" := (bind c (fun x => k))
  (at level 10, x name, c at level 100, k at level 200).

(** The specification names errors by kind; each kind has its HTTP status. *)
Inductive ErrorKind : Type :=
| InvalidInput | Unauthenticated | Forbidden | NotFoundKind | ConflictKind | Unexpected.

Definition kind_of_status (code : Z) : ErrorKind :=
  if code =? 400 then InvalidInput
  else if code =? 401 then Unauthenticated
  else if code =? 403 then Forbidden
  else if code =? 404 then NotFoundKind
  else if code =? 409 then ConflictKind
  else Unexpected.

(* ================================================================== *)
(** * Quotation service *)
(* ================================================================== *)

Module Quotation.

(** [models/quotation.py], class [Quote]: the lifecycle columns. [status] is
    a [String(20)] column, hence an arbitrary string. *)
Record Quote : Type := {
  quote_id : string;
  customer_id : string;
  status : string;
  valid_until : datetime;
  issued_at : option datetime;
  accepted_at : option datetime
}.

Definition set_status (s : string) (q : Quote) : Quote :=
  {| quote_id := quote_id q; customer_id := customer_id q; status := s;
     valid_until := valid_until q; issued_at := issued_at q;
     accepted_at := accepted_at q |}.

Definition set_issued_at (t : option datetime) (q : Quote) : Quote :=
  {| quote_id := quote_id q; customer_id := customer_id q; status := status q;
     valid_until := valid_until q; issued_at := t;
     accepted_at := accepted_at q |}.

Definition set_accepted_at (t : option datetime) (q : Quote) : Quote :=
  {| quote_id := quote_id q; customer_id := customer_id q; status := status q;
     valid_until := valid_until q; issued_at := issued_at q;
     accepted_at := t |}.

(** [return datetime.utcnow() <= self.valid_until and self.status in ['ISSUED', 'DRAFT']] *)
Definition is_valid (q : Quote) : eff World bool :=
  let! t := utcnow in
  ret ((t <=? valid_until q) && bool_decide (status q ∈ ["ISSUED"; "DRAFT"])).

(** [return datetime.utcnow() > self.valid_until] *)
Definition is_expired (q : Quote) : eff World bool :=
  let! t := utcnow in
  ret (t >? valid_until q).

Definition accept (q : Quote) : eff World Quote :=
  let! ok := is_valid q in
  if negb ok then raise (ValueError "Cannot accept expired or invalid quote")
  else
    let q := set_status "ACCEPTED" q in
    let! t := utcnow in
    ret (set_accepted_at (Some t) q).

Definition issue (q : Quote) : eff World Quote :=
  if negb (String.eqb (status q) "DRAFT")
  then raise (ValueError "Can only issue draft quotes")
  else
    let q := set_status "ISSUED" q in
    let! t := utcnow in
    ret (set_issued_at (Some t) q).

(** [routes/quotation.py], [accept_quote]: the handler's [except ValueError]
    clause answers 400 and its [except Exception] clause 500. *)
Definition accept_quote_except (e : exn) : Z :=
  match e with
  | ValueError _ => 400
  | _ => 500
  end.

Definition error_kind (e : exn) : ErrorKind := kind_of_status (accept_quote_except e).

(** ** [decimal.Decimal]: sign, coefficient and exponent *)

Record Decimal : Type := {
  negative : bool;
  coefficient : Z;
  exponent : Z
}.

Definition digit_of_ascii (c : ascii) : option Z :=
  let n := Z.of_nat (nat_of_ascii c) in
  if (48 <=? n) && (n <=? 57) then Some (n - 48) else None.

(** [Decimal('ddd.ddd')] for the unsigned literals of the source: the
    digits give the coefficient, the digits after the point the exponent. *)
Fixpoint parse_digits (s : string) (coeff : Z) (frac : option Z) : option Decimal :=
  match s with
  | EmptyString =>
      Some {| negative := false; coefficient := coeff;
              exponent := match frac with Some n => - n | None => 0 end |}
  | String c rest =>
      if Ascii.eqb c "."%char then
        match frac with
        | None => parse_digits rest coeff (Some 0)
        | Some _ => None
        end
      else
        match digit_of_ascii c with
        | Some d =>
            parse_digits rest (10 * coeff + d)
              (match frac with Some n => Some (n + 1) | None => None end)
        | None => None
        end
  end.

Definition zero_decimal : Decimal :=
  {| negative := false; coefficient := 0; exponent := 0 |}.

Definition Dec (literal : string) : Decimal :=
  default zero_decimal (parse_digits literal 0 None).

(** The default context keeps 28 significant digits. *)
Definition context_prec : Z := 28.

Fixpoint ndigits_aux (fuel : nat) (n : Z) : Z :=
  match fuel with
  | O => 1
  | S fuel' => if n <? 10 then 1 else 1 + ndigits_aux fuel' (n / 10)
  end.

Definition ndigits (n : Z) : Z := ndigits_aux (Z.to_nat (Z.log2 n)) n.

Definition round_half_even (c shift : Z) : Z :=
  let d := 10 ^ shift in
  let q := c / d in
  let r := c mod d in
  if 2 * r <? d then q
  else if d <? 2 * r then q + 1
  else if Z.even q then q else q + 1.

(** Rounding of an arithmetic result to the context precision
    ([ROUND_HALF_EVEN]); results of at most 28 digits are exact. *)
Definition context_round (d : Decimal) : Decimal :=
  let n := ndigits (coefficient d) in
  if n <=? context_prec then d
  else
    let shift := n - context_prec in
    let c := round_half_even (coefficient d) shift in
    if c =? 10 ^ context_prec
    then {| negative := negative d; coefficient := 10 ^ (context_prec - 1);
            exponent := exponent d + shift + 1 |}
    else {| negative := negative d; coefficient := c;
            exponent := exponent d + shift |}.

(** [a * b] *)
Definition dec_mul (a b : Decimal) : Decimal :=
  context_round
    {| negative := xorb (negative a) (negative b);
       coefficient := coefficient a * coefficient b;
       exponent := exponent a + exponent b |}.

(** [d.quantize(q, rounding=ROUND_HALF_UP)]: the result has the exponent of
    [q]; dropped digits round half away from zero; a coefficient that no
    longer fits the precision raises [InvalidOperation]. *)
Definition quantize_half_up (d q : Decimal) : outcome Decimal :=
  let e := exponent q in
  let c :=
    if e <=? exponent d then coefficient d * 10 ^ (exponent d - e)
    else
      let unit := 10 ^ (e - exponent d) in
      let quo := coefficient d / unit in
      let r := coefficient d mod unit in
      if unit <=? 2 * r then quo + 1 else quo in
  if context_prec <? ndigits c
  then Raise (InvalidOperation "quantize result has too many digits")
  else Return {| negative := negative d; coefficient := c; exponent := e |}.

(** [services/pricing_engine.py], [PricingEngine._get_fuel_surcharge_rate]. *)
Definition base_rate : Decimal := Dec "120.00".

Definition route_multipliers : gmap string Decimal :=
  <["SGSIN-EGALY" := Dec "1.2"]>
  (<["SGSIN-USNYC" := Dec "1.5"]>
  (<["SGSIN-NLRTM" := Dec "1.1"]> ∅)).

Definition _get_fuel_surcharge_rate (origin destination : string) : outcome Decimal :=
  let route_key := origin +:+ "-" +:+ destination in
  let multiplier := default (Dec "1.0") (route_multipliers !! route_key) in
  quantize_half_up (dec_mul base_rate multiplier) (Dec "0.01").



End Quotation.

(** ** The fuel surcharge in the specification's words

    "120.00 x route_multiplier, where the multiplier is looked up from a
    fixed table of named lanes, else 1.0, rounded half-up to 2 decimals". *)

Module FuelSpec.

Definition route_multiplier (route : string) : Q :=
  if decide (route = "SGSIN-EGALY") then 12 # 10
  else if decide (route = "SGSIN-USNYC") then 15 # 10
  else if decide (route = "SGSIN-NLRTM") then 11 # 10
  else 1.

(** Half-up rounding of a non-negative amount to whole cents. *)
Definition round_half_up_cents (amount : Q) : Z :=
  Qfloor (amount * 100 + (1 # 2)).

Definition fuel_surcharge_cents (route : string) : Z :=
  round_half_up_cents (120 * route_multiplier route).

End FuelSpec.

(* ================================================================== *)
(** * CRM service *)
(* ================================================================== *)

Module Crm.

(** [models/lead.py] *)
Inductive LeadSource : Type :=
| WEBSITE | REFERRAL | COLD_CALL | EMAIL_CAMPAIGN | SOCIAL_MEDIA
| TRADE_SHOW | ADVERTISEMENT | PARTNER | OTHER.

Inductive LeadPriority : Type :=
| LOW | MEDIUM | HIGH | URGENT.

#[global] Instance LeadSource_eq_dec : EqDecision LeadSource.
Proof. solve_decision. Defined.

#[global] Instance LeadPriority_eq_dec : EqDecision LeadPriority.
Proof. solve_decision. Defined.

(** The scoring fields of [Lead]. [estimated_value] is an optional float;
    a finite float is a rational, and the score only compares it with
    integer thresholds, so it is kept as a rational. *)
Record Lead : Type := {
  source : LeadSource;
  priority : LeadPriority;
  estimated_value : option Q;
  probability : Z;
  last_contact_date : option datetime
}.

(** [d.get(key, default)] on a dict literal written as its item list. *)
Fixpoint dict_get {K V : Type} `{EqDecision K} (d : list (K * V)) (key : K) (dflt : V) : V :=
  match d with
  | [] => dflt
  | (k, v) :: rest => if decide (k = key) then v else dict_get rest key dflt
  end.

Definition source_scores : list (LeadSource * Z) :=
  [ (REFERRAL, 20); (PARTNER, 15); (WEBSITE, 10); (TRADE_SHOW, 10);
    (SOCIAL_MEDIA, 5); (EMAIL_CAMPAIGN, 5); (COLD_CALL, 3); (ADVERTISEMENT, 3);
    (OTHER, 0) ].

Definition priority_scores : list (LeadPriority * Z) :=
  [ (URGENT, 15); (HIGH, 10); (MEDIUM, 5); (LOW, 0) ].

(** [x >= n] for a float [x] and an int literal [n]. *)
Definition ge_int (x : Q) (n : Z) : bool := Qle_bool (inject_Z n) x.

(** [if self.estimated_value:] holds for a number other than zero. *)
Definition nonzero (x : Q) : bool := negb (Qeq_bool x 0).

Definition calculate_score (l : Lead) : eff World Z :=
  let score := 0 in
  let score := score + probability l in
  let score := score + dict_get source_scores (source l) 0 in
  let score := score + dict_get priority_scores (priority l) 0 in
  let score :=
    match estimated_value l with
    | Some v =>
        if nonzero v then
          if ge_int v 100000 then score + 20
          else if ge_int v 50000 then score + 15
          else if ge_int v 10000 then score + 10
          else if ge_int v 5000 then score + 5
          else score
        else score
    | None => score
    end in
  match last_contact_date l with
  | Some contact =>
      let! t := utcnow in
      let days_since_contact := timedelta_days (t - contact) in
      let score :=
        if days_since_contact <=? 7 then score + 10
        else if days_since_contact <=? 30 then score + 5
        else score in
      ret (Z.min score 100)
  | None => ret (Z.min score 100)
  end.

End Crm.

(** ** The lead score in the specification's words *)

Module LeadSpec.
Import Crm.

Definition source_points (s : LeadSource) : Z :=
  match s with
  | REFERRAL => 20 | PARTNER => 15 | WEBSITE => 10 | TRADE_SHOW => 10
  | SOCIAL_MEDIA => 5 | EMAIL_CAMPAIGN => 5 | COLD_CALL => 3 | ADVERTISEMENT => 3
  | OTHER => 0
  end.

Definition priority_points (p : LeadPriority) : Z :=
  match p with
  | URGENT => 15 | HIGH => 10 | MEDIUM => 5 | LOW => 0
  end.

Definition value_tier_points (value : option Q) : Z :=
  match value with
  | Some v =>
      if Qle_bool 100000 v then 20
      else if Qle_bool 50000 v then 15
      else if Qle_bool 10000 v then 10
      else if Qle_bool 5000 v then 5
      else 0
  | None => 0
  end.

(** Whole days between the last contact and the moment of scoring; no
    points without a contact date. *)
Definition recency_points (t : datetime) (contact : option datetime) : Z :=
  match contact with
  | Some c =>
      let days := (t - c) / microseconds_per_day in
      if days <=? 7 then 10 else if days <=? 30 then 5 else 0
  | None => 0
  end.

Definition raw_score (t : datetime) (l : Lead) : Z :=
  probability l + source_points (source l) + priority_points (priority l)
  + value_tier_points (estimated_value l) + recency_points t (last_contact_date l).

End LeadSpec.

(* ================================================================== *)
(** * Vendor service *)
(* ================================================================== *)

Module Vendor.

(** [update_rating] uses [*], [+] and [/] of whatever number it is given.
    The operations are an interface with two instances: Python's own
    [float], IEEE binary64, on which runs are computed bit for bit; and the
    rationals, the exact reading on which laws over all ratings are stated. *)
Class Number (num : Type) : Type := {
  n_of_int : Z -> num;
  n_add : num -> num -> num;
  n_mul : num -> num -> num;
  n_div : num -> num -> num
}.

(** [float(n)] for an int [n] is the correctly rounded binary64 value. *)
Definition float_of_int (n : Z) : float :=
  FloatOps.SF2Prim (SpecFloat.binary_normalize FloatOps.prec FloatOps.emax n 0 false).

#[global] Instance float_number : Number float := {|
  n_of_int := float_of_int;
  n_add := PrimFloat.add;
  n_mul := PrimFloat.mul;
  n_div := PrimFloat.div
|}.

#[global] Instance Q_number : Number Q := {|
  n_of_int := inject_Z;
  n_add := Qplus;
  n_mul := Qmult;
  n_div := Qdiv
|}.

(** [models/vendor.py], class [Vendor]: the rating fields. *)
Record Vendor (num : Type) : Type := {
  average_rating : num;
  total_ratings : Z;
  updated_at : datetime
}.
Arguments average_rating {num} v.
Arguments total_ratings {num} v.
Arguments updated_at {num} v.

Definition set_average_rating {num} (a : num) (v : Vendor num) : Vendor num :=
  {| average_rating := a; total_ratings := total_ratings v; updated_at := updated_at v |}.

Definition set_total_ratings {num} (n : Z) (v : Vendor num) : Vendor num :=
  {| average_rating := average_rating v; total_ratings := n; updated_at := updated_at v |}.

Definition set_updated_at {num} (t : datetime) (v : Vendor num) : Vendor num :=
  {| average_rating := average_rating v; total_ratings := total_ratings v; updated_at := t |}.

(** [x / n] for an int [n]: [ZeroDivisionError] exactly when [n] is zero
    (an int other than zero converts to a number of magnitude at least 1). *)
Definition truediv_int {num} `{Number num} (x : num) (n : Z) : eff World num :=
  if n =? 0 then raise (ZeroDivisionError "float division by zero")
  else ret (n_div x (n_of_int n)).

Definition update_rating {num} `{Number num} (v : Vendor num) (new_rating : num)
  : eff World (Vendor num) :=
  let total_score := n_add (n_mul (average_rating v) (n_of_int (total_ratings v))) new_rating in
  let v := set_total_ratings (total_ratings v + 1) v in
  let! average := truediv_int total_score (total_ratings v) in
  let v := set_average_rating average v in
  let! t := utcnow in
  ret (set_updated_at t v).


End Vendor.

(* ================================================================== *)
(** * Notifications service *)
(* ================================================================== *)

Module Notifications.

(** [models/notification.py] *)
Inductive NotificationStatus : Type :=
| PENDING | SENT | DELIVERED | READ | FAILED | CANCELLED.

Inductive NotificationType : Type :=
| QUOTE_CREATED | QUOTE_UPDATED | QUOTE_EXPIRED
| BOOKING_CONFIRMED | BOOKING_CANCELLED
| SHIPMENT_STATUS_UPDATE | SHIPMENT_DELIVERED
| PAYMENT_DUE | PAYMENT_RECEIVED
| DOCUMENT_READY | SYSTEM_ALERT | MARKETING | REMINDER | WELCOME | PASSWORD_RESET.

Inductive NotificationPriority : Type :=
| LOW | NORMAL | HIGH | URGENT.

Inductive NotificationChannel : Type :=
| EMAIL | SMS | PUSH | IN_APP | WEBHOOK.

#[global] Instance NotificationStatus_eq_dec : EqDecision NotificationStatus.
Proof. solve_decision. Defined.

#[global] Instance NotificationType_eq_dec : EqDecision NotificationType.
Proof. solve_decision. Defined.

#[global] Instance NotificationChannel_eq_dec : EqDecision NotificationChannel.
Proof. solve_decision. Defined.

(** The [.value] of each member. *)
Definition status_value (s : NotificationStatus) : string :=
  match s with
  | PENDING => "PENDING" | SENT => "SENT" | DELIVERED => "DELIVERED"
  | READ => "READ" | FAILED => "FAILED" | CANCELLED => "CANCELLED"
  end.

Definition type_value (t : NotificationType) : string :=
  match t with
  | QUOTE_CREATED => "QUOTE_CREATED" | QUOTE_UPDATED => "QUOTE_UPDATED"
  | QUOTE_EXPIRED => "QUOTE_EXPIRED" | BOOKING_CONFIRMED => "BOOKING_CONFIRMED"
  | BOOKING_CANCELLED => "BOOKING_CANCELLED"
  | SHIPMENT_STATUS_UPDATE => "SHIPMENT_STATUS_UPDATE"
  | SHIPMENT_DELIVERED => "SHIPMENT_DELIVERED" | PAYMENT_DUE => "PAYMENT_DUE"
  | PAYMENT_RECEIVED => "PAYMENT_RECEIVED" | DOCUMENT_READY => "DOCUMENT_READY"
  | SYSTEM_ALERT => "SYSTEM_ALERT" | MARKETING => "MARKETING"
  | REMINDER => "REMINDER" | WELCOME => "WELCOME" | PASSWORD_RESET => "PASSWORD_RESET"
  end.

Definition priority_value (p : NotificationPriority) : string :=
  match p with
  | LOW => "LOW" | NORMAL => "NORMAL" | HIGH => "HIGH" | URGENT => "URGENT"
  end.

Definition channel_value (c : NotificationChannel) : string :=
  match c with
  | EMAIL => "EMAIL" | SMS => "SMS" | PUSH => "PUSH" | IN_APP => "IN_APP"
  | WEBHOOK => "WEBHOOK"
  end.

Definition all_types : list NotificationType :=
  [ QUOTE_CREATED; QUOTE_UPDATED; QUOTE_EXPIRED; BOOKING_CONFIRMED; BOOKING_CANCELLED;
    SHIPMENT_STATUS_UPDATE; SHIPMENT_DELIVERED; PAYMENT_DUE; PAYMENT_RECEIVED;
    DOCUMENT_READY; SYSTEM_ALERT; MARKETING; REMINDER; WELCOME; PASSWORD_RESET ].

Definition all_priorities : list NotificationPriority := [ LOW; NORMAL; HIGH; URGENT ].

Definition all_channels : list NotificationChannel := [ EMAIL; SMS; PUSH; IN_APP; WEBHOOK ].

Definition type_of_value : string -> option NotificationType :=
  enum_of_value all_types type_value.

Definition priority_of_value : string -> option NotificationPriority :=
  enum_of_value all_priorities priority_value.

Definition channel_of_value : string -> option NotificationChannel :=
  enum_of_value all_channels channel_value.

Record NotificationDelivery : Type := {
  d_id : string;
  d_notification_id : string;
  d_channel : NotificationChannel;
  d_status : string;
  d_attempt_number : Z;
  d_sent_at : option datetime;
  d_delivered_at : option datetime;
  d_failed_at : option datetime;
  d_error_message : option string;
  d_created_at : datetime
}.

Record Notification : Type := {
  id : string;
  recipient_id : string;
  notification_type : NotificationType;
  title : string;
  content : string;
  channels : list NotificationChannel;
  priority : NotificationPriority;
  scheduled_at : option moment;
  expires_at : option moment;
  status : NotificationStatus;
  sent_at : option datetime;
  delivered_at : option datetime;
  read_at : option datetime;
  delivery_attempts : list NotificationDelivery;
  max_attempts : Z;
  metadata : gmap string pyval;
  created_by : string;
  created_at : datetime;
  updated_at : datetime
}.

Definition set_status (s : NotificationStatus) (n : Notification) : Notification :=
  {| id := id n; recipient_id := recipient_id n; notification_type := notification_type n;
     title := title n; content := content n; channels := channels n;
     priority := priority n; scheduled_at := scheduled_at n; expires_at := expires_at n;
     status := s; sent_at := sent_at n; delivered_at := delivered_at n;
     read_at := read_at n; delivery_attempts := delivery_attempts n;
     max_attempts := max_attempts n; metadata := metadata n;
     created_by := created_by n; created_at := created_at n; updated_at := updated_at n |}.

Definition set_read_at (t : option datetime) (n : Notification) : Notification :=
  {| id := id n; recipient_id := recipient_id n; notification_type := notification_type n;
     title := title n; content := content n; channels := channels n;
     priority := priority n; scheduled_at := scheduled_at n; expires_at := expires_at n;
     status := status n; sent_at := sent_at n; delivered_at := delivered_at n;
     read_at := t; delivery_attempts := delivery_attempts n;
     max_attempts := max_attempts n; metadata := metadata n;
     created_by := created_by n; created_at := created_at n; updated_at := updated_at n |}.

Definition set_delivery_attempts (l : list NotificationDelivery) (n : Notification)
  : Notification :=
  {| id := id n; recipient_id := recipient_id n; notification_type := notification_type n;
     title := title n; content := content n; channels := channels n;
     priority := priority n; scheduled_at := scheduled_at n; expires_at := expires_at n;
     status := status n; sent_at := sent_at n; delivered_at := delivered_at n;
     read_at := read_at n; delivery_attempts := l;
     max_attempts := max_attempts n; metadata := metadata n;
     created_by := created_by n; created_at := created_at n; updated_at := updated_at n |}.

Definition set_updated_at (t : datetime) (n : Notification) : Notification :=
  {| id := id n; recipient_id := recipient_id n; notification_type := notification_type n;
     title := title n; content := content n; channels := channels n;
     priority := priority n; scheduled_at := scheduled_at n; expires_at := expires_at n;
     status := status n; sent_at := sent_at n; delivered_at := delivered_at n;
     read_at := read_at n; delivery_attempts := delivery_attempts n;
     max_attempts := max_attempts n; metadata := metadata n;
     created_by := created_by n; created_at := created_at n; updated_at := t |}.

(** [NotificationDelivery(notification_id=..., channel=..., status=...,
    attempt_number=...)]: the default factories draw the id and read the
    clock. *)
Definition new_delivery (notification_id : string) (channel : NotificationChannel)
    (status : string) (attempt_number : Z) : eff World NotificationDelivery :=
  let! i := uuid4 in
  let! t := utcnow in
  ret {| d_id := i; d_notification_id := notification_id; d_channel := channel;
         d_status := status; d_attempt_number := attempt_number;
         d_sent_at := None; d_delivered_at := None; d_failed_at := None;
         d_error_message := None; d_created_at := t |}.

(** [Notification.add_delivery_attempt(channel, status="PENDING")]; the
    result is the notification after the call and the new attempt. *)
Definition add_delivery_attempt (n : Notification) (channel : NotificationChannel)
    (status : string) : eff World (Notification * NotificationDelivery) :=
  let! attempt :=
    new_delivery (id n) channel status
      (Z.of_nat (length (filter (fun d => d_channel d = channel) (delivery_attempts n))) + 1) in
  let n := set_delivery_attempts (delivery_attempts n ++ [attempt]) n in
  let! t := utcnow in
  ret (set_updated_at t n, attempt).

(** [Notification.mark_as_read()] *)
Definition mark_as_read (n : Notification) : eff World Notification :=
  let n := set_status READ n in
  let! t := utcnow in
  let n := set_read_at (Some t) n in
  let! t' := utcnow in
  ret (set_updated_at t' n).

Definition set_sent_at (t : option datetime) (n : Notification) : Notification :=
  {| id := id n; recipient_id := recipient_id n; notification_type := notification_type n;
     title := title n; content := content n; channels := channels n;
     priority := priority n; scheduled_at := scheduled_at n; expires_at := expires_at n;
     status := status n; sent_at := t; delivered_at := delivered_at n;
     read_at := read_at n; delivery_attempts := delivery_attempts n;
     max_attempts := max_attempts n; metadata := metadata n;
     created_by := created_by n; created_at := created_at n; updated_at := updated_at n |}.

Definition set_delivered_at (t : option datetime) (n : Notification) : Notification :=
  {| id := id n; recipient_id := recipient_id n; notification_type := notification_type n;
     title := title n; content := content n; channels := channels n;
     priority := priority n; scheduled_at := scheduled_at n; expires_at := expires_at n;
     status := status n; sent_at := sent_at n; delivered_at := t;
     read_at := read_at n; delivery_attempts := delivery_attempts n;
     max_attempts := max_attempts n; metadata := metadata n;
     created_by := created_by n; created_at := created_at n; updated_at := updated_at n |}.

(** The three ways a delivery attempt is advanced, each stamped with the
    time of the change. *)
Definition attempt_sent (t : datetime) (d : NotificationDelivery) : NotificationDelivery :=
  {| d_id := d_id d; d_notification_id := d_notification_id d; d_channel := d_channel d;
     d_status := "SENT"; d_attempt_number := d_attempt_number d;
     d_sent_at := Some t; d_delivered_at := d_delivered_at d;
     d_failed_at := d_failed_at d; d_error_message := d_error_message d;
     d_created_at := d_created_at d |}.

Definition attempt_delivered (t : datetime) (d : NotificationDelivery) : NotificationDelivery :=
  {| d_id := d_id d; d_notification_id := d_notification_id d; d_channel := d_channel d;
     d_status := "DELIVERED"; d_attempt_number := d_attempt_number d;
     d_sent_at := d_sent_at d; d_delivered_at := Some t;
     d_failed_at := d_failed_at d; d_error_message := d_error_message d;
     d_created_at := d_created_at d |}.

Definition attempt_failed (error_message : string) (t : datetime) (d : NotificationDelivery)
  : NotificationDelivery :=
  {| d_id := d_id d; d_notification_id := d_notification_id d; d_channel := d_channel d;
     d_status := "FAILED"; d_attempt_number := d_attempt_number d;
     d_sent_at := d_sent_at d; d_delivered_at := d_delivered_at d;
     d_failed_at := Some t; d_error_message := Some error_message;
     d_created_at := d_created_at d |}.

(** [for attempt in self.delivery_attempts: if test(attempt): ...; break]:
    the first attempt that passes the test is changed, with one reading of
    the clock; without such an attempt nothing happens. *)
Fixpoint change_first (test : NotificationDelivery -> bool)
    (change : datetime -> NotificationDelivery -> NotificationDelivery)
    (attempts : list NotificationDelivery) : eff World (list NotificationDelivery) :=
  match attempts with
  | [] => ret []
  | a :: rest =>
      if test a then
        let! t := utcnow in
        ret (change t a :: rest)
      else
        let! rest' := change_first test change rest in
        ret (a :: rest')
  end.

(** [Notification.mark_as_sent(channel)] *)
Definition mark_as_sent (n : Notification) (channel : NotificationChannel)
  : eff World Notification :=
  let! attempts :=
    change_first
      (fun a => bool_decide (d_channel a = channel) && String.eqb (d_status a) "PENDING")
      attempt_sent (delivery_attempts n) in
  let n := set_delivery_attempts attempts n in
  let! n :=
    if bool_decide (status n = PENDING) then
      let n := set_status SENT n in
      let! t := utcnow in
      ret (set_sent_at (Some t) n)
    else ret n in
  let! t := utcnow in
  ret (set_updated_at t n).

(** [Notification.mark_as_delivered(channel)] *)
Definition mark_as_delivered (n : Notification) (channel : NotificationChannel)
  : eff World Notification :=
  let! attempts :=
    change_first
      (fun a => bool_decide (d_channel a = channel) && String.eqb (d_status a) "SENT")
      attempt_delivered (delivery_attempts n) in
  let n := set_delivery_attempts attempts n in
  let all_delivered :=
    forallb
      (fun ch =>
         existsb (fun d => String.eqb (d_status d) "DELIVERED")
           (List.filter (fun d => bool_decide (d_channel d = ch)) (delivery_attempts n)))
      (channels n) in
  let! n :=
    if all_delivered then
      let n := set_status DELIVERED n in
      let! t := utcnow in
      ret (set_delivered_at (Some t) n)
    else ret n in
  let! t := utcnow in
  ret (set_updated_at t n).

(** [Notification.mark_as_failed(channel, error_message)] *)
Definition mark_as_failed (n : Notification) (channel : NotificationChannel)
    (error_message : string) : eff World Notification :=
  let! attempts :=
    change_first
      (fun a => bool_decide (d_channel a = channel)
                && bool_decide (d_status a ∈ ["PENDING"; "SENT"]))
      (attempt_failed error_message) (delivery_attempts n) in
  let n := set_delivery_attempts attempts n in
  let all_failed :=
    forallb
      (fun ch =>
         forallb (fun d => String.eqb (d_status d) "FAILED")
           (List.filter (fun d => bool_decide (d_channel d = ch)) (delivery_attempts n)))
      (channels n) in
  let n := if all_failed then set_status FAILED n else n in
  let! t := utcnow in
  ret (set_updated_at t n).

(** [Notification.can_retry(channel)] *)
Definition can_retry (n : Notification) (channel : NotificationChannel) : bool :=
  Z.of_nat (length (List.filter (fun d => bool_decide (d_channel d = channel))
                      (delivery_attempts n)))
  <? max_attempts n.

(** [Notification.is_expired()] and [Notification.is_scheduled()]: the
    reading of [utcnow()] is naive, so the comparison raises [TypeError]
    when the stored datetime is aware. *)
Definition is_expired (n : Notification) : eff World bool :=
  match expires_at n with
  | None => ret false
  | Some e => let! t := utcnow in moment_lt e (Naive t)
  end.

Definition is_scheduled (n : Notification) : eff World bool :=
  match scheduled_at n with
  | None => ret false
  | Some s => let! t := utcnow in moment_lt (Naive t) s
  end.

Definition delivery_to_dict (d : NotificationDelivery) : pyval :=
  PDict (list_to_map
    [ ("id", PStr (d_id d)); ("notification_id", PStr (d_notification_id d));
      ("channel", PStr (channel_value (d_channel d))); ("status", PStr (d_status d));
      ("attempt_number", PInt (d_attempt_number d));
      ("sent_at", opt_iso (d_sent_at d)); ("delivered_at", opt_iso (d_delivered_at d));
      ("failed_at", opt_iso (d_failed_at d));
      ("error_message", opt_str (d_error_message d));
      ("provider_response", PNone);
      ("created_at", PIso (d_created_at d)) ]).

(** [Notification.get_delivery_status_by_channel()]: for each channel the
    status of the attempt created last (the first of those created at the
    same instant), or NOT_ATTEMPTED. *)
Fixpoint latest_attempt (channel : NotificationChannel) (attempts : list NotificationDelivery)
    (latest : option NotificationDelivery) : option NotificationDelivery :=
  match attempts with
  | [] => latest
  | a :: rest =>
      if decide (d_channel a = channel) then
        match latest with
        | None => latest_attempt channel rest (Some a)
        | Some l =>
            if d_created_at a >? d_created_at l
            then latest_attempt channel rest (Some a)
            else latest_attempt channel rest latest
        end
      else latest_attempt channel rest latest
  end.

Definition get_delivery_status_by_channel (n : Notification) : gmap string pyval :=
  foldl (fun acc channel =>
           <[channel_value channel :=
               match latest_attempt channel (delivery_attempts n) None with
               | Some a => PStr (d_status a)
               | None => PStr "NOT_ATTEMPTED"
               end]> acc)
        ∅ (channels n).

(** [Notification.to_dict()], on the fields of the record above. *)
Definition to_dict (n : Notification) : eff World pyval :=
  let! expired := is_expired n in
  let! scheduled := is_scheduled n in
  ret (PDict (list_to_map
    [ ("id", PStr (id n)); ("recipient_id", PStr (recipient_id n));
      ("notification_type", PStr (type_value (notification_type n)));
      ("title", PStr (title n)); ("content", PStr (content n));
      ("channels", PList (map (fun c => PStr (channel_value c)) (channels n)));
      ("priority", PStr (priority_value (priority n)));
      ("scheduled_at", opt_moment_iso (scheduled_at n));
      ("expires_at", opt_moment_iso (expires_at n));
      ("status", PStr (status_value (status n)));
      ("sent_at", opt_iso (sent_at n)); ("delivered_at", opt_iso (delivered_at n));
      ("read_at", opt_iso (read_at n));
      ("delivery_attempts", PList (map delivery_to_dict (delivery_attempts n)));
      ("delivery_status_by_channel", PDict (get_delivery_status_by_channel n));
      ("max_attempts", PInt (max_attempts n));
      ("metadata", PDict (metadata n));
      ("is_expired", PBool expired); ("is_scheduled", PBool scheduled);
      ("created_by", PStr (created_by n));
      ("created_at", PIso (created_at n)); ("updated_at", PIso (updated_at n)) ])).

(** [NotificationPreference]: the four channel switches hold whatever the
    cached dictionary held, the category switches are booleans. *)
Record NotificationPreference : Type := {
  p_id : pyval;
  p_user_id : pyval;
  email_enabled : pyval;
  sms_enabled : pyval;
  push_enabled : pyval;
  in_app_enabled : pyval;
  quote_notifications : bool;
  booking_notifications : bool;
  shipment_notifications : bool;
  payment_notifications : bool;
  marketing_notifications : bool;
  system_notifications : bool;
  p_created_at : datetime;
  p_updated_at : datetime
}.

(** [NotificationPreference(user_id=..., email_enabled=..., sms_enabled=...,
    push_enabled=..., in_app_enabled=...)] with the defaults of the class
    for every other field. *)
Definition new_preference (user_id : pyval) (email sms push in_app : pyval)
  : eff World NotificationPreference :=
  let! i := uuid4 in
  let! created := utcnow in
  let! updated := utcnow in
  ret {| p_id := PStr i; p_user_id := user_id;
         email_enabled := email; sms_enabled := sms;
         push_enabled := push; in_app_enabled := in_app;
         quote_notifications := true; booking_notifications := true;
         shipment_notifications := true; payment_notifications := true;
         marketing_notifications := false; system_notifications := true;
         p_created_at := created; p_updated_at := updated |}.

(** [channel_map.get(channel, False)] *)
Definition is_channel_enabled (p : NotificationPreference) (channel : NotificationChannel)
  : pyval :=
  match channel with
  | EMAIL => email_enabled p
  | SMS => sms_enabled p
  | PUSH => push_enabled p
  | IN_APP => in_app_enabled p
  | WEBHOOK => PBool false
  end.

(** [type_map.get(notification_type, True)] *)
Definition is_type_enabled (p : NotificationPreference) (t : NotificationType) : bool :=
  match t with
  | QUOTE_CREATED | QUOTE_UPDATED | QUOTE_EXPIRED => quote_notifications p
  | BOOKING_CONFIRMED | BOOKING_CANCELLED => booking_notifications p
  | SHIPMENT_STATUS_UPDATE | SHIPMENT_DELIVERED => shipment_notifications p
  | PAYMENT_DUE | PAYMENT_RECEIVED => payment_notifications p
  | MARKETING => marketing_notifications p
  | SYSTEM_ALERT => system_notifications p
  | DOCUMENT_READY | REMINDER | WELCOME | PASSWORD_RESET => true
  end.

Definition preference_to_dict (p : NotificationPreference) : pyval :=
  PDict (list_to_map
    [ ("id", p_id p); ("user_id", p_user_id p);
      ("email_enabled", email_enabled p); ("sms_enabled", sms_enabled p);
      ("push_enabled", push_enabled p); ("in_app_enabled", in_app_enabled p);
      ("quote_notifications", PBool (quote_notifications p));
      ("booking_notifications", PBool (booking_notifications p));
      ("shipment_notifications", PBool (shipment_notifications p));
      ("payment_notifications", PBool (payment_notifications p));
      ("marketing_notifications", PBool (marketing_notifications p));
      ("system_notifications", PBool (system_notifications p));
      ("email_address", PNone); ("phone_number", PNone); ("timezone", PStr "UTC");
      ("quiet_hours_start", PNone); ("quiet_hours_end", PNone);
      ("digest_frequency", PStr "NONE"); ("digest_time", PStr "09:00");
      ("created_at", PIso (p_created_at p)); ("updated_at", PIso (p_updated_at p)) ]).

Section Service.
Context (lib : Library).

(** [services/notification_service.py], class [NotificationService]. *)

(** [_load_user_preferences]: the stand-in answers default preferences. *)
Definition _load_user_preferences (user_id : string) : eff World (option NotificationPreference) :=
  let! p := new_preference (PStr user_id) (PBool true) (PBool false) (PBool true) (PBool true) in
  ret (Some p).

Definition _dict_to_preferences (data : pyval) : eff World NotificationPreference :=
  let! p := new_preference (PStr "") (PBool true) (PBool false) (PBool true) (PBool true) in
  let! i := data_get data "id" (PStr "") in
  let! u := data_get data "user_id" (PStr "") in
  let! email := data_get data "email_enabled" (PBool true) in
  let! sms := data_get data "sms_enabled" (PBool false) in
  let! push := data_get data "push_enabled" (PBool true) in
  let! in_app := data_get data "in_app_enabled" (PBool true) in
  ret {| p_id := i; p_user_id := u;
         email_enabled := email; sms_enabled := sms;
         push_enabled := push; in_app_enabled := in_app;
         quote_notifications := quote_notifications p;
         booking_notifications := booking_notifications p;
         shipment_notifications := shipment_notifications p;
         payment_notifications := payment_notifications p;
         marketing_notifications := marketing_notifications p;
         system_notifications := system_notifications p;
         p_created_at := p_created_at p; p_updated_at := p_updated_at p |}.

Definition get_user_preferences (user_id : string) : eff World (option NotificationPreference) :=
  let! cached := cache_get ("preferences:" +:+ user_id) in
  if truthy (default PNone cached) then
    let! preferences_data := unwrap_cached lib (default PNone cached) in
    let! p := _dict_to_preferences preferences_data in
    ret (Some p)
  else
    let! preferences := _load_user_preferences user_id in
    match preferences with
    | Some p =>
        let! _ := cache_set ("preferences:" +:+ user_id) (preference_to_dict p) in
        ret preferences
    | None => ret preferences
    end.

(** The loop that parses the requested channels; the first value that names
    no channel raises. [parsed] is the list built so far, empty at the call. *)
Fixpoint parse_channels (requested : list string) (parsed : list NotificationChannel)
  : eff World (list NotificationChannel) :=
  match requested with
  | [] => ret parsed
  | channel :: rest =>
      match channel_of_value (str_upper lib channel) with
      | Some c => parse_channels rest (parsed ++ [c])
      | None => raise (BadRequest ("Invalid channel: " +:+ channel))
      end
  end.

(** The loop that keeps the channels the preferences enable. *)
Fixpoint enabled_channels (p : NotificationPreference) (t : NotificationType)
    (parsed : list NotificationChannel) (enabled : list NotificationChannel)
  : list NotificationChannel :=
  match parsed with
  | [] => enabled
  | channel :: rest =>
      if truthy (is_channel_enabled p channel) && is_type_enabled p t
      then enabled_channels p t rest (enabled ++ [channel])
      else enabled_channels p t rest enabled
  end.

(** The loop that adds one delivery attempt per channel. *)
Fixpoint add_attempts (n : Notification) (parsed : list NotificationChannel)
  : eff World Notification :=
  match parsed with
  | [] => ret n
  | channel :: rest =>
      let! r := add_delivery_attempt n channel "PENDING" in
      add_attempts (fst r) rest
  end.

Definition create_notification (recipient_id notification_type title content : string)
    (requested : option (list string)) (priority : string)
    (scheduled_at : option string) (metadata : option (gmap string pyval))
    (created_by : string) : eff World Notification :=
  let! parsed_type :=
    match type_of_value (str_upper lib notification_type) with
    | Some t => ret t
    | None => raise (BadRequest ("Invalid notification type: " +:+ notification_type))
    end in
  let! parsed_priority :=
    match priority_of_value (str_upper lib priority) with
    | Some p => ret p
    | None => raise (BadRequest ("Invalid priority: " +:+ priority))
    end in
  let! parsed_channels :=
    match requested with
    | Some (c :: cs) => parse_channels (c :: cs) []
    | _ => ret [EMAIL]
    end in
  let! parsed_scheduled_at :=
    match scheduled_at with
    | Some s =>
        if String.eqb s "" then ret None
        else
          match parse_iso lib s with
          | Some t => ret (Some t)
          | None => raise (BadRequest "Invalid scheduled_at format")
          end
    | None => ret None
    end in
  let! preferences := get_user_preferences recipient_id in
  let parsed_channels :=
    match preferences with
    | Some p =>
        match enabled_channels p parsed_type parsed_channels [] with
        | [] => [IN_APP]
        | enabled => enabled
        end
    | None => parsed_channels
    end in
  let! i := uuid4 in
  let! created := utcnow in
  let! updated := utcnow in
  let notification :=
    {| id := i; recipient_id := recipient_id; notification_type := parsed_type;
       title := title; content := content; channels := parsed_channels;
       priority := parsed_priority; scheduled_at := parsed_scheduled_at;
       expires_at := None; status := PENDING; sent_at := None; delivered_at := None;
       read_at := None; delivery_attempts := []; max_attempts := 3;
       metadata := default ∅ metadata;
       created_by := created_by; created_at := created; updated_at := updated |} in
  let! notification := add_attempts notification parsed_channels in
  let! d := to_dict notification in
  let! _ := cache_set ("notification:" +:+ id notification) d in
  let! stamp := utcnow in
  let! _ :=
    publish "notification.created"
      (PDict (list_to_map
        [ ("notification_id", PStr (id notification));
          ("recipient_id", PStr recipient_id);
          ("notification_type", PStr notification_type);
          ("title", PStr title);
          ("channels",
           match requested with
           | Some l => PList (map PStr l)
           | None => PNone
           end);
          ("priority", PStr priority);
          ("created_by", PStr created_by);
          ("timestamp", PIso stamp) ])) in
  ret notification.

End Service.

End Notifications.

(** ** Channel narrowing in the specification's words *)

Module NotificationSpec.
Import Notifications.

(** The channels a request names: each requested text, upper-cased, is
    the value of the channel at its place; no list and the empty list
    stand for EMAIL alone. *)
Definition names_channels (lib : Library) (requested : option (list string))
    (parsed : list NotificationChannel) : Prop :=
  match requested with
  | Some (c :: cs) =>
      Forall2 (fun text channel => channel_of_value (str_upper lib text) = Some channel)
        (c :: cs) parsed
  | _ => parsed = [EMAIL]
  end.


(** The channels a notification ends up with, in the specification's
    words: the requested ones that pass both preference checks, or IN_APP
    alone when none does. *)
Definition narrowed (p : NotificationPreference) (t : NotificationType)
    (parsed : list NotificationChannel) : list NotificationChannel :=
  match List.filter (fun c => truthy (is_channel_enabled p c) && is_type_enabled p t) parsed with
  | [] => [IN_APP]
  | enabled => enabled
  end.

End NotificationSpec.

(* ================================================================== *)
(** * Shared authentication *)
(* ================================================================== *)

Module Auth.

(** [shared/auth.py], class [User]. *)
Record User : Type := {
  user_id : string;
  username : string;
  email : string;
  roles : list string;
  permissions : list string
}.

(** [return role in self.roles] *)
Definition has_role (u : User) (role : string) : bool :=
  bool_decide (role ∈ roles u).

End Auth.

(* ================================================================== *)
(** * Booking service *)
(* ================================================================== *)

Module BookingService.

(** [models/booking.py] *)
Inductive BookingStatus : Type :=
| PENDING | CONFIRMED | CANCELLED | COMPLETED.

Inductive ShipmentStatus : Type :=
| BOOKED | PICKUP_SCHEDULED | PICKED_UP | IN_TRANSIT | CUSTOMS_CLEARANCE
| OUT_FOR_DELIVERY | DELIVERED | EXCEPTION.

Inductive ContainerStatus : Type :=
| AVAILABLE | ALLOCATED | IN_USE | MAINTENANCE | RETIRED.

Inductive ContainerType : Type :=
| DRY_20 | DRY_40 | DRY_40_HC | REEFER_20 | REEFER_40
| OPEN_TOP_20 | OPEN_TOP_40 | FLAT_RACK_20 | FLAT_RACK_40.

#[global] Instance BookingStatus_eq_dec : EqDecision BookingStatus.
Proof. solve_decision. Defined.

#[global] Instance ShipmentStatus_eq_dec : EqDecision ShipmentStatus.
Proof. solve_decision. Defined.

Definition booking_status_value (s : BookingStatus) : string :=
  match s with
  | PENDING => "PENDING" | CONFIRMED => "CONFIRMED"
  | CANCELLED => "CANCELLED" | COMPLETED => "COMPLETED"
  end.

Definition shipment_status_value (s : ShipmentStatus) : string :=
  match s with
  | BOOKED => "BOOKED" | PICKUP_SCHEDULED => "PICKUP_SCHEDULED"
  | PICKED_UP => "PICKED_UP" | IN_TRANSIT => "IN_TRANSIT"
  | CUSTOMS_CLEARANCE => "CUSTOMS_CLEARANCE" | OUT_FOR_DELIVERY => "OUT_FOR_DELIVERY"
  | DELIVERED => "DELIVERED" | EXCEPTION => "EXCEPTION"
  end.

Definition container_status_value (s : ContainerStatus) : string :=
  match s with
  | AVAILABLE => "AVAILABLE" | ALLOCATED => "ALLOCATED" | IN_USE => "IN_USE"
  | MAINTENANCE => "MAINTENANCE" | RETIRED => "RETIRED"
  end.

(** The member names of [ContainerType] and their values differ. *)
Definition container_type_name (t : ContainerType) : string :=
  match t with
  | DRY_20 => "DRY_20" | DRY_40 => "DRY_40" | DRY_40_HC => "DRY_40_HC"
  | REEFER_20 => "REEFER_20" | REEFER_40 => "REEFER_40"
  | OPEN_TOP_20 => "OPEN_TOP_20" | OPEN_TOP_40 => "OPEN_TOP_40"
  | FLAT_RACK_20 => "FLAT_RACK_20" | FLAT_RACK_40 => "FLAT_RACK_40"
  end.

Definition container_type_value (t : ContainerType) : string :=
  match t with
  | DRY_20 => "20FT_DRY" | DRY_40 => "40FT_DRY" | DRY_40_HC => "40FT_HC_DRY"
  | REEFER_20 => "20FT_REEFER" | REEFER_40 => "40FT_REEFER"
  | OPEN_TOP_20 => "20FT_OPEN_TOP" | OPEN_TOP_40 => "40FT_OPEN_TOP"
  | FLAT_RACK_20 => "20FT_FLAT_RACK" | FLAT_RACK_40 => "40FT_FLAT_RACK"
  end.

Definition all_booking_statuses : list BookingStatus :=
  [ PENDING; CONFIRMED; CANCELLED; COMPLETED ].

Definition all_container_types : list ContainerType :=
  [ DRY_20; DRY_40; DRY_40_HC; REEFER_20; REEFER_40;
    OPEN_TOP_20; OPEN_TOP_40; FLAT_RACK_20; FLAT_RACK_40 ].

(** [BookingStatus(v)] and [ContainerType(v)] for a value [v] of any type:
    only a string equal to the value of a member names one, everything else
    is a [ValueError]. *)
Definition booking_status_of (v : pyval) : eff World BookingStatus :=
  match v with
  | PStr s =>
      match enum_of_value all_booking_statuses booking_status_value s with
      | Some m => ret m
      | None => raise (ValueError ("'" +:+ s +:+ "' is not a valid BookingStatus"))
      end
  | _ => raise (ValueError "not a valid BookingStatus")
  end.

Definition container_type_of (v : pyval) : eff World ContainerType :=
  match v with
  | PStr s =>
      match enum_of_value all_container_types container_type_value s with
      | Some m => ret m
      | None => raise (ValueError ("'" +:+ s +:+ "' is not a valid ContainerType"))
      end
  | _ => raise (ValueError "not a valid ContainerType")
  end.

Record Contact : Type := {
  c_name : string;
  c_company : option string;
  c_phone : option string;
  c_email : option string;
  c_address : option string
}.

Definition contact_to_dict (c : Contact) : pyval :=
  PDict (list_to_map
    [ ("name", PStr (c_name c)); ("company", opt_str (c_company c));
      ("phone", opt_str (c_phone c)); ("email", opt_str (c_email c));
      ("address", opt_str (c_address c)) ]).

(** What [eta] and [etd] of [VesselDetails] hold: a datetime object, as
    their type says and as the tracking service's stored shipments have
    it, or the value of the request dictionary as it came, [None] when the
    key is absent, as [confirm_booking] leaves it. *)
Inductive vessel_time : Type :=
| Time (m : moment)
| AsGiven (v : pyval).

(** [VesselDetails] is built from the request dictionary by keyword
    unpacking: the other fields hold its values as they came. *)
Record VesselDetails : Type := {
  vessel_name : pyval;
  voyage_number : pyval;
  imo_number : pyval;
  eta : vessel_time;
  etd : vessel_time
}.

Record Container : Type := {
  k_id : string;
  container_number : string;
  container_type : ContainerType;
  k_status : ContainerStatus;
  k_location : option string;
  current_shipment_id : option string;
  last_inspection_date : option datetime;
  next_maintenance_date : option datetime;
  k_created_at : datetime;
  k_updated_at : datetime
}.

Record TrackingEvent : Type := {
  e_id : string;
  e_shipment_id : string;
  e_status : ShipmentStatus;
  e_location : pyval;
  e_description : string;
  event_time : moment;
  e_vessel_name : option string;
  e_voyage_number : option string;
  e_estimated_arrival : option moment;
  e_created_at : datetime
}.

(** [Booking]: the four fields that [_dict_to_booking] fills hold the
    values of the cached dictionary as they came. *)
Record Booking : Type := {
  b_id : pyval;
  quote_id : pyval;
  customer_id : pyval;
  booking_number : pyval;
  b_status : BookingStatus;
  special_instructions : option string;
  pickup_contact : option Contact;
  delivery_contact : option Contact;
  created_by : string;
  b_created_at : datetime;
  b_updated_at : datetime;
  confirmed_at : option datetime
}.

(** [Shipment]; its documents, which none of the methods below reads or
    writes, are left out. *)
Record Shipment : Type := {
  s_id : string;
  booking_id : string;
  tracking_number : string;
  status : ShipmentStatus;
  origin_port : pyval;
  destination_port : pyval;
  vessel_details : option VesselDetails;
  container_ids : list string;
  estimated_departure : option moment;
  estimated_arrival : option moment;
  actual_departure : option datetime;
  actual_arrival : option datetime;
  tracking_events : list TrackingEvent;
  s_created_at : datetime;
  s_updated_at : datetime
}.

Definition set_tracking_events (l : list TrackingEvent) (s : Shipment) : Shipment :=
  {| s_id := s_id s; booking_id := booking_id s; tracking_number := tracking_number s;
     status := status s; origin_port := origin_port s;
     destination_port := destination_port s; vessel_details := vessel_details s;
     container_ids := container_ids s; estimated_departure := estimated_departure s;
     estimated_arrival := estimated_arrival s; actual_departure := actual_departure s;
     actual_arrival := actual_arrival s; tracking_events := l;
     s_created_at := s_created_at s; s_updated_at := s_updated_at s |}.

Definition set_status (st : ShipmentStatus) (s : Shipment) : Shipment :=
  {| s_id := s_id s; booking_id := booking_id s; tracking_number := tracking_number s;
     status := st; origin_port := origin_port s;
     destination_port := destination_port s; vessel_details := vessel_details s;
     container_ids := container_ids s; estimated_departure := estimated_departure s;
     estimated_arrival := estimated_arrival s; actual_departure := actual_departure s;
     actual_arrival := actual_arrival s; tracking_events := tracking_events s;
     s_created_at := s_created_at s; s_updated_at := s_updated_at s |}.

Definition set_updated_at (t : datetime) (s : Shipment) : Shipment :=
  {| s_id := s_id s; booking_id := booking_id s; tracking_number := tracking_number s;
     status := status s; origin_port := origin_port s;
     destination_port := destination_port s; vessel_details := vessel_details s;
     container_ids := container_ids s; estimated_departure := estimated_departure s;
     estimated_arrival := estimated_arrival s; actual_departure := actual_departure s;
     actual_arrival := actual_arrival s; tracking_events := tracking_events s;
     s_created_at := s_created_at s; s_updated_at := t |}.

(** [Shipment.add_tracking_event]; the result is the shipment after the
    call and the new event. *)
Definition add_tracking_event (s : Shipment) (st : ShipmentStatus)
    (location : pyval) (description : string) (time : option moment)
    (vessel voyage : option string) : eff World (Shipment * TrackingEvent) :=
  let! t :=
    match time with
    | Some t => ret t
    | None => let! t := utcnow in ret (Naive t)
    end in
  let! i := uuid4 in
  let! created := utcnow in
  let event :=
    {| e_id := i; e_shipment_id := s_id s; e_status := st; e_location := location;
       e_description := description; event_time := t;
       e_vessel_name := vessel; e_voyage_number := voyage;
       e_estimated_arrival := None; e_created_at := created |} in
  let s := set_tracking_events (tracking_events s ++ [event]) s in
  let s := set_status st s in
  let! updated := utcnow in
  ret (set_updated_at updated s, event).

(** The arguments of one call of [add_tracking_event], and a sequence of
    calls made one after the other on the same shipment. *)
Record TrackingCall : Type := {
  call_status : ShipmentStatus;
  call_location : pyval;
  call_description : string;
  call_time : option moment;
  call_vessel : option string;
  call_voyage : option string
}.

Fixpoint add_tracking_events (s : Shipment) (calls : list TrackingCall)
  : eff World Shipment :=
  match calls with
  | [] => ret s
  | c :: rest =>
      let! r :=
        add_tracking_event s (call_status c) (call_location c) (call_description c)
          (call_time c) (call_vessel c) (call_voyage c) in
      add_tracking_events (fst r) rest
  end.

(** [sorted(events, key=lambda x: x.event_time)]. Sorting compares the
    event times with [<]. Every sort by comparisons links all elements by
    the comparisons it makes, so among events with naive and with aware
    times it compares a naive with an aware one and raises [TypeError]
    (Python's own sort compares neighbours first and raises at the first
    such pair); no or one event is sorted without a comparison. When all
    times are of one kind the result is ascending and stable: events of
    equal time keep their order. *)
Fixpoint insert_by_time (e : TrackingEvent) (sorted : list TrackingEvent)
  : list TrackingEvent :=
  match sorted with
  | [] => [e]
  | x :: rest =>
      if instant (event_time e) <=? instant (event_time x) then e :: x :: rest
      else x :: insert_by_time e rest
  end.

Definition mixed_times (events : list TrackingEvent) : bool :=
  existsb (fun e => is_aware (event_time e)) events
  && existsb (fun e => negb (is_aware (event_time e))) events.

Definition in_time_order (events : list TrackingEvent) : list TrackingEvent :=
  foldr insert_by_time [] events.

Definition sorted_by_time (events : list TrackingEvent) : eff World (list TrackingEvent) :=
  if mixed_times events
  then raise (TypeError "can't compare offset-naive and offset-aware datetimes")
  else ret (in_time_order events).

(** The order of the serialized history. *)
Definition by_time (a b : TrackingEvent) : Prop :=
  instant (event_time a) <= instant (event_time b).

(** [Shipment.get_current_location()] *)
Definition get_current_location (s : Shipment) : eff World (option pyval) :=
  match tracking_events s with
  | [] => ret None
  | _ =>
      let! sorted := sorted_by_time (tracking_events s) in
      ret (e_location <$> last sorted)
  end.

(** [Shipment.get_progress_percentage()] *)
Definition get_progress_percentage (s : Shipment) : Z :=
  match status s with
  | BOOKED => 10 | PICKUP_SCHEDULED => 20 | PICKED_UP => 30 | IN_TRANSIT => 60
  | CUSTOMS_CLEARANCE => 80 | OUT_FOR_DELIVERY => 90 | DELIVERED => 100
  | EXCEPTION => 0
  end.

Definition event_to_dict (e : TrackingEvent) : pyval :=
  PDict (list_to_map
    [ ("id", PStr (e_id e)); ("shipment_id", PStr (e_shipment_id e));
      ("status", PStr (shipment_status_value (e_status e)));
      ("location", e_location e); ("description", PStr (e_description e));
      ("event_time", moment_iso (event_time e));
      ("vessel_name", opt_str (e_vessel_name e));
      ("voyage_number", opt_str (e_voyage_number e));
      ("estimated_arrival", opt_moment_iso (e_estimated_arrival e));
      ("created_at", PIso (e_created_at e)) ]).

(** [self.eta.isoformat() if self.eta else None]: a datetime gives its
    text; a value of the request that is not falsy, a string or a number,
    has no [isoformat]. *)
Definition iso_or_none (v : vessel_time) : eff World pyval :=
  match v with
  | Time m => ret (moment_iso m)
  | AsGiven v =>
      if truthy v then raise (AttributeError "object has no attribute 'isoformat'")
      else ret PNone
  end.

Definition vessel_to_dict (v : VesselDetails) : eff World pyval :=
  let! a := iso_or_none (eta v) in
  let! d := iso_or_none (etd v) in
  ret (PDict (list_to_map
    [ ("vessel_name", vessel_name v); ("voyage_number", voyage_number v);
      ("imo_number", imo_number v); ("eta", a); ("etd", d) ])).

(** [Shipment.to_dict()], without the documents. The dictionary is built
    entry by entry: the vessel details are serialized first, then the
    current location is looked up, then the events are sorted. *)
Definition shipment_fields (s : Shipment) (vessel location : pyval)
    (sorted : list TrackingEvent) : gmap string pyval :=
  list_to_map
    [ ("id", PStr (s_id s)); ("booking_id", PStr (booking_id s));
      ("tracking_number", PStr (tracking_number s));
      ("status", PStr (shipment_status_value (status s)));
      ("origin_port", origin_port s); ("destination_port", destination_port s);
      ("vessel_details", vessel);
      ("container_ids", PList (map PStr (container_ids s)));
      ("estimated_departure", opt_moment_iso (estimated_departure s));
      ("estimated_arrival", opt_moment_iso (estimated_arrival s));
      ("actual_departure", opt_iso (actual_departure s));
      ("actual_arrival", opt_iso (actual_arrival s));
      ("current_location", location);
      ("progress_percentage", PInt (get_progress_percentage s));
      ("tracking_events", PList (map event_to_dict sorted));
      ("created_at", PIso (s_created_at s)); ("updated_at", PIso (s_updated_at s)) ].

Definition shipment_to_dict (s : Shipment) : eff World pyval :=
  let! vessel :=
    match vessel_details s with
    | Some v => vessel_to_dict v
    | None => ret PNone
    end in
  let! location := get_current_location s in
  let! sorted := sorted_by_time (tracking_events s) in
  ret (PDict (shipment_fields s vessel (default PNone location) sorted)).

(** [Booking.to_dict()] *)
Definition booking_to_dict (b : Booking) : pyval :=
  PDict (list_to_map
    [ ("id", b_id b); ("quote_id", quote_id b); ("customer_id", customer_id b);
      ("booking_number", booking_number b);
      ("status", PStr (booking_status_value (b_status b)));
      ("special_instructions", opt_str (special_instructions b));
      ("pickup_contact",
       match pickup_contact b with Some c => contact_to_dict c | None => PNone end);
      ("delivery_contact",
       match delivery_contact b with Some c => contact_to_dict c | None => PNone end);
      ("created_by", PStr (created_by b));
      ("created_at", PIso (b_created_at b)); ("updated_at", PIso (b_updated_at b));
      ("confirmed_at", opt_iso (confirmed_at b)) ]).

(** [Customer], as the booking service keeps it. *)
Record Customer : Type := {
  cu_id : string;
  company_name : string;
  contact_name : string;
  cu_email : string;
  cu_phone : string;
  cu_address : string;
  cu_created_at : datetime
}.

(** The envelope of a listing. *)
Record Page (A : Type) : Type := {
  items : list A;
  page : Z;
  per_page : Z;
  total : Z;
  pages : Z
}.
Arguments items {A} p.
Arguments page {A} p.
Arguments per_page {A} p.
Arguments total {A} p.
Arguments pages {A} p.

(** [a // b] on ints. *)
Definition floordiv (a b : Z) : eff World Z :=
  if b =? 0 then raise (ZeroDivisionError "integer division or modulo by zero")
  else ret (a / b).

Section Engine.
Context (lib : Library).

(** [Booking()] with every field at its default: the factories draw the id
    and read the clock, and [__post_init__] writes the booking number. *)
Definition new_booking : eff World Booking :=
  let! i := uuid4 in
  let! created := utcnow in
  let! updated := utcnow in
  let! today := datetime_now in
  ret {| b_id := PStr i; quote_id := PStr ""; customer_id := PStr "";
         booking_number := PStr ("BK" +:+ strftime_ymd lib today +:+ short_id lib i);
         b_status := PENDING; special_instructions := None;
         pickup_contact := None; delivery_contact := None;
         created_by := ""; b_created_at := created; b_updated_at := updated;
         confirmed_at := None |}.

(** [services/booking_engine.py], [BookingEngine._dict_to_booking]. *)
Definition _dict_to_booking (data : pyval) : eff World Booking :=
  let! b := new_booking in
  let! i := data_get data "id" (PStr "") in
  let! q := data_get data "quote_id" (PStr "") in
  let! c := data_get data "customer_id" (PStr "") in
  let! n := data_get data "booking_number" (PStr "") in
  let! v := data_get data "status" (PStr "PENDING") in
  let! st := booking_status_of v in
  ret {| b_id := i; quote_id := q; customer_id := c; booking_number := n;
         b_status := st; special_instructions := special_instructions b;
         pickup_contact := pickup_contact b; delivery_contact := delivery_contact b;
         created_by := created_by b; b_created_at := b_created_at b;
         b_updated_at := b_updated_at b; confirmed_at := confirmed_at b |}.

(** [BookingEngine._find_available_containers]: the stand-in makes up
    [quantity] containers. [range(quantity)] needs an int. *)
Definition as_int (v : pyval) : option Z :=
  match v with
  | PInt z => Some z
  | PBool b => Some (if b then 1 else 0)
  | _ => None
  end.

Definition new_container (t : ContainerType) : eff World Container :=
  let! u := uuid4 in
  let! i := uuid4 in
  let! created := utcnow in
  let! updated := utcnow in
  ret {| k_id := i;
         container_number := container_type_value t +:+ "-" +:+ short_id lib u;
         container_type := t; k_status := AVAILABLE;
         k_location := Some "Port Warehouse"; current_shipment_id := None;
         last_inspection_date := None; next_maintenance_date := None;
         k_created_at := created; k_updated_at := updated |}.

Fixpoint new_containers (t : ContainerType) (n : nat) (made : list Container)
  : eff World (list Container) :=
  match n with
  | O => ret made
  | S n' =>
      let! c := new_container t in
      new_containers t n' (made ++ [c])
  end.

Definition _find_available_containers (t : ContainerType) (quantity : pyval)
  : eff World (list Container) :=
  match as_int quantity with
  | Some z => new_containers t (Z.to_nat z) []
  | None => raise (TypeError "object cannot be interpreted as an integer")
  end.

(** [available[:quantity]] *)
Definition slice_to {A : Type} (l : list A) (z : Z) : list A :=
  if z <? 0 then firstn (Z.to_nat (Z.of_nat (length l) + z)) l
  else firstn (Z.to_nat z) l.

(** The inner loop of [_allocate_containers]. *)
Fixpoint allocate_each (containers : list Container) (allocated : list string)
  : eff World (list string) :=
  match containers with
  | [] => ret allocated
  | c :: rest =>
      let! _ := utcnow in
      allocate_each rest (allocated ++ [k_id c])
  end.

(** [BookingEngine._allocate_containers]; [allocated] is the list of ids
    built so far, empty at the call. *)
Fixpoint _allocate_containers (requirements : list (gmap string pyval))
    (allocated : list string) : eff World (list string) :=
  match requirements with
  | [] => ret allocated
  | requirement :: rest =>
      let! t := container_type_of (default (PStr "DRY_20") (requirement !! "type")) in
      let quantity := default (PInt 1) (requirement !! "quantity") in
      let! available := _find_available_containers t quantity in
      match as_int quantity with
      | None => raise (TypeError "'<' not supported")
      | Some q =>
          if Z.of_nat (length available) <? q
          then raise (BadRequest ("Not enough " +:+ container_type_value t
                                  +:+ " containers available"))
          else
            let! allocated := allocate_each (slice_to available q) allocated in
            _allocate_containers rest allocated
      end
  end.

(** The methods of the engine that stand in for the user directory and the
    datastore. *)
Record Backend : Type := {
  _is_admin : string -> bool;
  _load_booking : string -> eff World (option Booking)
}.

(** Their bodies as shipped: every user is an administrator and the
    datastore holds no booking. *)
Definition shipped : Backend :=
  {| _is_admin := fun _ => true;
     _load_booking := fun _ => ret None |}.

Section Methods.
Context (backend : Backend).

(** [return booking.created_by == user_id or self._is_admin(user_id)] *)
Definition _can_access_booking (b : Booking) (user_id : string) : bool :=
  String.eqb (created_by b) user_id || _is_admin backend user_id.

Definition get_booking (booking_id user_id : string) : eff World (option Booking) :=
  let! cached := cache_get ("booking:" +:+ booking_id) in
  if truthy (default PNone cached) then
    let! booking_data := unwrap_cached lib (default PNone cached) in
    let! booking := _dict_to_booking booking_data in
    if negb (_can_access_booking booking user_id) then ret None
    else ret (Some booking)
  else
    let! loaded := _load_booking backend booking_id in
    match loaded with
    | None => ret None
    | Some booking =>
        if negb (_can_access_booking booking user_id) then ret None
        else
          let! _ := cache_set ("booking:" +:+ booking_id) (booking_to_dict booking) in
          ret (Some booking)
    end.

(** [BookingEngine._get_quote]: the stand-in answers one fixed accepted
    quote for every id. *)
Definition _get_quote (quote_id : pyval) : eff World (option (gmap string pyval)) :=
  ret (Some (list_to_map
    [ ("id", quote_id); ("status", PStr "ACCEPTED");
      ("origin_port", PStr "USNYC"); ("destination_port", PStr "CNSHA");
      ("service_type", PStr "FCL"); ("total_amount", PInt 2500) ])).

(** [BookingEngine._parse_datetime]; its bare [except] turns every failure
    into [None]. The text of a datetime reads back as that datetime. *)
Definition _parse_datetime (date_str : pyval) : option moment :=
  if negb (truthy date_str) then None
  else match date_str with
       | PStr s => parse_iso lib s
       | PIso t => Some (Naive t)
       | PIsoAware t offset => Some (Aware t offset)
       | _ => None
       end.

(** Keyword unpacking into [VesselDetails]: the two names are required
    and no key outside the five fields is accepted. *)
Definition vessel_of_dict (d : gmap string pyval) : eff World VesselDetails :=
  if negb (bool_decide (dom d ⊆ ({[ "vessel_name"; "voyage_number"; "imo_number";
                                    "eta"; "etd" ]} : gset string)))
  then raise (TypeError "unexpected keyword argument")
  else
    match d !! "vessel_name", d !! "voyage_number" with
    | Some name, Some voyage =>
        ret {| vessel_name := name; voyage_number := voyage;
               imo_number := default PNone (d !! "imo_number");
               eta := AsGiven (default PNone (d !! "eta"));
               etd := AsGiven (default PNone (d !! "etd")) |}
    | _, _ => raise (TypeError "missing required positional argument")
    end.

Definition set_confirmed (t t' : datetime) (b : Booking) : Booking :=
  {| b_id := b_id b; quote_id := quote_id b; customer_id := customer_id b;
     booking_number := booking_number b; b_status := CONFIRMED;
     special_instructions := special_instructions b;
     pickup_contact := pickup_contact b; delivery_contact := delivery_contact b;
     created_by := created_by b; b_created_at := b_created_at b;
     b_updated_at := t'; confirmed_at := Some t |}.

(** [BookingEngine.confirm_booking] *)
Definition confirm_booking (booking_id user_id : string)
    (vessel : option (gmap string pyval))
    (container_details : option (list (gmap string pyval))) : eff World Shipment :=
  let! found := get_booking booking_id user_id in
  match found with
  | None => raise (NotFound "Booking not found")
  | Some booking =>
      if negb (bool_decide (b_status booking = PENDING))
      then raise (Conflict "Booking is not in pending status")
      else
        let! quote := _get_quote (quote_id booking) in
        match quote with
        | None => raise (NotFound "Original quote not found")
        | Some quote =>
            let! ids :=
              match container_details with
              | Some (r :: rs) => _allocate_containers (r :: rs) []
              | _ => ret []
              end in
            let given :=
              match vessel with
              | Some d => if Nat.eqb (size d) 0 then None else Some d
              | None => None
              end in
            let! details :=
              match given with
              | Some d => let! v := vessel_of_dict d in ret (Some v)
              | None => ret None
              end in
            let! i := uuid4 in
            let! created := utcnow in
            let! updated := utcnow in
            let! today := datetime_now in
            let shipment :=
              {| s_id := i; booking_id := booking_id;
                 tracking_number := "FF" +:+ strftime_ymd lib today +:+ short_id lib i;
                 status := BOOKED;
                 origin_port := default (PStr "") (quote !! "origin_port");
                 destination_port := default (PStr "") (quote !! "destination_port");
                 vessel_details := details; container_ids := ids;
                 estimated_departure :=
                   match given with
                   | Some d => _parse_datetime (default PNone (d !! "etd"))
                   | None => None
                   end;
                 estimated_arrival :=
                   match given with
                   | Some d => _parse_datetime (default PNone (d !! "eta"))
                   | None => None
                   end;
                 actual_departure := None; actual_arrival := None;
                 tracking_events := [];
                 s_created_at := created; s_updated_at := updated |} in
            let! r :=
              add_tracking_event shipment BOOKED
                (default (PStr "Origin") (quote !! "origin_port"))
                "Shipment booked and confirmed" None None None in
            let shipment := fst r in
            let! confirmed := utcnow in
            let! touched := utcnow in
            let booking := set_confirmed confirmed touched booking in
            let! _ := cache_set ("booking:" +:+ booking_id) (booking_to_dict booking) in
            let! d1 := shipment_to_dict shipment in
            let! _ := cache_set ("shipment:" +:+ s_id shipment) d1 in
            let! d2 := shipment_to_dict shipment in
            let! _ := cache_set ("tracking:" +:+ tracking_number shipment) d2 in
            let! stamp1 := utcnow in
            let! _ :=
              publish "booking.confirmed"
                (PDict (list_to_map
                  [ ("booking_id", PStr booking_id); ("shipment_id", PStr (s_id shipment));
                    ("tracking_number", PStr (tracking_number shipment));
                    ("customer_id", customer_id booking);
                    ("timestamp", PIso stamp1) ])) in
            let! stamp2 := utcnow in
            let! _ :=
              publish "shipment.created"
                (PDict (list_to_map
                  [ ("shipment_id", PStr (s_id shipment)); ("booking_id", PStr booking_id);
                    ("tracking_number", PStr (tracking_number shipment));
                    ("origin_port", origin_port shipment);
                    ("destination_port", destination_port shipment);
                    ("timestamp", PIso stamp2) ])) in
            ret shipment
        end
  end.

(** [main.py], route [POST /api/v1/bookings/<booking_id>/confirm]: the
    handler translates [NotFound] and [Conflict]; every other exception,
    [BadRequest] included, falls to its last clause. *)
Definition confirm_booking_except (e : exn) : Z :=
  match e with
  | NotFound _ => 404
  | Conflict _ => 409
  | _ => 500
  end.

(** [BookingEngine._get_customer]: the stand-in answers one fixed customer
    for every id. *)
Definition _get_customer (customer_id : string) : eff World (option Customer) :=
  let! created := utcnow in
  ret (Some {| cu_id := customer_id; company_name := "Acme Corp";
               contact_name := "John Doe"; cu_email := "john@acme.com";
               cu_phone := "+1-555-0123"; cu_address := "";
               cu_created_at := created |}).

(** [BookingEngine.create_booking], for a call that gives no pickup and no
    delivery contact. *)
Definition create_booking (quote customer : string) (instructions : option string)
  : eff World Booking :=
  let! found := _get_quote (PStr quote) in
  match found with
  | None => raise (NotFound "Quote not found")
  | Some q =>
      if Nat.eqb (size q) 0 then raise (NotFound "Quote not found")
      else if negb (equals_str (default PNone (q !! "status")) "ACCEPTED")
      then raise (BadRequest "Quote must be accepted before booking")
      else
        let! known := _get_customer customer in
        match known with
        | None => raise (NotFound "Customer not found")
        | Some _ =>
            let! i := uuid4 in
            let! created := utcnow in
            let! updated := utcnow in
            let! today := datetime_now in
            let booking :=
              {| b_id := PStr i; quote_id := PStr quote; customer_id := PStr customer;
                 booking_number :=
                   PStr ("BK" +:+ strftime_ymd lib today +:+ short_id lib i);
                 b_status := PENDING; special_instructions := instructions;
                 pickup_contact := None; delivery_contact := None;
                 created_by := customer; b_created_at := created;
                 b_updated_at := updated; confirmed_at := None |} in
            let! _ := cache_set ("booking:" +:+ i) (booking_to_dict booking) in
            let! stamp := utcnow in
            let! _ :=
              publish "booking.created"
                (PDict (list_to_map
                  [ ("booking_id", PStr i); ("quote_id", PStr quote);
                    ("customer_id", PStr customer);
                    ("booking_number", booking_number booking);
                    ("timestamp", PIso stamp) ])) in
            ret booking
        end
  end.

End Methods.

(** [main.py], route [GET /api/v1/bookings/<booking_id>]: the status code
    of the answer. *)
Definition get_booking_route (backend : Backend) (booking_id request_user_id : string)
  : eff World Z :=
  fun w =>
    match get_booking backend booking_id request_user_id w with
    | (Return (Some _), w') => (Return 200, w')
    | (Return None, w') => (Return 404, w')
    | (Raise (NotFound _), w') => (Return 404, w')
    | (Raise _, w') => (Return 500, w')
    end.

(** The query of the datastore behind the listings: the filters, the page
    and the page size give the dictionaries of one page and the number of
    all matches. *)
Record Store : Type := {
  _query_bookings : gmap string pyval -> Z -> Z -> eff World (list pyval * Z)
}.

(** Its body as shipped: nothing is ever found. *)
Definition shipped_store : Store :=
  {| _query_bookings := fun _ _ _ => ret ([], 0) |}.

(** The loop that rebuilds the bookings of a page. *)
Fixpoint bookings_of (data : list pyval) (bookings : list Booking)
  : eff World (list Booking) :=
  match data with
  | [] => ret bookings
  | d :: rest =>
      let! b := _dict_to_booking d in
      bookings_of rest (bookings ++ [b])
  end.

(** [BookingEngine.get_bookings] *)
Definition get_bookings (store : Store) (user_id : string)
    (customer status : option string) (page_no page_size : Z)
  : eff World (Page Booking) :=
  let filters : gmap string pyval := {[ "created_by" := PStr user_id ]} in
  let filters :=
    match customer with
    | Some c => if String.eqb c "" then filters else <["customer_id" := PStr c]> filters
    | None => filters
    end in
  let filters :=
    match status with
    | Some s => if String.eqb s "" then filters else <["status" := PStr s]> filters
    | None => filters
    end in
  let! bookings_data := _query_bookings store filters page_no page_size in
  let! bookings := bookings_of (fst bookings_data) [] in
  let! count := floordiv (snd bookings_data + page_size - 1) page_size in
  ret {| items := bookings; page := page_no; per_page := page_size;
         total := snd bookings_data; pages := count |}.

End Engine.

End BookingService.

(* ================================================================== *)
(** * Tracking service *)
(* ================================================================== *)

Module Tracking.
Import BookingService.

Definition all_shipment_statuses : list ShipmentStatus :=
  [ BOOKED; PICKUP_SCHEDULED; PICKED_UP; IN_TRANSIT; CUSTOMS_CLEARANCE;
    OUT_FOR_DELIVERY; DELIVERED; EXCEPTION ].

Definition set_estimated_arrival (t : option moment) (s : Shipment) : Shipment :=
  {| s_id := s_id s; booking_id := booking_id s; tracking_number := tracking_number s;
     status := status s; origin_port := origin_port s;
     destination_port := destination_port s; vessel_details := vessel_details s;
     container_ids := container_ids s; estimated_departure := estimated_departure s;
     estimated_arrival := t; actual_departure := actual_departure s;
     actual_arrival := actual_arrival s; tracking_events := tracking_events s;
     s_created_at := s_created_at s; s_updated_at := s_updated_at s |}.

(** The datastore behind [services/tracking_service.py]. *)
Record Store : Type := {
  _load_shipment : string -> eff World (option Shipment);
  _load_shipment_by_tracking : string -> eff World (option Shipment)
}.

Section Service.
Context (lib : Library) (store : Store).

(** [TrackingService.add_tracking_event] *)
Definition add_tracking_event (shipment_id status_name location description : string)
    (time : option string) (vessel voyage : option string) : eff World TrackingEvent :=
  let! loaded := _load_shipment store shipment_id in
  match loaded with
  | None => raise (NotFound "Shipment not found")
  | Some shipment =>
      let! parsed_time :=
        match time with
        | Some s =>
            if String.eqb s "" then let! t := utcnow in ret (Naive t)
            else match parse_iso lib s with
                 | Some t => ret t
                 | None => let! t := utcnow in ret (Naive t)
                 end
        | None => let! t := utcnow in ret (Naive t)
        end in
      match enum_of_value all_shipment_statuses shipment_status_value status_name with
      | None => raise (BadRequest ("Invalid status: " +:+ status_name))
      | Some shipment_status =>
          let! r :=
            BookingService.add_tracking_event shipment shipment_status (PStr location)
              description (Some parsed_time) vessel voyage in
          let shipment := fst r in
          let tracking_event := snd r in
          let shipment :=
            match e_estimated_arrival tracking_event with
            | Some t => set_estimated_arrival (Some t) shipment
            | None => shipment
            end in
          let! d := shipment_to_dict shipment in
          let! _ := cache_set ("shipment:" +:+ shipment_id) d in
          let! _ := cache_delete ("tracking:" +:+ tracking_number shipment) in
          let! stamp := utcnow in
          let! _ :=
            publish "shipment.tracking_updated"
              (PDict (list_to_map
                [ ("shipment_id", PStr shipment_id);
                  ("tracking_number", PStr (tracking_number shipment));
                  ("status", PStr status_name); ("location", PStr location);
                  ("description", PStr description);
                  ("event_time", moment_iso parsed_time);
                  ("vessel_name", opt_str vessel); ("voyage_number", opt_str voyage);
                  ("timestamp", PIso stamp) ])) in
          let! _ :=
            if bool_decide (shipment_status ∈ [PICKED_UP; IN_TRANSIT; OUT_FOR_DELIVERY;
                                               DELIVERED])
            then
              let! stamp' := utcnow in
              publish "shipment.status_changed"
                (PDict (list_to_map
                  [ ("shipment_id", PStr shipment_id);
                    ("tracking_number", PStr (tracking_number shipment));
                    ("old_status", PStr (shipment_status_value (status shipment)));
                    ("new_status", PStr status_name); ("location", PStr location);
                    ("timestamp", PIso stamp') ]))
            else ret tt in
          ret tracking_event
      end
  end.

(** [TrackingService.track_shipment], the public lookup. *)
Definition track_shipment (number : string) : eff World (option pyval) :=
  let! cached := cache_get ("tracking:" +:+ number) in
  if truthy (default PNone cached) then
    let! v := unwrap_cached lib (default PNone cached) in
    ret (Some v)
  else
    let! loaded := _load_shipment_by_tracking store number in
    match loaded with
    | None => ret None
    | Some shipment =>
        let! location := get_current_location shipment in
        let! vessel :=
          match vessel_details shipment with
          | Some v => vessel_to_dict v
          | None => ret PNone
          end in
        let! sorted := sorted_by_time (tracking_events shipment) in
        let tracking_info :=
          PDict (list_to_map
            [ ("tracking_number", PStr (tracking_number shipment));
              ("status", PStr (shipment_status_value (status shipment)));
              ("origin_port", origin_port shipment);
              ("destination_port", destination_port shipment);
              ("current_location", default PNone location);
              ("progress_percentage", PInt (get_progress_percentage shipment));
              ("estimated_arrival", opt_moment_iso (estimated_arrival shipment));
              ("actual_arrival", opt_iso (actual_arrival shipment));
              ("vessel_details", vessel);
              ("tracking_events", PList (map event_to_dict sorted));
              ("last_updated", PIso (s_updated_at shipment)) ]) in
        let! _ := cache_set ("tracking:" +:+ number) tracking_info in
        ret (Some tracking_info)
    end.

End Service.

End Tracking.

(** ** The access rule of [get_booking] in the specification's words

    "returns NotFound ... when it exists but belongs to a different
    non-admin user": an administrator is a user with the role [admin], the
    booking exists when the cache holds its dictionary, and it belongs to
    the user named by [created_by]. *)

Module BookingSpec.
Import BookingService.

Definition hides_foreign_bookings : Prop :=
  forall (lib : Library) (w : World) (booking_id : string) (u : Auth.User)
         (d : gmap string pyval) (creator : string),
    cache w !! ("booking:" +:+ booking_id) = Some (PDict d) ->
    d !! "created_by" = Some (PStr creator) ->
    creator <> Auth.user_id u ->
    Auth.has_role u "admin" = false ->
    fst (get_booking lib shipped booking_id (Auth.user_id u) w) = Return None.

(** What the comment in [_is_admin] says the method would do: check the
    roles of the user, here in a directory of known users. *)
Definition by_role (directory : list Auth.User) : Backend :=
  {| _is_admin := fun user_id =>
       existsb (fun u => String.eqb (Auth.user_id u) user_id && Auth.has_role u "admin")
         directory;
     _load_booking := _load_booking shipped |}.

(** The last clause of the claim about tracking events as it is written:
    appending an event timed before the events present does not change the
    status. *)
Definition earlier_event_keeps_status : Prop :=
  forall (s : Shipment) (c : TrackingCall) (t : moment) (w : World),
    call_time c = Some t ->
    Forall (fun x => instant t < instant (event_time x)) (tracking_events s) ->
    exists (s' : Shipment) (e : TrackingEvent) (w' : World),
      add_tracking_event s (call_status c) (call_location c) (call_description c)
        (call_time c) (call_vessel c) (call_voyage c) w = (Return (s', e), w')
      /\ status s' = status s.

(** A shipment whose vessel times are what their type says, datetimes or
    None, so that the vessel details serialize. *)
Definition serializes (v : vessel_time) : Prop :=
  match v with
  | Time _ => True
  | AsGiven v => truthy v = false
  end.

Definition times_serialize (s : Shipment) : Prop :=
  match vessel_details s with
  | Some v => serializes (eta v) /\ serializes (etd v)
  | None => True
  end.

(** The kind of the time a call appends: the caller's, or the naive
    reading of the clock when the caller gives none. *)
Definition call_aware (c : TrackingCall) : bool :=
  match call_time c with
  | Some t => is_aware t
  | None => false
  end.

(** Event times that can be ordered: those of the shipment and those the
    calls append are all naive or all aware. *)
Definition comparable_times (s : Shipment) (calls : list TrackingCall) : Prop :=
  exists kind : bool,
    Forall (fun e => is_aware (event_time e) = kind) (tracking_events s)
    /\ Forall (fun c => call_aware c = kind) calls.

(** A container requirement whose quantity, given or defaulted, is an
    int, as [range] and the comparison with [len] need it. *)
Definition quantity_is_int (requirement : gmap string pyval) : Prop :=
  is_Some (as_int (default (PInt 1) (requirement !! "quantity"))).

(** A shipment delivered at time 500 after being booked at time 300. *)
Definition delivered_shipment : Shipment :=
  {| s_id := "s-1"; booking_id := "b-1"; tracking_number := "FF20240101S1";
     status := DELIVERED; origin_port := PStr "USNYC"; destination_port := PStr "CNSHA";
     vessel_details := None; container_ids := [];
     estimated_departure := None; estimated_arrival := None;
     actual_departure := None; actual_arrival := None;
     tracking_events :=
       [ {| e_id := "e-1"; e_shipment_id := "s-1"; e_status := BOOKED;
            e_location := PStr "USNYC"; e_description := "Shipment booked and confirmed";
            event_time := Naive 300; e_vessel_name := None; e_voyage_number := None;
            e_estimated_arrival := None; e_created_at := 300 |};
         {| e_id := "e-2"; e_shipment_id := "s-1"; e_status := DELIVERED;
            e_location := PStr "CNSHA"; e_description := "Delivered";
            event_time := Naive 500; e_vessel_name := None; e_voyage_number := None;
            e_estimated_arrival := None; e_created_at := 500 |} ];
     s_created_at := 300; s_updated_at := 500 |}.

(** A late report of the departure, timed before both. *)
Definition late_departure : TrackingCall :=
  {| call_status := IN_TRANSIT; call_location := PStr "USNYC";
     call_description := "Vessel departed"; call_time := Some (Naive 200);
     call_vessel := None; call_voyage := None |}.

(** A booking that alice created, as [create_booking] caches it, and a
    customer without the [admin] role. *)
Definition alice_booking : Booking :=
  {| b_id := PStr "b-1"; quote_id := PStr "q-1"; customer_id := PStr "alice";
     booking_number := PStr "BK20240101B1"; b_status := PENDING;
     special_instructions := None; pickup_contact := None; delivery_contact := None;
     created_by := "alice"; b_created_at := 0; b_updated_at := 0;
     confirmed_at := None |}.

Definition alice_fields : gmap string pyval :=
  list_to_map
    [ ("id", PStr "b-1"); ("quote_id", PStr "q-1"); ("customer_id", PStr "alice");
      ("booking_number", PStr "BK20240101B1"); ("status", PStr "PENDING");
      ("special_instructions", PNone); ("pickup_contact", PNone);
      ("delivery_contact", PNone); ("created_by", PStr "alice");
      ("created_at", PIso 0); ("updated_at", PIso 0); ("confirmed_at", PNone) ].

Definition alice_cache : gmap string pyval :=
  {[ "booking:b-1" := PDict alice_fields ]}.

Definition mallory : Auth.User :=
  {| Auth.user_id := "mallory"; Auth.username := "mallory";
     Auth.email := "mallory@example.com"; Auth.roles := ["customer"];
     Auth.permissions := ["read"; "view_own_data"] |}.

End BookingSpec.

(** ** Notions used by the further properties *)

Module RatingSpec.
End RatingSpec.

Module DeliverySpec.
Import Notifications.
(** The attempts on one channel. *)
Definition attempts_on (channel : NotificationChannel) (attempts : list NotificationDelivery)
  : list NotificationDelivery :=
  List.filter (fun d => bool_decide (d_channel d = channel)) attempts.

(** Attempts numbered in sequence: each attempt carries one more than the
    number of attempts on its channel that precede it. *)
Definition numbered_in_sequence (attempts : list NotificationDelivery) : Prop :=
  forall (i : nat) (d : NotificationDelivery),
    attempts !! i = Some d ->
    d_attempt_number d = Z.of_nat (length (attempts_on (d_channel d) (take i attempts))) + 1.
End DeliverySpec.

Module TrackingSpec.
(** The kind of the time [TrackingService.add_tracking_event] gives the
    new event: that of the time it reads from the caller's text, naive when
    it falls back on the clock. *)
Definition reported_aware (lib : Library) (time : option string) : bool :=
  match time with
  | Some s =>
      if String.eqb s "" then false
      else match parse_iso lib s with
           | Some t => is_aware t
           | None => false
           end
  | None => false
  end.
End TrackingSpec.

Module AllocationSpec.
Import BookingService.
(** The number of containers a requirement asks for: its quantity, given
    or defaulted to 1, and none when the quantity is negative. *)
Definition containers_asked (requirement : gmap string pyval) : nat :=
  match as_int (default (PInt 1) (requirement !! "quantity")) with
  | Some q => Z.to_nat q
  | None => 0
  end.

(** A requirement that names a container type by its value. *)
Definition names_a_type (requirement : gmap string pyval) : Prop :=
  exists t : ContainerType, requirement !! "type" = Some (PStr (container_type_value t)).
End AllocationSpec.

(* ================================================================== *)
(** * Properties *)
(* ================================================================== *)

Example dec_literals :
  Quotation.Dec "120.00" = {| Quotation.negative := false; Quotation.coefficient := 12000; Quotation.exponent := -2 |}
  /\ Quotation.Dec "1.2" = {| Quotation.negative := false; Quotation.coefficient := 12; Quotation.exponent := -1 |}.
Proof. split; reflexivity. Qed.

(** Runs a method of the model on a symbolic world. *)
Ltac run_eff :=
  cbv beta iota zeta delta [bind ret raise utcnow datetime_now uuid4 cache_get cache_set publish];
  cbn beta iota zeta.

Section QuoteLifecycle.
Import Quotation.

Lemma status_in_issued_draft (s : string) :
  bool_decide (s ∈ ["ISSUED"; "DRAFT"]) = true <-> s = "ISSUED" \/ s = "DRAFT".
Proof.
  rewrite bool_decide_eq_true. rewrite !elem_of_cons.
  split; intros H.
  - destruct H as [H | [H | H]]; auto. inversion H.
  - destruct H as [H | H]; auto.
Qed.

Lemma is_valid_run (q : Quote) (w : World) :
  is_valid q w =
  (Return ((now w <=? valid_until q) && bool_decide (status q ∈ ["ISSUED"; "DRAFT"])), tick w).
Proof. reflexivity. Qed.

(** C1. [accept] succeeds exactly when the clock has not passed
    [valid_until] and the status is ISSUED or DRAFT; it then stores ACCEPTED
    and the time of acceptance. Otherwise it raises the [ValueError] that the
    accept route answers with 400, the InvalidInput kind, and the quote is
    left as it was. A DRAFT quote inside its window is accepted without ever
    being issued. [issue] raises the same kind of error unless the status is
    DRAFT. *)
Theorem quote_accept_iff_valid (q : Quote) (w : World) :
  let valid := now w <= valid_until q /\ (status q = "ISSUED" \/ status q = "DRAFT") in
  (valid <-> exists q' w', accept q w = (Return q', w'))
  /\ (valid ->
      accept q w =
      (Return (set_accepted_at (Some (now (tick w))) (set_status "ACCEPTED" q)),
       tick (tick w)))
  /\ (~ valid ->
      accept q w = (Raise (ValueError "Cannot accept expired or invalid quote"), tick w)
      /\ error_kind (ValueError "Cannot accept expired or invalid quote") = InvalidInput)
  /\ (status q = "DRAFT" -> now w <= valid_until q ->
      exists q' w', accept q w = (Return q', w')
                    /\ status q' = "ACCEPTED" /\ issued_at q' = issued_at q)
  /\ (status q = "DRAFT" ->
      issue q w = (Return (set_issued_at (Some (now w)) (set_status "ISSUED" q)), tick w))
  /\ (status q <> "DRAFT" ->
      issue q w = (Raise (ValueError "Can only issue draft quotes"), w)
      /\ error_kind (ValueError "Can only issue draft quotes") = InvalidInput).
Proof.
  intros valid.
  assert (Hok : valid ->
    accept q w =
    (Return (set_accepted_at (Some (now (tick w))) (set_status "ACCEPTED" q)),
     tick (tick w))).
  { intros [Ht Hs]. unfold accept, bind. rewrite is_valid_run.
    apply Z.leb_le in Ht. apply status_in_issued_draft in Hs.
    rewrite Ht, Hs. reflexivity. }
  assert (Hko : ~ valid ->
    accept q w = (Raise (ValueError "Cannot accept expired or invalid quote"), tick w)).
  { intros Hn. unfold accept, bind. rewrite is_valid_run.
    destruct ((now w <=? valid_until q) && bool_decide (status q ∈ ["ISSUED"; "DRAFT"]))
      eqn:E; [| reflexivity].
    exfalso. apply Hn. apply andb_true_iff in E as [Ht Hs].
    split; [by apply Z.leb_le | by apply status_in_issued_draft]. }
  assert (Hdec : valid \/ ~ valid).
  { unfold valid. destruct (Z_le_dec (now w) (valid_until q)) as [Ht | Ht].
    - destruct (decide (status q = "ISSUED")) as [H1 | H1]; [by left; auto |].
      destruct (decide (status q = "DRAFT")) as [H2 | H2]; [by left; auto |].
      right. intros [_ [H | H]]; contradiction.
    - right. intros [H _]. contradiction. }
  split; [split |].
  { intros Hv. eexists _, _. by apply Hok. }
  { intros (q' & w' & Hacc). destruct Hdec as [Hv | Hn]; [assumption |].
    rewrite (Hko Hn) in Hacc. discriminate. }
  split; [exact Hok |].
  split; [intros Hn; split; [by apply Hko | reflexivity] |].
  split.
  { intros Hd Ht. eexists _, _. split; [apply Hok; split; auto |]. split; reflexivity. }
  split.
  { intros Hd. unfold issue. rewrite Hd. reflexivity. }
  intros Hd. split; [| reflexivity]. unfold issue.
  destruct (String.eqb (status q) "DRAFT") eqn:E; [| reflexivity].
  apply String.eqb_eq in E. contradiction.
Qed.

Lemma quote_accept_iff_valid_witness :
  let q := {| quote_id := "Q-1A2B3C4D"; customer_id := "CUST123"; status := "DRAFT";
              valid_until := 604800000000; issued_at := None; accepted_at := None |} in
  let w := sample_world 0 ∅ in
  accept q w =
    (Return {| quote_id := "Q-1A2B3C4D"; customer_id := "CUST123"; status := "ACCEPTED";
               valid_until := 604800000000; issued_at := None;
               accepted_at := Some 1000000 |},
     tick (tick w)).
Proof.
  intros q w.
  destruct (quote_accept_iff_valid q w) as (_ & Hok & _).
  rewrite Hok; [reflexivity |].
  split; [vm_compute; discriminate | right; reflexivity].
Defined.

End QuoteLifecycle.

Section FuelSurcharge.
Import Quotation.

Lemma route_multipliers_lookup (key : string) :
  route_multipliers !! key =
  if decide (key = "SGSIN-EGALY") then Some (Dec "1.2")
  else if decide (key = "SGSIN-USNYC") then Some (Dec "1.5")
  else if decide (key = "SGSIN-NLRTM") then Some (Dec "1.1")
  else None.
Proof.
  unfold route_multipliers.
  repeat (rewrite lookup_insert; case_decide; subst;
          [repeat case_decide; congruence |]).
  rewrite lookup_empty. repeat case_decide; congruence.
Qed.

(** C5. For every origin and destination the fuel surcharge is the decimal
    with two places whose cents are 120.00 times the lane multiplier of the
    fixed table (1.0 for a lane not listed), rounded half-up: 144.00 on
    SGSIN-EGALY, 120.00 on every lane outside the table. *)
Theorem fuel_surcharge_by_route (origin destination : string) :
  let route := origin +:+ "-" +:+ destination in
  exists d : Decimal,
    _get_fuel_surcharge_rate origin destination = Return d
    /\ negative d = false /\ exponent d = -2
    /\ coefficient d = FuelSpec.fuel_surcharge_cents route
    /\ (route = "SGSIN-EGALY" -> d = Dec "144.00")
    /\ (route_multipliers !! route = None -> d = Dec "120.00").
Proof.
  intros route. unfold _get_fuel_surcharge_rate. fold route.
  unfold FuelSpec.fuel_surcharge_cents, FuelSpec.route_multiplier.
  rewrite route_multipliers_lookup.
  repeat case_decide; subst;
    (eexists; split; [vm_compute; reflexivity |]);
    repeat split; try reflexivity; try congruence; intros; try discriminate.
Qed.

Lemma fuel_surcharge_by_route_witness :
  _get_fuel_surcharge_rate "SGSIN" "EGALY" = Return (Dec "144.00")
  /\ _get_fuel_surcharge_rate "UNKNOWN" "ROUTE" = Return (Dec "120.00").
Proof.
  split.
  - destruct (fuel_surcharge_by_route "SGSIN" "EGALY") as (d & Hrun & _ & _ & _ & Hlisted & _).
    rewrite Hrun, Hlisted; reflexivity.
  - destruct (fuel_surcharge_by_route "UNKNOWN" "ROUTE") as (d & Hrun & _ & _ & _ & _ & Hother).
    rewrite Hrun, Hother; [reflexivity | vm_compute; reflexivity].
Defined.

End FuelSurcharge.

Section LeadScore.
Import Crm.

Lemma source_scores_get (s : LeadSource) :
  dict_get source_scores s 0 = LeadSpec.source_points s.
Proof. destruct s; reflexivity. Qed.

Lemma priority_scores_get (p : LeadPriority) :
  dict_get priority_scores p 0 = LeadSpec.priority_points p.
Proof. destruct p; reflexivity. Qed.

Lemma zero_value_below_tiers (v : Q) :
  nonzero v = false -> Qle_bool 5000 v = false.
Proof.
  unfold nonzero. intros H. apply negb_false_iff in H. apply Qeq_bool_iff in H.
  destruct (Qle_bool 5000 v) eqn:E; [| reflexivity].
  apply Qle_bool_iff in E. rewrite H in E. unfold Qle in E. simpl in E. lia.
Qed.

Lemma tiers_monotone (v : Q) (a b : Z) :
  a <= b -> Qle_bool (inject_Z a) v = false -> Qle_bool (inject_Z b) v = false.
Proof.
  intros Hab Ha. destruct (Qle_bool (inject_Z b) v) eqn:E; [| reflexivity].
  apply Qle_bool_iff in E.
  assert (Hle : (inject_Z a <= v)%Q).
  { eapply Qle_trans; [| exact E]. rewrite <- Zle_Qle. exact Hab. }
  apply Qle_bool_iff in Hle. congruence.
Qed.

Lemma value_branch (v : option Q) (score : Z) :
  match v with
  | Some x =>
      if nonzero x then
        if ge_int x 100000 then score + 20
        else if ge_int x 50000 then score + 15
        else if ge_int x 10000 then score + 10
        else if ge_int x 5000 then score + 5
        else score
      else score
  | None => score
  end = score + LeadSpec.value_tier_points v.
Proof.
  destruct v as [x |]; simpl; [| lia].
  unfold ge_int. change (inject_Z 100000) with (100000 : Q).
  change (inject_Z 50000) with (50000 : Q).
  change (inject_Z 10000) with (10000 : Q).
  change (inject_Z 5000) with (5000 : Q).
  destruct (nonzero x) eqn:Hnz.
  - repeat (match goal with |- context [Qle_bool ?a x] => destruct (Qle_bool a x) end);
      lia.
  - pose proof (zero_value_below_tiers x Hnz) as H5.
    pose proof (tiers_monotone x 5000 10000 ltac:(lia) H5) as H10.
    pose proof (tiers_monotone x 5000 50000 ltac:(lia) H5) as H50.
    pose proof (tiers_monotone x 5000 100000 ltac:(lia) H5) as H100.
    change (inject_Z 5000) with (5000 : Q) in *.
    change (inject_Z 10000) with (10000 : Q) in *.
    change (inject_Z 50000) with (50000 : Q) in *.
    change (inject_Z 100000) with (100000 : Q) in *.
    rewrite H5, H10, H50, H100. lia.
Qed.

(** C3. [calculate_score] is the sum of the probability, the source points,
    the priority points, the value-tier points and the recency points,
    capped at 100; the recency points use the clock once, and only when a
    contact date is present. The lead with probability 100, source REFERRAL,
    priority URGENT, estimated value 150000 and a contact date equal to the
    current time has the raw sum 165 and scores exactly 100. *)
Theorem lead_score_is_capped_sum (l : Lead) (w : World) :
  calculate_score l w =
    (Return (Z.min (LeadSpec.raw_score (now w) l) 100),
     match last_contact_date l with Some _ => tick w | None => w end)
  /\ (let best := {| source := REFERRAL; priority := URGENT;
                     estimated_value := Some 150000%Q; probability := 100;
                     last_contact_date := Some (now w) |} in
      LeadSpec.raw_score (now w) best = 165
      /\ calculate_score best w = (Return 100, tick w)).
Proof.
  assert (Hgen : forall l0 : Lead,
    calculate_score l0 w =
      (Return (Z.min (LeadSpec.raw_score (now w) l0) 100),
       match last_contact_date l0 with Some _ => tick w | None => w end)).
  { intros l0. unfold calculate_score, LeadSpec.raw_score.
    rewrite value_branch, source_scores_get, priority_scores_get.
    destruct (last_contact_date l0) as [c |]; simpl.
    - unfold bind, utcnow, ret, timedelta_days. simpl.
      repeat case_match; do 3 f_equal; lia.
    - unfold ret. do 3 f_equal. lia. }
  split; [apply Hgen |].
  intros best.
  assert (Hraw : LeadSpec.raw_score (now w) best = 165).
  { unfold LeadSpec.raw_score, best. simpl.
    rewrite Z.sub_diag. reflexivity. }
  split; [exact Hraw |].
  rewrite Hgen, Hraw. reflexivity.
Qed.

End LeadScore.

Section VendorRating.
Import Vendor.

Lemma update_rating_run {num : Type} `{Number num} (v : Vendor num) (r : num) (w : World) :
  total_ratings v + 1 <> 0 ->
  update_rating v r w =
    (Return {| average_rating :=
                 n_div (n_add (n_mul (average_rating v) (n_of_int (total_ratings v))) r)
                       (n_of_int (total_ratings v + 1));
               total_ratings := total_ratings v + 1;
               updated_at := now w |},
     tick w).
Proof.
  intros Hnz. unfold update_rating, truediv_int, bind. simpl.
  apply Z.eqb_neq in Hnz. rewrite Hnz. reflexivity.
Qed.

(** C4. [update_rating] stores (old average x old count + new rating) /
    (old count + 1) as the average and adds one to the count, for every
    number type. On floats, rating an unrated vendor (average 0.0, count 0)
    with 4, 5 and 3 in turn gives the running averages 4.0, 4.5 and 4.0 and
    the final count 3. *)
Theorem update_rating_running_average :
  (forall (num : Type) (N : Number num) (v : Vendor num) (r : num) (w : World),
      total_ratings v + 1 <> 0 ->
      update_rating v r w =
        (Return {| average_rating :=
                     n_div (n_add (n_mul (average_rating v) (n_of_int (total_ratings v))) r)
                           (n_of_int (total_ratings v + 1));
                   total_ratings := total_ratings v + 1;
                   updated_at := now w |},
         tick w))
  /\ (forall (w : World) (created : datetime),
      let v0 := {| average_rating := 0%float; total_ratings := 0; updated_at := created |} in
      exists v1 v2 v3 : Vendor float,
        update_rating v0 4%float w = (Return v1, tick w)
        /\ update_rating v1 5%float (tick w) = (Return v2, tick (tick w))
        /\ update_rating v2 3%float (tick (tick w)) = (Return v3, tick (tick (tick w)))
        /\ average_rating v1 = 4%float
        /\ average_rating v2 = 4.5%float
        /\ average_rating v3 = 4%float
        /\ total_ratings v3 = 3).
Proof.
  split.
  - intros num N v r w Hnz. by apply update_rating_run.
  - intros w created v0.
    eexists _, _, _.
    split; [apply update_rating_run; simpl; lia |].
    split; [apply update_rating_run; simpl; lia |].
    split; [apply update_rating_run; simpl; lia |].
    repeat split; vm_compute; reflexivity.
Qed.

Lemma update_rating_running_average_witness :
  let v := {| average_rating := (9 # 2)%Q; total_ratings := 2; updated_at := 0 |} in
  let w := sample_world 0 ∅ in
  total_ratings v + 1 <> 0
  /\ update_rating v 3%Q w =
       (Return {| average_rating := (((9 # 2) * inject_Z 2 + 3) / inject_Z 3)%Q;
                  total_ratings := 3; updated_at := now w |}, tick w).
Proof.
  intros v w.
  split; [simpl; lia |].
  apply (proj1 update_rating_running_average Q Q_number v 3%Q w).
  simpl; lia.
Defined.

Lemma div_eucl_mul (a b : Z) : 0 < b -> Z.div_eucl (a * b) b = (a, 0).
Proof.
  intros Hb.
  pose proof (Z.div_mul a b ltac:(lia)) as Hq.
  pose proof (Z_mod_mult a b) as Hr.
  unfold Z.div, Z.modulo in Hq, Hr.
  destruct (Z.div_eucl (a * b) b) as [q r]. subst. reflexivity.
Qed.

(** A binary64 number is normal, with a mantissa of 53 digits, or
    subnormal, at the least exponent. *)
Lemma bounded_cases (m : positive) (e : Z) :
  bounded prec emax m e = true ->
  e <= 971
  /\ ((Zpos (digits2_pos m) = 53 /\ -1074 <= e)
      \/ (Zpos (digits2_pos m) < 53 /\ e = -1074)).
Proof.
  unfold bounded, canonical_mantissa, fexp, emin, prec, emax.
  intros H. apply andb_true_iff in H as [Hc He].
  apply Z.eqb_eq in Hc. apply Z.leb_le in He.
  split; [exact He |]. lia.
Qed.

(** Dividing a finite binary64 number by 1.0 is exact. *)
Lemma SF64div_one (s : bool) (m : positive) (e : Z) :
  bounded prec emax m e = true ->
  SF64div (S754_finite s m e) (S754_finite false 4503599627370496 (-52))
  = S754_finite s m e.
Proof.
  intros Hb. destruct (bounded_cases m e Hb) as [He Hcases].
  unfold SF64div, SFdiv, SFdiv_core_binary.
  change (Zdigits2 (Zpos 4503599627370496)) with 53.
  change (Zdigits2 (Zpos m)) with (Zpos (digits2_pos m)).
  assert (Hx : xorb s false = s) by (destruct s; reflexivity).
  rewrite Hx.
  destruct Hcases as [[Hd Hlow] | [Hd ->]].
  - rewrite Hd. destruct (Z.eq_dec e (-1074)) as [-> | Hne].
    + change (Z.min (fexp prec emax (53 + -1074 - (53 + -52))) (-1074 - -52)) with (-1074).
      change (-1074 - -52 - -1074) with 52.
      cbv beta iota zeta.
      rewrite Z.shiftl_mul_pow2 by lia.
      change (2 ^ 52) with 4503599627370496.
      rewrite (div_eucl_mul (Zpos m) 4503599627370496) by lia.
      change (new_location (Zpos 4503599627370496) 0) with loc_Exact.
      unfold binary_round_aux, shr_fexp.
      change (Zdigits2 (Zpos m)) with (Zpos (digits2_pos m)). rewrite Hd.
      change (fexp prec emax (53 + -1074) - -1074) with 0.
      cbn [shr shr_record_of_loc shr_m loc_of_shr_record shr_r shr_s round_nearest_even].
      change (Zdigits2 (Zpos m)) with (Zpos (digits2_pos m)). rewrite Hd.
      change (fexp prec emax (53 + -1074) - -1074) with 0.
      cbn [shr shr_record_of_loc shr_m]. reflexivity.
    + assert (Hmin : Z.min (fexp prec emax (53 + e - (53 + -52))) (e - -52) = e - 1).
      { unfold fexp, emin, prec, emax. lia. }
      rewrite Hmin.
      replace (e - -52 - (e - 1)) with 53 by lia.
      cbv beta iota zeta.
      rewrite Z.shiftl_mul_pow2 by lia.
      replace (Zpos m * 2 ^ 53) with (Zpos m~0 * 2 ^ 52)
        by (change (2 ^ 53) with (2 * 2 ^ 52); lia).
      change (2 ^ 52) with 4503599627370496.
      rewrite (div_eucl_mul (Zpos m~0) 4503599627370496) by lia.
      change (new_location (Zpos 4503599627370496) 0) with loc_Exact.
      unfold binary_round_aux, shr_fexp.
      change (Zdigits2 (Zpos m~0)) with (Zpos (Pos.succ (digits2_pos m))).
      rewrite Pos2Z.inj_succ, Hd.
      replace (fexp prec emax (Z.succ 53 + (e - 1)) - (e - 1)) with 1
        by (unfold fexp, emin, prec, emax; lia).
      cbn [shr shr_record_of_loc SpecFloat.iter_pos shr_1 orb shr_m loc_of_shr_record
           round_nearest_even].
      change (Zdigits2 (Zpos m)) with (Zpos (digits2_pos m)). rewrite Hd.
      replace (e - 1 + 1) with e by lia.
      replace (fexp prec emax (53 + e) - e) with 0
        by (unfold fexp, emin, prec, emax; lia).
      cbn [shr shr_record_of_loc shr_m].
      change (emax - prec) with 971.
      apply Z.leb_le in He. rewrite He. reflexivity.
  - assert (Hmin : Z.min (fexp prec emax (Zpos (digits2_pos m) + -1074 - (53 + -52)))
                     (-1074 - -52) = -1074).
    { unfold fexp, emin, prec, emax. lia. }
    rewrite Hmin.
    change (-1074 - -52 - -1074) with 52.
    cbv beta iota zeta.
    rewrite Z.shiftl_mul_pow2 by lia.
    change (2 ^ 52) with 4503599627370496.
    rewrite (div_eucl_mul (Zpos m) 4503599627370496) by lia.
    change (new_location (Zpos 4503599627370496) 0) with loc_Exact.
    unfold binary_round_aux, shr_fexp.
    change (Zdigits2 (Zpos m)) with (Zpos (digits2_pos m)).
    replace (fexp prec emax (Zpos (digits2_pos m) + -1074) - -1074) with 0
      by (unfold fexp, emin, prec, emax; lia).
    cbn [shr shr_record_of_loc shr_m loc_of_shr_record shr_r shr_s round_nearest_even].
    change (Zdigits2 (Zpos m)) with (Zpos (digits2_pos m)).
    replace (fexp prec emax (Zpos (digits2_pos m) + -1074) - -1074) with 0
      by (unfold fexp, emin, prec, emax; lia).
    cbn [shr shr_record_of_loc shr_m]. reflexivity.
Qed.

(** [x / 1] is [x] for every float, zeros, infinities and NaN included. *)
Lemma float_div_one (f : float) : (f / 1)%float = f.
Proof.
  apply Prim2SF_inj. rewrite div_spec.
  change (Prim2SF 1) with (S754_finite false 4503599627370496 (-52)).
  pose proof (Prim2SF_valid f) as Hv.
  destruct (Prim2SF f) as [s | s | | s m e].
  - destruct s; reflexivity.
  - destruct s; reflexivity.
  - reflexivity.
  - apply SF64div_one. exact Hv.
Qed.

(** [0.0 + x] is [x] for every float but -0.0, for which it is 0.0. *)
Lemma float_zero_add (f : float) : f <> neg_zero -> (0 + f)%float = f.
Proof.
  intros Hf. apply Prim2SF_inj. rewrite add_spec.
  change (Prim2SF 0) with (S754_zero false).
  destruct (Prim2SF f) as [s | s | | s m e] eqn:E; try reflexivity.
  destruct s; [| reflexivity].
  exfalso. apply Hf. apply Prim2SF_inj. rewrite E. reflexivity.
Qed.

(** C8. With a count that is not negative, [update_rating] divides by the
    count after the increment, which is at least 1, so the division never
    raises [ZeroDivisionError] and the call returns. On a vendor with
    average 0.0 and count 0 the new average is the new rating, for every
    float: bit for bit, except that the rating -0.0 gives 0.0, which [==]
    takes for equal to it. The same holds on the rationals. *)
Theorem update_rating_never_divides_by_zero :
  (forall (num : Type) (N : Number num) (v : Vendor num) (r : num) (w : World),
      0 <= total_ratings v ->
      1 <= total_ratings v + 1
      /\ (forall x : num,
             truediv_int x (total_ratings v + 1) w
             = (Return (n_div x (n_of_int (total_ratings v + 1))), w))
      /\ exists v' : Vendor num,
           update_rating v r w = (Return v', tick w)
           /\ total_ratings v' = total_ratings v + 1)
  /\ (forall (r : float) (created : datetime) (w : World),
      exists v' : Vendor float,
        update_rating {| average_rating := 0%float; total_ratings := 0;
                         updated_at := created |} r w
        = (Return v', tick w)
        /\ total_ratings v' = 1
        /\ (r <> neg_zero -> average_rating v' = r)
        /\ (r = neg_zero ->
            average_rating v' = 0%float
            /\ PrimFloat.eqb (average_rating v') r = true))
  /\ (forall (r : Q) (created : datetime) (w : World),
      exists v' : Vendor Q,
        update_rating {| average_rating := 0%Q; total_ratings := 0; updated_at := created |} r w
        = (Return v', tick w)
        /\ (average_rating v' == r)%Q /\ total_ratings v' = 1).
Proof.
  split; [| split].
  - intros num N v r w Hge.
    split; [lia |]. split.
    + intros x. unfold truediv_int.
      destruct (total_ratings v + 1 =? 0) eqn:E; [apply Z.eqb_eq in E; lia | reflexivity].
    + eexists. split; [apply update_rating_run; lia | reflexivity].
  - intros r created w. eexists. split; [apply update_rating_run; simpl; lia |].
    split; [reflexivity |].
    cbn [average_rating total_ratings n_div n_add n_mul n_of_int float_number].
    change (float_of_int (0 + 1)) with 1%float.
    change (0 * float_of_int 0)%float with 0%float.
    rewrite float_div_one.
    split.
    + intros Hr. by apply float_zero_add.
    + intros ->. split; reflexivity.
  - intros r created w. eexists. split; [apply update_rating_run; simpl; lia |].
    split; [| reflexivity]. simpl.
    change (inject_Z (0 + 1)) with 1%Q. change (inject_Z 0) with 0%Q.
    rewrite Qmult_0_l, Qplus_0_l. unfold Qdiv. change (/ 1)%Q with 1%Q.
    apply Qmult_1_r.
Qed.

Lemma update_rating_never_divides_by_zero_witness :
  let v := {| average_rating := 4%float; total_ratings := 1; updated_at := 0 |} in
  let w := sample_world 0 ∅ in
  0 <= total_ratings v
  /\ (exists v' : Vendor float,
        update_rating v 5%float w = (Return v', tick w)
        /\ total_ratings v' = 2)
  /\ (exists v' : Vendor float,
        update_rating {| average_rating := 0%float; total_ratings := 0; updated_at := 0 |}
          3.7%float w = (Return v', tick w)
        /\ average_rating v' = 3.7%float).
Proof.
  intros v w.
  split; [simpl; lia |]. split.
  - destruct (proj1 update_rating_never_divides_by_zero float float_number v 5%float w)
      as (_ & _ & v' & Hrun & Htot); [simpl; lia |].
    exists v'. split; [exact Hrun | exact Htot].
  - destruct (proj1 (proj2 update_rating_never_divides_by_zero) 3.7%float 0 w)
      as (v' & Hrun & _ & Hsame & _).
    exists v'. split; [exact Hrun |]. apply Hsame.
    intros H. apply (f_equal Prim2SF) in H. vm_compute in H. discriminate.
Defined.

End VendorRating.

Section NotificationFacts.
Import Notifications.

(** C9. [mark_as_read] has no precondition: for every notification,
    whatever its status (FAILED and CANCELLED included), it returns the
    notification with status READ and [read_at] set to the current time. *)
Theorem mark_as_read_from_every_status (n : Notification) (w : World) :
  exists n' : Notification,
    mark_as_read n w = (Return n', tick (tick w))
    /\ status n' = READ
    /\ read_at n' = Some (now w)
    /\ updated_at n' = now (tick w)
    /\ (forall s : NotificationStatus,
          exists m : Notification,
            mark_as_read (set_status s n) w = (Return m, tick (tick w))
            /\ status m = READ /\ read_at m = Some (now w)).
Proof.
  unfold mark_as_read. run_eff.
  eexists. split; [reflexivity |].
  repeat split.
  intros s. eexists. split; [reflexivity |]. split; reflexivity.
Qed.

Lemma enabled_channels_filter (p : NotificationPreference) (t : NotificationType)
    (parsed enabled : list NotificationChannel) :
  enabled_channels p t parsed enabled =
  enabled ++ List.filter (fun c => truthy (is_channel_enabled p c) && is_type_enabled p t) parsed.
Proof.
  revert enabled. induction parsed as [| c rest IH]; intros enabled; simpl.
  - by rewrite app_nil_r.
  - destruct (truthy (is_channel_enabled p c) && is_type_enabled p t).
    + rewrite IH. by rewrite <- app_assoc.
    + apply IH.
Qed.

Lemma add_delivery_attempt_run (n : Notification) (c : NotificationChannel) (w : World) :
  exists d : NotificationDelivery,
    add_delivery_attempt n c "PENDING" w =
      (Return (set_updated_at (now (tick (draw w)))
                 (set_delivery_attempts (delivery_attempts n ++ [d]) n), d),
       tick (tick (draw w)))
    /\ d_channel d = c /\ d_status d = "PENDING"
    /\ d_attempt_number d =
         Z.of_nat (length (filter (fun a => d_channel a = c) (delivery_attempts n))) + 1.
Proof.
  unfold add_delivery_attempt, new_delivery. run_eff.
  eexists. split; [reflexivity |]. repeat split.
Qed.

Lemma add_attempts_run (cs : list NotificationChannel) :
  forall (n : Notification) (w : World),
  exists (n' : Notification) (w' : World) (ds : list NotificationDelivery),
    add_attempts n cs w = (Return n', w')
    /\ channels n' = channels n
    /\ delivery_attempts n' = delivery_attempts n ++ ds
    /\ map d_channel ds = cs
    /\ Forall (fun d => d_status d = "PENDING") ds.
Proof.
  induction cs as [| c rest IH]; intros n w.
  - exists n, w, []. simpl. rewrite app_nil_r. repeat split. constructor.
  - destruct (add_delivery_attempt_run n c w) as (d & Hrun & Hc & Hs & _).
    cbn [add_attempts]. unfold bind at 1. rewrite Hrun. cbn [fst].
    destruct (IH (set_updated_at (now (tick (draw w)))
                    (set_delivery_attempts (delivery_attempts n ++ [d]) n))
                 (tick (tick (draw w)))) as (n' & w' & ds & Hrest & Hch & Hds & Hmap & Hall).
    exists n', w', (d :: ds). rewrite Hrest. repeat split.
    + exact Hch.
    + rewrite Hds. simpl. by rewrite <- app_assoc.
    + simpl. by rewrite Hc, Hmap.
    + by constructor.
Qed.

Lemma add_attempts_keeps (cs : list NotificationChannel) :
  forall (n n' : Notification) (w w' : World),
    add_attempts n cs w = (Return n', w') ->
    notification_type n' = notification_type n
    /\ scheduled_at n' = scheduled_at n /\ expires_at n' = expires_at n.
Proof.
  induction cs as [| c rest IH]; intros n n' w w' H.
  - by injection H as <- _.
  - cbn [add_attempts] in H. unfold bind at 1 in H.
    destruct (add_delivery_attempt_run n c w) as (d & Hrun & _).
    rewrite Hrun in H. cbn [fst] in H.
    by apply IH in H.
Qed.


Lemma to_dict_aware_schedule (n : Notification) (t : datetime) (offset : Z) (w : World) :
  expires_at n = None ->
  scheduled_at n = Some (Aware t offset) ->
  to_dict n w
  = (Raise (TypeError "can't compare offset-naive and offset-aware datetimes"), tick w).
Proof.
  intros He Hs. unfold to_dict, is_expired, is_scheduled, moment_lt. rewrite He, Hs.
  reflexivity.
Qed.

Lemma parse_channels_run (requested : list string) :
  forall (channels parsed : list NotificationChannel) (lib : Library) (w : World),
    Forall2 (fun text channel => channel_of_value (str_upper lib text) = Some channel)
      requested channels ->
    parse_channels lib requested parsed w = (Return (parsed ++ channels), w).
Proof.
  induction requested as [| c rest IH]; intros channels parsed lib w Hall.
  - inversion Hall; subst. cbn [parse_channels]. by rewrite app_nil_r.
  - inversion Hall as [| ? ch ? chs Hc Hrest]; subst.
    cbn [parse_channels]. rewrite Hc.
    rewrite (IH chs (parsed ++ [ch]) lib w Hrest). by rewrite <- app_assoc.
Qed.




End NotificationFacts.

Section TrackingHistory.
Import BookingService.

Lemma insert_by_time_perm (e : TrackingEvent) (l : list TrackingEvent) :
  Permutation (insert_by_time e l) (e :: l).
Proof.
  induction l as [| x rest IH]; simpl; [reflexivity |].
  destruct (instant (event_time e) <=? instant (event_time x)); [reflexivity |].
  rewrite IH. apply perm_swap.
Qed.

Lemma in_time_order_perm (l : list TrackingEvent) :
  Permutation (in_time_order l) l.
Proof.
  induction l as [| e rest IH]; simpl; [reflexivity |].
  rewrite insert_by_time_perm. by rewrite IH.
Qed.

Lemma insert_by_time_sorted (e : TrackingEvent) (l : list TrackingEvent) :
  Sorted by_time l -> Sorted by_time (insert_by_time e l).
Proof.
  induction l as [| x rest IH]; intros Hs; simpl.
  - repeat constructor.
  - destruct (instant (event_time e) <=? instant (event_time x)) eqn:E.
    + constructor; [exact Hs |]. constructor. unfold by_time. lia.
    + inversion Hs as [| ? ? Hrest Hhd]; subst.
      constructor; [by apply IH |].
      destruct rest as [| y rest']; simpl.
      * constructor. unfold by_time. lia.
      * destruct (instant (event_time e) <=? instant (event_time y)).
        -- constructor. unfold by_time. lia.
        -- constructor. by inversion Hhd.
Qed.

Lemma in_time_order_sorted (l : list TrackingEvent) :
  Sorted by_time (in_time_order l).
Proof.
  induction l as [| e rest IH]; simpl; [constructor |].
  by apply insert_by_time_sorted.
Qed.

Lemma one_kind_not_mixed (kind : bool) (l : list TrackingEvent) :
  Forall (fun e => is_aware (event_time e) = kind) l -> mixed_times l = false.
Proof.
  intros Hall. unfold mixed_times.
  destruct kind.
  - apply andb_false_iff. right.
    induction Hall as [| e rest He _ IH]; [reflexivity |].
    cbn [existsb]. by rewrite He, IH.
  - apply andb_false_iff. left.
    induction Hall as [| e rest He _ IH]; [reflexivity |].
    cbn [existsb]. by rewrite He, IH.
Qed.

Lemma sorted_by_time_run (l : list TrackingEvent) (w : World) :
  mixed_times l = false -> sorted_by_time l w = (Return (in_time_order l), w).
Proof. intros H. unfold sorted_by_time. by rewrite H. Qed.

Lemma sorted_by_time_mixed (l : list TrackingEvent) (w : World) :
  mixed_times l = true ->
  sorted_by_time l w
  = (Raise (TypeError "can't compare offset-naive and offset-aware datetimes"), w).
Proof. intros H. unfold sorted_by_time. by rewrite H. Qed.

Lemma get_current_location_run (s : Shipment) (w : World) :
  mixed_times (tracking_events s) = false ->
  get_current_location s w
  = (Return (match tracking_events s with
             | [] => None
             | _ => e_location <$> last (in_time_order (tracking_events s))
             end), w).
Proof.
  intros H. unfold get_current_location.
  destruct (tracking_events s) as [| x rest] eqn:E; [reflexivity |].
  unfold bind. by rewrite sorted_by_time_run.
Qed.

Lemma vessel_to_dict_run (s : Shipment) (w : World) :
  BookingSpec.times_serialize s ->
  exists vessel : pyval,
    match vessel_details s with
    | Some v => vessel_to_dict v
    | None => ret PNone
    end w = (Return vessel, w).
Proof.
  unfold BookingSpec.times_serialize.
  destruct (vessel_details s) as [v |]; [| by eexists].
  intros [Ha Hd]. unfold vessel_to_dict, iso_or_none, BookingSpec.serializes in *.
  destruct (eta v) as [m | a], (etd v) as [m' | d];
    rewrite ?Ha, ?Hd; run_eff; by eexists.
Qed.

Lemma shipment_to_dict_run (s : Shipment) (w : World) :
  BookingSpec.times_serialize s ->
  mixed_times (tracking_events s) = false ->
  exists fields : gmap string pyval,
    shipment_to_dict s w = (Return (PDict fields), w)
    /\ fields !! "tracking_events"
       = Some (PList (map event_to_dict (in_time_order (tracking_events s))))
    /\ fields !! "status" = Some (PStr (shipment_status_value (status s))).
Proof.
  intros Hv Hm. unfold shipment_to_dict.
  destruct (vessel_to_dict_run s w Hv) as (vessel & Hvessel).
  unfold bind at 1. rewrite Hvessel.
  unfold bind at 1. rewrite (get_current_location_run s w Hm).
  unfold bind at 1. rewrite (sorted_by_time_run _ w Hm).
  unfold ret. eexists. split; [reflexivity |]. split; reflexivity.
Qed.

Lemma add_tracking_event_run (s : Shipment) (c : TrackingCall) (w : World) :
  exists (e : TrackingEvent) (w' : World) (t : datetime),
    add_tracking_event s (call_status c) (call_location c) (call_description c)
      (call_time c) (call_vessel c) (call_voyage c) w
    = (Return (set_updated_at t
                 (set_status (call_status c)
                    (set_tracking_events (tracking_events s ++ [e]) s)), e), w')
    /\ e_status e = call_status c
    /\ event_time e = default (Naive (now w)) (call_time c).
Proof.
  unfold add_tracking_event. destruct (call_time c) as [t |]; run_eff;
    eexists _, _, _; (split; [reflexivity |]); split; reflexivity.
Qed.

Lemma default_last_cons {A : Type} (a x : A) (l : list A) :
  default a (last (x :: l)) = default x (last l).
Proof.
  destruct l as [| y l]; [reflexivity |].
  change (last (x :: y :: l)) with (last (y :: l)).
  destruct (last (y :: l)) eqn:E; [reflexivity |].
  apply last_None in E. discriminate.
Qed.

Lemma add_tracking_events_run (calls : list TrackingCall) :
  forall (s : Shipment) (w : World),
  exists (s' : Shipment) (w' : World) (added : list TrackingEvent),
    add_tracking_events s calls w = (Return s', w')
    /\ tracking_events s' = tracking_events s ++ added
    /\ map e_status added = map call_status calls
    /\ status s' = default (status s) (last (map call_status calls))
    /\ vessel_details s' = vessel_details s
    /\ map (fun e => is_aware (event_time e)) added = map BookingSpec.call_aware calls.
Proof.
  induction calls as [| c rest IH]; intros s w.
  - exists s, w, []. simpl. rewrite app_nil_r. repeat split.
  - destruct (add_tracking_event_run s c w) as (e & w1 & t & Hrun & Hst & Htime).
    cbn [add_tracking_events]. unfold bind at 1. rewrite Hrun. cbn [fst].
    destruct (IH (set_updated_at t
                    (set_status (call_status c)
                       (set_tracking_events (tracking_events s ++ [e]) s))) w1)
      as (s' & w' & added & Hrest & Hev & Hmap & Hlast & Hv & Hkinds).
    exists s', w', (e :: added). rewrite Hrest.
    split; [reflexivity |]. split; [| split; [| split; [| split]]].
    + rewrite Hev. simpl. by rewrite <- app_assoc.
    + simpl. by rewrite Hst, Hmap.
    + rewrite Hlast. cbn [map]. by rewrite default_last_cons.
    + exact Hv.
    + cbn [map]. rewrite Hkinds, Htime. unfold BookingSpec.call_aware.
      by destruct (call_time c).
Qed.

Lemma in_time_order_snoc_earliest (l : list TrackingEvent) (e : TrackingEvent) :
  Forall (fun x => instant (event_time e) < instant (event_time x)) l ->
  in_time_order (l ++ [e]) = e :: in_time_order l.
Proof.
  induction l as [| x rest IH]; intros Hall; [reflexivity |].
  inversion Hall as [| ? ? Hx Hrest]; subst.
  simpl. fold (in_time_order (rest ++ [e])). rewrite (IH Hrest).
  simpl. fold (in_time_order rest).
  destruct (instant (event_time x) <=? instant (event_time e)) eqn:E; [| reflexivity].
  apply Z.leb_le in E. lia.
Qed.

Lemma comparable_after (s s' : Shipment) (calls : list TrackingCall)
    (added : list TrackingEvent) :
  BookingSpec.comparable_times s calls ->
  tracking_events s' = tracking_events s ++ added ->
  map (fun e => is_aware (event_time e)) added = map BookingSpec.call_aware calls ->
  mixed_times (tracking_events s') = false.
Proof.
  intros (kind & Hold & Hnew) Hev Hkinds.
  apply (one_kind_not_mixed kind). rewrite Hev. apply Forall_app. split; [exact Hold |].
  clear Hev Hold. revert calls Hnew Hkinds.
  induction added as [| e rest IH]; intros calls Hnew Hkinds; [constructor |].
  destruct calls as [| c calls]; [discriminate |].
  injection Hkinds as He Hrest. inversion Hnew as [| ? ? Hc Hcs]; subst.
  constructor; [by rewrite He | by eapply IH].
Qed.

(** C7. After any sequence of [add_tracking_event] calls the status of
    the shipment is the status of the event appended last, whatever event
    times the callers supplied. When the vessel times are datetimes or None
    and the event times, those present and those appended, are all naive or
    all aware, [to_dict] returns, with the status and with
    [tracking_events] the same events in the order of their times. An event
    timed before every event present is appended last and serialized first:
    the history is reordered, and the status becomes the status of that
    event; it is not recomputed from the order of the times. *)
Theorem status_follows_last_appended_event
    (s : Shipment) (calls : list TrackingCall) (w : World) :
  exists (s' : Shipment) (w' : World) (added : list TrackingEvent),
    add_tracking_events s calls w = (Return s', w')
    /\ tracking_events s' = tracking_events s ++ added
    /\ map e_status added = map call_status calls
    /\ status s' = default (status s) (last (map call_status calls))
    /\ (calls <> [] -> e_status <$> last (tracking_events s') = Some (status s'))
    /\ Sorted by_time (in_time_order (tracking_events s'))
    /\ Permutation (in_time_order (tracking_events s')) (tracking_events s')
    /\ (BookingSpec.times_serialize s -> BookingSpec.comparable_times s calls ->
        exists fields : gmap string pyval,
          shipment_to_dict s' w' = (Return (PDict fields), w')
          /\ fields !! "status" = Some (PStr (shipment_status_value (status s')))
          /\ fields !! "tracking_events"
             = Some (PList (map event_to_dict (in_time_order (tracking_events s')))))
    /\ (forall (c : TrackingCall) (e : TrackingEvent),
          calls = [c] ->
          added = [e] ->
          Forall (fun x => instant (event_time e) < instant (event_time x))
            (tracking_events s) ->
          in_time_order (tracking_events s') = e :: in_time_order (tracking_events s)
          /\ status s' = call_status c).
Proof.
  destruct (add_tracking_events_run calls s w)
    as (s' & w' & added & Hrun & Hev & Hmap & Hlast & Hv & Haware).
  exists s', w', added.
  split; [exact Hrun |]. split; [exact Hev |]. split; [exact Hmap |].
  split; [exact Hlast |].
  split.
  { intros Hne. rewrite Hlast, Hev.
    destruct calls as [| c rest]; [contradiction |].
    destruct added as [| a added']; [discriminate |].
    rewrite last_app.
    destruct (last (a :: added')) as [z |] eqn:E;
      [| apply last_None in E; discriminate].
    rewrite <- Hmap. change (map e_status (a :: added')) with (e_status <$> a :: added').
    rewrite fmap_last, E. reflexivity. }
  split; [apply in_time_order_sorted |].
  split; [apply in_time_order_perm |].
  split.
  { intros Hvessel Hkinds.
    pose proof (comparable_after s s' calls added Hkinds Hev Haware) as Hmixed.
    destruct (shipment_to_dict_run s' w') as (fields & Hdict & Hevents & Hstatus);
      [unfold BookingSpec.times_serialize in *; by rewrite Hv | exact Hmixed |].
    by exists fields. }
  intros c e -> -> Hall. split.
  - rewrite Hev. by apply in_time_order_snoc_earliest.
  - exact Hlast.
Qed.

Lemma status_follows_last_appended_event_witness :
  exists (s' : Shipment) (w' : World) (fields : gmap string pyval),
    add_tracking_events BookingSpec.delivered_shipment [BookingSpec.late_departure]
      (sample_world 1000 ∅) = (Return s', w')
    /\ shipment_to_dict s' w' = (Return (PDict fields), w')
    /\ fields !! "status" = Some (PStr "IN_TRANSIT")
    /\ map e_status (in_time_order (tracking_events s')) = [IN_TRANSIT; BOOKED; DELIVERED].
Proof.
  destruct (status_follows_last_appended_event BookingSpec.delivered_shipment
              [BookingSpec.late_departure] (sample_world 1000 ∅))
    as (s' & w' & added & Hrun & Hev & Hmap & Hlast & _ & _ & _ & Hserial & Hlate).
  destruct Hserial as (fields & Hdict & Hstatus & _).
  - exact I.
  - exists false. split; repeat constructor.
  - exists s', w', fields.
    split; [exact Hrun |]. split; [exact Hdict |].
    split; [rewrite Hstatus, Hlast; reflexivity |].
    destruct added as [| e [| e' rest]]; try discriminate.
    injection Hmap as He.
    assert (Htime : event_time e = Naive 200).
    { vm_compute in Hrun. injection Hrun as Hs' _. subst s'.
      cbn [tracking_events] in Hev. by injection Hev as <-. }
    destruct (Hlate BookingSpec.late_departure e eq_refl eq_refl) as [Horder _].
    { rewrite Htime. repeat constructor. }
    rewrite Horder. cbn [map]. rewrite He. reflexivity.
Defined.

(** The claim as written fails: a late report of the departure changes the
    status of a delivered shipment to IN_TRANSIT. *)
Lemma earlier_event_changes_status : ~ BookingSpec.earlier_event_keeps_status.
Proof.
  intros H.
  destruct (H BookingSpec.delivered_shipment BookingSpec.late_departure (Naive 200)
              (sample_world 1000 ∅) eq_refl)
    as (s' & e & w' & Hrun & Hst).
  { repeat constructor. }
  vm_compute in Hrun. injection Hrun as <- _ _. discriminate.
Qed.

End TrackingHistory.

Section ContainerAllocation.
Import BookingService.
Context (lib : Library).

Lemma new_containers_run (t : ContainerType) (n : nat) :
  forall (made : list Container) (w : World),
  exists (l : list Container) (w' : World),
    new_containers lib t n made w = (Return l, w')
    /\ length l = (length made + n)%nat.
Proof.
  induction n as [| n IH]; intros made w.
  - exists made, w. split; [reflexivity | lia].
  - cbn [new_containers]. unfold bind at 1.
    assert (Hnew : exists c w1, new_container lib t w = (Return c, w1)).
    { unfold new_container. run_eff. by eexists _, _. }
    destruct Hnew as (c & w1 & Hnew). rewrite Hnew.
    destruct (IH (made ++ [c]) w1) as (l & w' & Hrun & Hlen).
    exists l, w'. split; [exact Hrun |].
    rewrite Hlen, length_app. simpl. lia.
Qed.

Lemma allocate_each_run (containers : list Container) :
  forall (allocated : list string) (w : World),
  exists (ids : list string) (w' : World),
    allocate_each containers allocated w = (Return ids, w').
Proof.
  induction containers as [| c rest IH]; intros allocated w.
  - by exists allocated, w.
  - cbn [allocate_each]. unfold bind at 1, utcnow at 1. apply IH.
Qed.

Lemma allocate_without_type (pre : list (gmap string pyval)) :
  forall (r : gmap string pyval) (post : list (gmap string pyval))
         (allocated : list string) (w : World),
    r !! "type" = None ->
    Forall BookingSpec.quantity_is_int pre ->
    exists (msg : string) (w' : World),
      _allocate_containers lib (pre ++ r :: post) allocated w = (Raise (ValueError msg), w').
Proof.
  induction pre as [| q pre IH]; intros r post allocated w Hr Hpre.
  - cbn [app _allocate_containers]. rewrite Hr. by eexists _, _.
  - inversion Hpre as [| ? ? [z Hz] Hrest]; subst.
    cbn [app _allocate_containers]. unfold bind at 1.
    destruct (container_type_of (default (PStr "DRY_20") (q !! "type")) w)
      as [[t | e] w0] eqn:Ety.
    + assert (w0 = w) as ->.
      { unfold container_type_of in Ety. repeat case_match; by inversion Ety. }
      unfold bind at 1, _find_available_containers. rewrite Hz.
      destruct (new_containers_run t (Z.to_nat z) [] w) as (l & w1 & Hnew & Hlen).
      rewrite Hnew.
      destruct (Z.of_nat (length l) <? z) eqn:Elt.
      { apply Z.ltb_lt in Elt. rewrite Hlen in Elt. simpl in Elt. lia. }
      unfold bind at 1.
      destruct (allocate_each_run (slice_to l z) allocated w1) as (ids & w2 & Hall).
      rewrite Hall. by apply IH.
    + unfold container_type_of in Ety.
      repeat case_match; inversion Ety; subst; by eexists _, _.
Qed.

(** C10. [ContainerType('DRY_20')] names no member, DRY_20 being the name
    of the member whose value is 20FT_DRY. So a call of
    [_allocate_containers] with a requirement that has no 'type' key raises
    [ValueError] and not the [BadRequest] of the InvalidInput kind: at once
    when the requirement comes first, and after the requirements before it
    when their quantities are ints. [confirm_booking] passes the exception
    on, and its route answers 500. *)
Theorem allocate_containers_without_type_raises_value_error :
  enum_of_value all_container_types container_type_value "DRY_20" = None
  /\ container_type_name DRY_20 = "DRY_20"
  /\ container_type_value DRY_20 = "20FT_DRY"
  /\ (forall (r : gmap string pyval) (post : list (gmap string pyval))
             (allocated : list string) (w : World),
        r !! "type" = None ->
        _allocate_containers lib (r :: post) allocated w
        = (Raise (ValueError "'DRY_20' is not a valid ContainerType"), w))
  /\ (forall (pre : list (gmap string pyval)) (r : gmap string pyval)
             (post : list (gmap string pyval)) (allocated : list string) (w : World),
        r !! "type" = None ->
        Forall BookingSpec.quantity_is_int pre ->
        exists (msg : string) (w' : World),
          _allocate_containers lib (pre ++ r :: post) allocated w
          = (Raise (ValueError msg), w')
          /\ confirm_booking_except (ValueError msg) = 500
          /\ kind_of_status (confirm_booking_except (ValueError msg)) = Unexpected)
  /\ (forall (backend : Backend) (booking_id user_id : string)
             (vessel : option (gmap string pyval))
             (r : gmap string pyval) (rest : list (gmap string pyval))
             (b : Booking) (w w1 : World),
        get_booking lib backend booking_id user_id w = (Return (Some b), w1) ->
        b_status b = PENDING ->
        r !! "type" = None ->
        confirm_booking lib backend booking_id user_id vessel (Some (r :: rest)) w
        = (Raise (ValueError "'DRY_20' is not a valid ContainerType"), w1)).
Proof.
  split; [reflexivity |]. split; [reflexivity |]. split; [reflexivity |].
  assert (Hfirst : forall (r : gmap string pyval) (post : list (gmap string pyval))
             (allocated : list string) (w : World),
        r !! "type" = None ->
        _allocate_containers lib (r :: post) allocated w
        = (Raise (ValueError "'DRY_20' is not a valid ContainerType"), w)).
  { intros r post allocated w Hr. cbn [_allocate_containers]. rewrite Hr. reflexivity. }
  split; [exact Hfirst |].
  split.
  - intros pre r post allocated w Hr Hpre.
    destruct (allocate_without_type pre r post allocated w Hr Hpre) as (msg & w' & Hrun).
    exists msg, w'. split; [exact Hrun |]. split; reflexivity.
  - intros backend booking_id user_id vessel r rest b w w1 Hget Hst Hr.
    unfold confirm_booking. unfold bind at 1. rewrite Hget, Hst.
    rewrite bool_decide_eq_true_2 by reflexivity. cbn [negb].
    unfold bind at 1, _get_quote at 1, ret at 1.
    unfold bind at 1. cbn beta iota.
    rewrite (Hfirst r rest [] w1 Hr). reflexivity.
Qed.

End ContainerAllocation.

Lemma allocate_containers_without_type_witness :
  exists (msg : string) (w' : World),
    BookingService._allocate_containers sample_library
      ([ {[ "type" := PStr "40FT_DRY"; "quantity" := PInt 2 ]} ]
       ++ {[ "quantity" := PInt 1 ]} :: []) [] (sample_world 0 ∅)
    = (Raise (ValueError msg), w').
Proof.
  destruct (allocate_containers_without_type_raises_value_error sample_library)
    as (_ & _ & _ & _ & Hany & _).
  destruct (Hany [ {[ "type" := PStr "40FT_DRY"; "quantity" := PInt 2 ]} ]
              {[ "quantity" := PInt 1 ]} [] [] (sample_world 0 ∅))
    as (msg & w' & Hrun & _).
  - vm_compute. reflexivity.
  - constructor; [| constructor]. vm_compute. by eexists.
  - by exists msg, w'.
Defined.


Section AccessControl.
Import BookingService.

Lemma alice_fields_cached :
  booking_to_dict BookingSpec.alice_booking = PDict BookingSpec.alice_fields.
Proof. reflexivity. Qed.

Lemma can_access_false (backend : Backend) (b : Booking) (user_id : string) :
  _can_access_booking backend b user_id = false
  <-> created_by b <> user_id /\ _is_admin backend user_id = false.
Proof.
  unfold _can_access_booking. rewrite orb_false_iff.
  split; intros [H1 H2]; (split; [| exact H2]).
  - by apply String.eqb_neq.
  - by apply String.eqb_neq.
Qed.

Lemma get_booking_hit (lib : Library) (backend : Backend) (booking_id user_id : string)
    (data : pyval) (b : Booking) (w w1 w2 : World) :
  truthy (default PNone (cache w !! ("booking:" +:+ booking_id))) = true ->
  unwrap_cached lib (default PNone (cache w !! ("booking:" +:+ booking_id))) w
  = (Return data, w1) ->
  _dict_to_booking lib data w1 = (Return b, w2) ->
  get_booking lib backend booking_id user_id w
  = (if negb (_can_access_booking backend b user_id) then Return None
     else Return (Some b), w2).
Proof.
  intros Hc Hu Hd. unfold get_booking.
  unfold bind at 1, cache_get at 1. rewrite Hc.
  unfold bind at 1. rewrite Hu. unfold bind at 1. rewrite Hd.
  destruct (negb (_can_access_booking backend b user_id)); reflexivity.
Qed.

(** C2. The claim fails on the engine as shipped. Alice's booking is
    cached; mallory did not create it and holds no [admin] role. With
    [_is_admin] as shipped, true for every user, [get_booking] hands her the
    booking and the route answers 200, while for an id under which nothing
    is cached it returns None and the route answers 404: the two cases are
    told apart, and the booking of another user is read. The rest of the
    method does what the claim says: as soon as [_is_admin] refuses the
    user, by the roles as its comment says or in any other way, the same
    call returns None and the route answers 404, as for an absent booking. *)
Theorem get_booking_serves_every_user :
  let w := sample_world 0 BookingSpec.alice_cache in
  let user := Auth.user_id BookingSpec.mallory in
  Auth.has_role BookingSpec.mallory "admin" = false
  /\ created_by BookingSpec.alice_booking <> user
  /\ cache w !! "booking:b-1" = Some (booking_to_dict BookingSpec.alice_booking)
  /\ (exists (b : Booking) (w' : World),
        get_booking sample_library shipped "b-1" user w = (Return (Some b), w')
        /\ b_id b = PStr "b-1" /\ customer_id b = PStr "alice"
        /\ get_booking_route sample_library shipped "b-1" user w = (Return 200, w'))
  /\ get_booking sample_library shipped "b-2" user w = (Return None, w)
  /\ get_booking_route sample_library shipped "b-2" user w = (Return 404, w)
  /\ ~ BookingSpec.hides_foreign_bookings
  /\ (forall backend : Backend,
        _is_admin backend user = false ->
        exists w' : World,
          get_booking sample_library backend "b-1" user w = (Return None, w')
          /\ get_booking_route sample_library backend "b-1" user w = (Return 404, w')).
Proof.
  intros w user.
  assert (Hrun : exists (b : Booking) (w' : World),
    _dict_to_booking sample_library (PDict BookingSpec.alice_fields) w = (Return b, w')
    /\ b_id b = PStr "b-1" /\ customer_id b = PStr "alice" /\ created_by b = "").
  { eexists _, _. split; [vm_compute; reflexivity |]. repeat split. }
  destruct Hrun as (b & w' & Hdict & Hid & Hcu & Hby).
  assert (Hhit : forall backend : Backend,
    get_booking sample_library backend "b-1" user w
    = (if negb (_can_access_booking backend b user) then Return None
       else Return (Some b), w')).
  { intros backend.
    apply (get_booking_hit sample_library backend "b-1" user
             (PDict BookingSpec.alice_fields) b w w w');
      [vm_compute; reflexivity | vm_compute; reflexivity | exact Hdict]. }
  split; [reflexivity |]. split; [discriminate |].
  split; [vm_compute; reflexivity |].
  split.
  { exists b, w'.
    assert (Hget : get_booking sample_library shipped "b-1" user w = (Return (Some b), w')).
    { rewrite (Hhit shipped). unfold _can_access_booking. cbn [_is_admin shipped].
      by rewrite orb_true_r. }
    split; [exact Hget |]. split; [exact Hid |]. split; [exact Hcu |].
    unfold get_booking_route. by rewrite Hget. }
  split; [vm_compute; reflexivity |].
  split; [vm_compute; reflexivity |].
  split.
  { intros H.
    specialize (H sample_library w "b-1" BookingSpec.mallory BookingSpec.alice_fields "alice").
    assert (Hnone : fst (get_booking sample_library shipped "b-1" user w) = Return None).
    { apply H.
      - vm_compute. reflexivity.
      - vm_compute. reflexivity.
      - discriminate.
      - reflexivity. }
    rewrite (Hhit shipped) in Hnone. unfold _can_access_booking in Hnone.
    cbn [_is_admin shipped] in Hnone. rewrite orb_true_r in Hnone. discriminate. }
  intros backend Hadmin. exists w'.
  assert (Hget : get_booking sample_library backend "b-1" user w = (Return None, w')).
  { rewrite (Hhit backend).
    assert (Hno : _can_access_booking backend b user = false).
    { apply can_access_false. split; [by rewrite Hby | exact Hadmin]. }
    by rewrite Hno. }
  split; [exact Hget |]. unfold get_booking_route. by rewrite Hget.
Qed.

Lemma get_booking_serves_every_user_witness :
  exists w' : World,
    get_booking sample_library (BookingSpec.by_role [BookingSpec.mallory]) "b-1" "mallory"
      (sample_world 0 BookingSpec.alice_cache) = (Return None, w')
    /\ get_booking_route sample_library (BookingSpec.by_role [BookingSpec.mallory]) "b-1"
         "mallory" (sample_world 0 BookingSpec.alice_cache) = (Return 404, w').
Proof.
  destruct get_booking_serves_every_user as (_ & _ & _ & _ & _ & _ & _ & Hrefused).
  exact (Hrefused (BookingSpec.by_role [BookingSpec.mallory]) eq_refl).
Defined.

End AccessControl.

(* ================================================================== *)
(** * Further properties of the quotation models *)
(* ================================================================== *)

Section QuoteFurther.
Import Quotation.

Lemma accept_run (q : Quote) (w : World) :
  accept q w =
  if (now w <=? valid_until q) && bool_decide (status q ∈ ["ISSUED"; "DRAFT"])
  then (Return (set_accepted_at (Some (now (tick w))) (set_status "ACCEPTED" q)),
        tick (tick w))
  else (Raise (ValueError "Cannot accept expired or invalid quote"), tick w).
Proof.
  unfold accept, bind. rewrite is_valid_run.
  destruct ((now w <=? valid_until q) && bool_decide (status q ∈ ["ISSUED"; "DRAFT"]));
    reflexivity.
Qed.

(** X1. A quote is accepted at most once: after a successful [accept],
    every further [accept] and every [issue] raises [ValueError], at any
    time, and leaves the quote as it is. *)
Theorem accept_only_once (q q' : Quote) (w w' : World) :
  accept q w = (Return q', w') ->
  status q' = "ACCEPTED"
  /\ forall w2 : World,
       accept q' w2 = (Raise (ValueError "Cannot accept expired or invalid quote"), tick w2)
       /\ issue q' w2 = (Raise (ValueError "Can only issue draft quotes"), w2).
Proof.
  intros Hacc. rewrite accept_run in Hacc.
  destruct ((now w <=? valid_until q) && bool_decide (status q ∈ ["ISSUED"; "DRAFT"]));
    [| discriminate].
  injection Hacc as <- _. split; [reflexivity |].
  intros w2. split.
  - rewrite accept_run. simpl status.
    rewrite (bool_decide_eq_false_2 ("ACCEPTED" ∈ ["ISSUED"; "DRAFT"])).
    + by rewrite andb_false_r.
    + rewrite !elem_of_cons. intros [H | [H | H]]; try discriminate. inversion H.
  - reflexivity.
Qed.

Lemma accept_only_once_witness :
  let q := {| quote_id := "Q-1A2B3C4D"; customer_id := "CUST123"; status := "ISSUED";
              valid_until := 604800000000; issued_at := Some 0; accepted_at := None |} in
  exists q' : Quote,
    accept q (sample_world 0 ∅) = (Return q', tick (tick (sample_world 0 ∅)))
    /\ accept q' (tick (tick (sample_world 0 ∅)))
       = (Raise (ValueError "Cannot accept expired or invalid quote"),
          tick (tick (tick (sample_world 0 ∅)))).
Proof.
  intros q.
  assert (Hacc : accept q (sample_world 0 ∅)
                 = (Return (set_accepted_at (Some 1000000) (set_status "ACCEPTED" q)),
                    tick (tick (sample_world 0 ∅)))) by reflexivity.
  eexists. split; [exact Hacc |].
  apply (proj2 (accept_only_once q _ (sample_world 0 ∅) _ Hacc)).
Defined.

(** X2. A draft quote issued and then accepted inside its validity window
    ends ACCEPTED with both timestamps, the issue time being the earlier
    clock reading; a second [issue] in between raises. *)
Theorem issue_then_accept (q : Quote) (w : World) :
  status q = "DRAFT" ->
  now (tick w) <= valid_until q ->
  exists q1 q2 : Quote,
    issue q w = (Return q1, tick w)
    /\ issue q1 (tick w) = (Raise (ValueError "Can only issue draft quotes"), tick w)
    /\ accept q1 (tick w) = (Return q2, tick (tick (tick w)))
    /\ status q2 = "ACCEPTED"
    /\ issued_at q2 = Some (now w)
    /\ accepted_at q2 = Some (now (tick (tick w)))
    /\ valid_until q2 = valid_until q.
Proof.
  intros Hd Ht.
  exists (set_issued_at (Some (now w)) (set_status "ISSUED" q)).
  eexists. split.
  { unfold issue. rewrite Hd. reflexivity. }
  split; [reflexivity |].
  split.
  { rewrite accept_run. simpl valid_until. simpl status.
    apply Z.leb_le in Ht. rewrite Ht. reflexivity. }
  repeat split.
Qed.

Lemma issue_then_accept_witness :
  let q := {| quote_id := "Q-1A2B3C4D"; customer_id := "CUST123"; status := "DRAFT";
              valid_until := 604800000000; issued_at := None; accepted_at := None |} in
  exists q1 q2 : Quote,
    issue q (sample_world 0 ∅) = (Return q1, tick (sample_world 0 ∅))
    /\ accept q1 (tick (sample_world 0 ∅))
       = (Return q2, tick (tick (tick (sample_world 0 ∅))))
    /\ issued_at q2 = Some 0 /\ accepted_at q2 = Some 2000000.
Proof.
  intros q.
  destruct (issue_then_accept q (sample_world 0 ∅)) as
    (q1 & q2 & Hi & _ & Ha & _ & Hia & Haa & _).
  - reflexivity.
  - vm_compute. discriminate.
  - exists q1, q2. repeat split; assumption.
Defined.

Lemma iter_tick_readings (k : nat) (w : World) :
  readings (Nat.iter k tick w) = readings w /\ ticks (Nat.iter k tick w) = (k + ticks w)%nat.
Proof.
  induction k as [| k [IHr IHt]]; [split; reflexivity |].
  simpl. split; [exact IHr | by rewrite IHt].
Qed.

(** X3. Expiry is permanent on a clock that never runs backwards: once the
    time is past [valid_until], [accept] raises now and after any number of
    further clock readings, whatever the stored status, which nothing
    rewrites to EXPIRED; and at one instant a quote is never both valid and
    expired. *)
Theorem expired_quote_is_never_accepted (q : Quote) (w : World) :
  (forall i j : nat, (i <= j)%nat -> readings w i <= readings w j) ->
  valid_until q < now w ->
  (forall k : nat,
      accept q (Nat.iter k tick w)
      = (Raise (ValueError "Cannot accept expired or invalid quote"),
         tick (Nat.iter k tick w))
      /\ fst (is_expired q (Nat.iter k tick w)) = Return true)
  /\ (forall w0 : World,
        ~ (fst (is_valid q w0) = Return true /\ fst (is_expired q w0) = Return true)).
Proof.
  intros Hmono Hpast. split.
  - intros k. destruct (iter_tick_readings k w) as [Hr Ht].
    assert (Hlate : valid_until q < now (Nat.iter k tick w)).
    { unfold now. rewrite Hr, Ht.
      eapply Z.lt_le_trans; [exact Hpast |]. apply Hmono. lia. }
    split.
    + rewrite accept_run.
      assert (Hf : (now (Nat.iter k tick w) <=? valid_until q) = false)
        by (apply Z.leb_gt; exact Hlate).
      by rewrite Hf.
    + unfold is_expired, bind, utcnow, ret. simpl.
      f_equal. apply Z.gtb_lt. exact Hlate.
  - intros w0 [Hv He]. rewrite is_valid_run in Hv. simpl in Hv.
    unfold is_expired, bind, utcnow, ret in He. simpl in He.
    injection Hv as Hv. injection He as He.
    apply andb_true_iff in Hv as [Hv _].
    apply Z.leb_le in Hv. apply Z.gtb_lt in He. lia.
Qed.

Lemma expired_quote_is_never_accepted_witness :
  let q := {| quote_id := "Q-1A2B3C4D"; customer_id := "CUST123"; status := "ISSUED";
              valid_until := 5; issued_at := Some 0; accepted_at := None |} in
  accept q (Nat.iter 3 tick (sample_world 10 ∅))
  = (Raise (ValueError "Cannot accept expired or invalid quote"),
     tick (Nat.iter 3 tick (sample_world 10 ∅))).
Proof.
  intros q.
  apply (proj1 (expired_quote_is_never_accepted q (sample_world 10 ∅)
           ltac:(intros i j Hij; simpl; lia) ltac:(vm_compute; reflexivity))).
Defined.



End QuoteFurther.

(* ================================================================== *)
(** * Further properties of the lead and vendor models *)
(* ================================================================== *)

Section LeadFurther.
Import Crm.

Lemma calculate_score_run (l : Lead) (w : World) :
  calculate_score l w =
    (Return (Z.min (LeadSpec.raw_score (now w) l) 100),
     match last_contact_date l with Some _ => tick w | None => w end).
Proof.
  unfold calculate_score, LeadSpec.raw_score.
  rewrite value_branch, source_scores_get, priority_scores_get.
  destruct (last_contact_date l) as [c |]; simpl.
  - unfold bind, utcnow, ret, timedelta_days. simpl.
    repeat case_match; do 3 f_equal; lia.
  - unfold ret. do 3 f_equal. lia.
Qed.

Lemma bonus_bounds (t : datetime) (l : Lead) :
  0 <= LeadSpec.raw_score t l - probability l <= 65.
Proof.
  unfold LeadSpec.raw_score, LeadSpec.value_tier_points, LeadSpec.recency_points.
  destruct (source l), (priority l); simpl;
    repeat case_match; lia.
Qed.

(** X5. The score never exceeds 100 and is never below the probability
    capped at 100, so it lies in 0..100 when the probability is not
    negative. There is no lower clamp: a probability of -66 or less gives a
    negative score whatever the other fields hold. *)
Theorem lead_score_bounds (l : Lead) (w : World) :
  exists (score : Z) (w' : World),
    calculate_score l w = (Return score, w')
    /\ score <= 100
    /\ Z.min (probability l) 100 <= score
    /\ (0 <= probability l -> 0 <= score)
    /\ (probability l <= -66 -> score < 0).
Proof.
  eexists _, _. split; [apply calculate_score_run |].
  pose proof (bonus_bounds (now w) l). repeat split; lia.
Qed.

Lemma lead_score_bounds_witness :
  exists (score : Z) (w' : World),
    calculate_score {| source := OTHER; priority := LOW; estimated_value := None;
                       probability := 40; last_contact_date := None |}
      (sample_world 0 ∅) = (Return score, w')
    /\ 0 <= score <= 100.
Proof.
  destruct (lead_score_bounds
              {| source := OTHER; priority := LOW; estimated_value := None;
                 probability := 40; last_contact_date := None |} (sample_world 0 ∅))
    as (score & w' & Hrun & Hhi & _ & Hlo & _).
  exists score, w'. split; [exact Hrun |]. split; [apply Hlo; simpl; lia | exact Hhi].
Defined.

(** X6. The score grows with the probability: of two leads that differ
    only in probability, scored at the same instant, the one with the
    higher probability never scores lower. *)
Theorem lead_score_monotone (l : Lead) (p1 p2 : Z) (w : World) :
  p1 <= p2 ->
  exists s1 s2 : Z,
    fst (calculate_score {| source := source l; priority := priority l;
                            estimated_value := estimated_value l; probability := p1;
                            last_contact_date := last_contact_date l |} w) = Return s1
    /\ fst (calculate_score {| source := source l; priority := priority l;
                               estimated_value := estimated_value l; probability := p2;
                               last_contact_date := last_contact_date l |} w) = Return s2
    /\ s1 <= s2.
Proof.
  intros Hp. eexists _, _. rewrite !calculate_score_run. simpl fst.
  split; [reflexivity |]. split; [reflexivity |].
  unfold LeadSpec.raw_score. simpl. lia.
Qed.

Lemma lead_score_monotone_witness :
  exists s1 s2 : Z,
    fst (calculate_score {| source := WEBSITE; priority := HIGH; estimated_value := None;
                            probability := 10; last_contact_date := None |}
           (sample_world 0 ∅)) = Return s1
    /\ fst (calculate_score {| source := WEBSITE; priority := HIGH; estimated_value := None;
                               probability := 50; last_contact_date := None |}
              (sample_world 0 ∅)) = Return s2
    /\ s1 <= s2.
Proof.
  apply (lead_score_monotone
           {| source := WEBSITE; priority := HIGH; estimated_value := None;
              probability := 0; last_contact_date := None |} 10 50 (sample_world 0 ∅)).
  lia.
Defined.

End LeadFurther.



Section VendorFurther.
Import Vendor.
Import RatingSpec.







End VendorFurther.

(* ================================================================== *)
(** * Further properties of the notification models *)
(* ================================================================== *)

Section DeliveryFurther.
Import Notifications.
Import DeliverySpec.

Lemma filter_prop_bool (c : NotificationChannel) (l : list NotificationDelivery) :
  filter (fun a => d_channel a = c) l = attempts_on c l.
Proof.
  unfold attempts_on. induction l as [| a rest IH]; [reflexivity |].
  rewrite filter_cons. simpl. rewrite IH.
  destruct (decide (d_channel a = c)) as [H | H].
  - by rewrite bool_decide_eq_true_2.
  - by rewrite bool_decide_eq_false_2.
Qed.

Lemma numbered_snoc (l : list NotificationDelivery) (d : NotificationDelivery) :
  numbered_in_sequence l ->
  d_attempt_number d = Z.of_nat (length (attempts_on (d_channel d) l)) + 1 ->
  numbered_in_sequence (l ++ [d]).
Proof.
  intros Hl Hd i x Hx.
  destruct (decide (i < length l)%nat) as [Hlt | Hge].
  - rewrite lookup_app_l in Hx by exact Hlt.
    rewrite take_app_le by lia. by apply Hl.
  - rewrite lookup_app_r in Hx by lia.
    destruct (i - length l)%nat eqn:E; [| destruct n; discriminate].
    simpl in Hx. injection Hx as <-.
    assert (i = length l) as -> by lia.
    rewrite take_app_length. exact Hd.
Qed.

Lemma add_attempts_numbered (cs : list NotificationChannel) :
  forall (n : Notification) (w : World),
    numbered_in_sequence (delivery_attempts n) ->
    exists (n' : Notification) (w' : World) (ds : list NotificationDelivery),
      add_attempts n cs w = (Return n', w')
      /\ delivery_attempts n' = delivery_attempts n ++ ds
      /\ map d_channel ds = cs
      /\ numbered_in_sequence (delivery_attempts n')
      /\ max_attempts n' = max_attempts n.
Proof.
  induction cs as [| c rest IH]; intros n w Hn.
  - exists n, w, []. simpl. rewrite app_nil_r. repeat split. exact Hn.
  - destruct (add_delivery_attempt_run n c w) as (d & Hrun & Hc & _ & Hnum).
    cbn [add_attempts]. unfold bind at 1. rewrite Hrun. cbn [fst].
    rewrite filter_prop_bool in Hnum.
    match goal with
    | |- context [add_attempts ?n1 rest ?w1] =>
        destruct (IH n1 w1) as (n' & w' & ds & Hrest & Hds & Hmap & Hnum' & Hmax)
    end.
    { simpl. apply numbered_snoc; [exact Hn | by rewrite Hc]. }
    exists n', w', (d :: ds). rewrite Hrest. split; [reflexivity |].
    split; [rewrite Hds; simpl; by rewrite <- app_assoc |].
    split; [simpl; by rewrite Hc, Hmap |].
    split; [exact Hnum' | exact Hmax].
Qed.

(** X9. Delivery attempts are numbered per channel in sequence: adding
    attempts to a notification whose attempts are numbered 1, 2, ... on each
    channel keeps them so, an attempt being numbered one more than the
    attempts already made on its channel. Nothing limits the number:
    [add_delivery_attempt] adds a further attempt also when [can_retry] is
    false for the channel. *)
Theorem attempts_are_numbered_per_channel
    (n : Notification) (cs : list NotificationChannel) (w : World) :
  numbered_in_sequence (delivery_attempts n) ->
  (exists (n' : Notification) (w' : World) (ds : list NotificationDelivery),
      add_attempts n cs w = (Return n', w')
      /\ delivery_attempts n' = delivery_attempts n ++ ds
      /\ map d_channel ds = cs
      /\ numbered_in_sequence (delivery_attempts n'))
  /\ (forall c : NotificationChannel,
        can_retry n c = false ->
        exists (n' : Notification) (d : NotificationDelivery) (w' : World),
          add_delivery_attempt n c "PENDING" w = (Return (n', d), w')
          /\ delivery_attempts n' = delivery_attempts n ++ [d]
          /\ max_attempts n < d_attempt_number d
          /\ can_retry n' c = false).
Proof.
  intros Hn. split.
  - destruct (add_attempts_numbered cs n w Hn) as (n' & w' & ds & H1 & H2 & H3 & H4 & _).
    by exists n', w', ds.
  - intros c Hc.
    destruct (add_delivery_attempt_run n c w) as (d & Hrun & Hdc & _ & Hnum).
    eexists _, d, _. split; [exact Hrun |]. split; [reflexivity |].
    rewrite filter_prop_bool in Hnum.
    unfold can_retry in *. fold (attempts_on c (delivery_attempts n)) in Hc.
    apply Z.ltb_ge in Hc. split; [lia |].
    apply Z.ltb_ge. simpl.
    fold (attempts_on c (delivery_attempts n ++ [d])).
    unfold attempts_on. rewrite List.filter_app, length_app.
    fold (attempts_on c (delivery_attempts n)). lia.
Qed.

Lemma attempts_are_numbered_per_channel_witness :
  let n := {| id := "n-1"; recipient_id := "user-123"; notification_type := SYSTEM_ALERT;
              title := "Maintenance"; content := "Tonight"; channels := [EMAIL];
              priority := NORMAL; scheduled_at := None; expires_at := None;
              status := PENDING; sent_at := None; delivered_at := None; read_at := None;
              delivery_attempts := []; max_attempts := 3; metadata := ∅;
              created_by := "system"; created_at := 0; updated_at := 0 |} in
  exists (n' : Notification) (w' : World) (ds : list NotificationDelivery),
    add_attempts n [EMAIL; SMS; EMAIL] (sample_world 0 ∅) = (Return n', w')
    /\ delivery_attempts n' = ds
    /\ map d_attempt_number ds = [1; 1; 2].
Proof.
  intros n.
  destruct (proj1 (attempts_are_numbered_per_channel n [EMAIL; SMS; EMAIL]
                     (sample_world 0 ∅) ltac:(intros i d H; destruct i; discriminate)))
    as (n' & w' & ds & Hrun & Hds & _ & _).
  exists n', w', ds. split; [exact Hrun |]. split; [exact Hds |].
  vm_compute in Hrun. injection Hrun as Hn' _. subst n'.
  simpl in Hds. subst ds. reflexivity.
Defined.

Lemma change_first_run (test : NotificationDelivery -> bool)
    (change : datetime -> NotificationDelivery -> NotificationDelivery)
    (l : list NotificationDelivery) (w : World) :
  (forall t a, d_channel (change t a) = d_channel a
               /\ d_attempt_number (change t a) = d_attempt_number a) ->
  exists (l' : list NotificationDelivery) (w' : World),
    change_first test change l w = (Return l', w')
    /\ map d_channel l' = map d_channel l
    /\ map d_attempt_number l' = map d_attempt_number l
    /\ (w' = w \/ w' = tick w)
    /\ (forallb (fun a => negb (test a)) l = true -> l' = l /\ w' = w).
Proof.
  intros Hkeep. induction l as [| a rest IH].
  - exists [], w. split; [reflexivity |]. split; [reflexivity |].
    split; [reflexivity |]. split; [by left |]. intros _. by split.
  - cbn [change_first]. destruct (test a) eqn:Ea.
    + run_eff. eexists _, _. split; [reflexivity |].
      destruct (Hkeep (now w) a) as [Hc Hn].
      simpl. rewrite Hc, Hn, Ea.
      split; [reflexivity |]. split; [reflexivity |]. split; [by right |].
      discriminate.
    + destruct IH as (l' & w' & Hrun & Hch & Hnum & Hw & Hsame).
      unfold bind. rewrite Hrun. unfold ret.
      eexists _, _. split; [reflexivity |]. simpl. rewrite Hch, Hnum, Ea.
      split; [reflexivity |]. split; [reflexivity |]. split; [exact Hw |].
      simpl. intros H. destruct (Hsame H) as [-> ->]. by split.
Qed.

Lemma attempt_changes_keep :
  (forall t a, d_channel (attempt_sent t a) = d_channel a
               /\ d_attempt_number (attempt_sent t a) = d_attempt_number a)
  /\ (forall t a, d_channel (attempt_delivered t a) = d_channel a
                  /\ d_attempt_number (attempt_delivered t a) = d_attempt_number a)
  /\ (forall msg t a, d_channel (attempt_failed msg t a) = d_channel a
                      /\ d_attempt_number (attempt_failed msg t a) = d_attempt_number a).
Proof. repeat split. Qed.

(** X10. [mark_as_sent] returns for every notification and channel. It
    keeps the channels, and the channel and the number of every attempt. A
    PENDING notification becomes SENT, also when no attempt on the channel
    was pending; a notification in any other status, READ included, keeps
    its status and its [sent_at]. *)
Theorem mark_as_sent_moves_only_pending
    (n : Notification) (c : NotificationChannel) (w : World) :
  exists (n' : Notification) (w' : World),
    mark_as_sent n c w = (Return n', w')
    /\ channels n' = channels n
    /\ map d_channel (delivery_attempts n') = map d_channel (delivery_attempts n)
    /\ map d_attempt_number (delivery_attempts n')
       = map d_attempt_number (delivery_attempts n)
    /\ read_at n' = read_at n
    /\ (status n = PENDING -> status n' = SENT /\ is_Some (sent_at n'))
    /\ (status n <> PENDING -> status n' = status n /\ sent_at n' = sent_at n).
Proof.
  unfold mark_as_sent. unfold bind at 1.
  destruct (change_first_run
              (fun a => bool_decide (d_channel a = c) && String.eqb (d_status a) "PENDING")
              attempt_sent (delivery_attempts n) w (proj1 attempt_changes_keep))
    as (l' & w1 & Hrun & Hch & Hnum & _ & _).
  rewrite Hrun. cbn [status set_delivery_attempts].
  destruct (decide (status n = PENDING)) as [Hp | Hp].
  - rewrite (bool_decide_eq_true_2 _ Hp). run_eff.
    eexists _, _. split; [reflexivity |]. simpl.
    split; [reflexivity |]. split; [exact Hch |]. split; [exact Hnum |].
    split; [reflexivity |]. split; [intros _; split; [reflexivity | by eexists] |].
    intros H. contradiction.
  - rewrite (bool_decide_eq_false_2 _ Hp). run_eff.
    eexists _, _. split; [reflexivity |]. simpl.
    split; [reflexivity |]. split; [exact Hch |]. split; [exact Hnum |].
    split; [reflexivity |]. split; [intros H; contradiction |].
    intros _. by split.
Qed.

Lemma mark_as_sent_moves_only_pending_witness :
  let n := {| id := "n-1"; recipient_id := "user-123"; notification_type := SYSTEM_ALERT;
              title := "Maintenance"; content := "Tonight"; channels := [EMAIL];
              priority := NORMAL; scheduled_at := None; expires_at := None;
              status := READ; sent_at := None; delivered_at := None; read_at := Some 5;
              delivery_attempts := []; max_attempts := 3; metadata := ∅;
              created_by := "system"; created_at := 0; updated_at := 5 |} in
  exists (n' : Notification) (w' : World),
    mark_as_sent n EMAIL (sample_world 10 ∅) = (Return n', w') /\ status n' = READ.
Proof.
  intros n.
  destruct (mark_as_sent_moves_only_pending n EMAIL (sample_world 10 ∅))
    as (n' & w' & Hrun & _ & _ & _ & _ & _ & Hkeep).
  exists n', w'. split; [exact Hrun |]. by destruct Hkeep.
Defined.



Lemma single_failed_attempt_fails_all (fd : NotificationDelivery)
    (cs : list NotificationChannel) :
  d_status fd = "FAILED" ->
  forallb
    (fun ch =>
       forallb (fun d => String.eqb (d_status d) "FAILED")
         (List.filter (fun d => bool_decide (d_channel d = ch)) [fd]))
    cs = true.
Proof.
  intros Hf. apply List.forallb_forall. intros ch _.
  cbn [List.filter].
  destruct (bool_decide (d_channel fd = ch)); cbn [forallb]; [| reflexivity].
  rewrite Hf. reflexivity.
Qed.

(** X12. A channel without attempts is no obstacle to a final status. A
    notification with no channels is DELIVERED after any [mark_as_delivered]
    and FAILED after any [mark_as_failed]. And when the only attempt, still
    pending or sent, fails, the notification becomes FAILED whatever its
    channels, including channels never attempted, and whatever its status
    before, READ included. *)
Theorem unattempted_channels_do_not_block
    (n : Notification) (c : NotificationChannel) (msg : string) (w : World) :
  (channels n = [] ->
   (exists (n1 : Notification) (w1 : World),
       mark_as_delivered n c w = (Return n1, w1) /\ status n1 = DELIVERED)
   /\ (exists (n2 : Notification) (w2 : World),
         mark_as_failed n c msg w = (Return n2, w2) /\ status n2 = FAILED))
  /\ (forall d : NotificationDelivery,
        delivery_attempts n = [d] -> d_channel d = c ->
        d_status d = "PENDING" \/ d_status d = "SENT" ->
        exists (n3 : Notification) (w3 : World),
          mark_as_failed n c msg w = (Return n3, w3)
          /\ status n3 = FAILED /\ channels n3 = channels n
          /\ map d_status (delivery_attempts n3) = ["FAILED"]
          /\ map d_error_message (delivery_attempts n3) = [Some msg]).
Proof.
  split.
  - intros Hch. split.
    + unfold mark_as_delivered. unfold bind at 1.
      destruct (change_first_run
                  (fun a => bool_decide (d_channel a = c) && String.eqb (d_status a) "SENT")
                  attempt_delivered (delivery_attempts n) w
                  (proj1 (proj2 attempt_changes_keep)))
        as (l' & w1 & Hrun & _).
      rewrite Hrun. cbn [channels delivery_attempts set_delivery_attempts].
      rewrite Hch. cbn [forallb]. run_eff.
      eexists _, _. split; reflexivity.
    + unfold mark_as_failed. unfold bind at 1.
      destruct (change_first_run
                  (fun a => bool_decide (d_channel a = c)
                            && bool_decide (d_status a ∈ ["PENDING"; "SENT"]))
                  (attempt_failed msg) (delivery_attempts n) w
                  (proj2 (proj2 attempt_changes_keep) msg))
        as (l' & w1 & Hrun & _).
      rewrite Hrun. cbn [channels delivery_attempts set_delivery_attempts].
      rewrite Hch. cbn [forallb]. run_eff.
      eexists _, _. split; reflexivity.
  - intros d Hat Hdc Hds.
    unfold mark_as_failed. rewrite Hat. cbn [change_first].
    rewrite (bool_decide_eq_true_2 _ Hdc).
    assert (Hin : bool_decide (d_status d ∈ ["PENDING"; "SENT"]) = true).
    { apply bool_decide_eq_true_2. rewrite !elem_of_cons. tauto. }
    rewrite Hin. cbn [andb]. run_eff.
    cbn [channels delivery_attempts set_delivery_attempts].
    rewrite single_failed_attempt_fails_all by reflexivity.
    eexists _, _. split; [reflexivity |]. repeat split.
Qed.

Lemma unattempted_channels_do_not_block_witness :
  let d := {| d_id := "d-1"; d_notification_id := "n-1"; d_channel := EMAIL;
              d_status := "SENT"; d_attempt_number := 1; d_sent_at := Some 1;
              d_delivered_at := None; d_failed_at := None; d_error_message := None;
              d_created_at := 0 |} in
  let n := {| id := "n-1"; recipient_id := "user-123"; notification_type := SYSTEM_ALERT;
              title := "Maintenance"; content := "Tonight"; channels := [EMAIL; SMS];
              priority := NORMAL; scheduled_at := None; expires_at := None;
              status := READ; sent_at := Some 1; delivered_at := None; read_at := Some 5;
              delivery_attempts := [d]; max_attempts := 3; metadata := ∅;
              created_by := "system"; created_at := 0; updated_at := 5 |} in
  exists (n3 : Notification) (w3 : World),
    mark_as_failed n EMAIL "mailbox full" (sample_world 10 ∅) = (Return n3, w3)
    /\ status n3 = FAILED.
Proof.
  intros d n.
  destruct (proj2 (unattempted_channels_do_not_block n EMAIL "mailbox full"
                     (sample_world 10 ∅)) d eq_refl eq_refl (or_intror eq_refl))
    as (n3 & w3 & Hrun & Hst & _).
  by exists n3, w3.
Defined.

Lemma channel_value_inj (a b : NotificationChannel) :
  channel_value a = channel_value b -> a = b.
Proof. destruct a, b; simpl; intros H; try reflexivity; discriminate. Qed.

Lemma status_map_lookup (f : NotificationChannel -> pyval) (cs : list NotificationChannel) :
  forall (acc : gmap string pyval) (c : NotificationChannel),
    foldl (fun acc channel => <[channel_value channel := f channel]> acc) acc cs
      !! channel_value c
    = if decide (c ∈ cs) then Some (f c) else acc !! channel_value c.
Proof.
  induction cs as [| x rest IH]; intros acc c.
  - simpl. destruct (decide (c ∈ [])) as [H | H]; [by apply elem_of_nil in H | reflexivity].
  - cbn [foldl]. rewrite IH.
    destruct (decide (c ∈ rest)) as [Hr | Hr].
    + rewrite decide_True; [reflexivity | by right].
    + destruct (decide (c = x)) as [-> | Hx].
      * rewrite decide_True by left. apply lookup_insert_eq.
      * rewrite decide_False.
        -- apply lookup_insert_ne. intros H. apply channel_value_inj in H. congruence.
        -- rewrite elem_of_cons. tauto.
Qed.

Lemma latest_attempt_spec (c : NotificationChannel) (l : list NotificationDelivery) :
  forall acc : option NotificationDelivery,
    match latest_attempt c l acc with
    | None => acc = None /\ attempts_on c l = []
    | Some a =>
        (acc = Some a \/ a ∈ attempts_on c l)
        /\ Forall (fun b => d_created_at b <= d_created_at a) (attempts_on c l)
        /\ (forall x, acc = Some x -> d_created_at x <= d_created_at a)
    end.
Proof.
  unfold attempts_on.
  induction l as [| a rest IH]; intros acc.
  - cbn [latest_attempt List.filter]. destruct acc as [x |].
    + split; [by left |]. split; [constructor |]. intros y [= ->]. lia.
    + by split.
  - cbn [latest_attempt List.filter].
    destruct (decide (d_channel a = c)) as [Hc | Hc].
    + rewrite (bool_decide_eq_true_2 _ Hc).
      destruct acc as [x |].
      * destruct (d_created_at a >? d_created_at x) eqn:E.
        -- specialize (IH (Some a)). destruct (latest_attempt c rest (Some a)) as [m |].
           ++ destruct IH as (Hm & Hall & Hacc). specialize (Hacc a eq_refl).
              split; [| split].
              ** right. destruct Hm as [[= ->] | Hm]; [left | by right].
              ** by constructor.
              ** intros y [= ->]. lia.
           ++ by destruct IH.
        -- specialize (IH (Some x)). destruct (latest_attempt c rest (Some x)) as [m |].
           ++ destruct IH as (Hm & Hall & Hacc). specialize (Hacc x eq_refl).
              split; [| split].
              ** destruct Hm as [Hm | Hm]; [by left | right; by right].
              ** constructor; [lia | exact Hall].
              ** intros y [= ->]. exact Hacc.
           ++ by destruct IH.
      * specialize (IH (Some a)). destruct (latest_attempt c rest (Some a)) as [m |].
        -- destruct IH as (Hm & Hall & Hacc). specialize (Hacc a eq_refl).
           split; [| split].
           ++ right. destruct Hm as [[= ->] | Hm]; [left | by right].
           ++ by constructor.
           ++ discriminate.
        -- by destruct IH.
    + rewrite (bool_decide_eq_false_2 _ Hc). apply IH.
Qed.

(** X16. [get_delivery_status_by_channel] has one entry per channel of the
    notification and no other: NOT_ATTEMPTED for a channel without
    attempts, and otherwise the status of an attempt on that channel that
    no other attempt on the channel was created after. Attempts on a
    channel the notification does not list are not reported. *)
Theorem delivery_status_by_channel_reports_latest
    (n : Notification) (c : NotificationChannel) :
  (c ∉ channels n -> get_delivery_status_by_channel n !! channel_value c = None)
  /\ (c ∈ channels n ->
      (attempts_on c (delivery_attempts n) = [] ->
       get_delivery_status_by_channel n !! channel_value c = Some (PStr "NOT_ATTEMPTED"))
      /\ (attempts_on c (delivery_attempts n) <> [] ->
          exists a : NotificationDelivery,
            a ∈ attempts_on c (delivery_attempts n)
            /\ get_delivery_status_by_channel n !! channel_value c
               = Some (PStr (d_status a))
            /\ Forall (fun b => d_created_at b <= d_created_at a)
                 (attempts_on c (delivery_attempts n)))).
Proof.
  unfold get_delivery_status_by_channel.
  rewrite (status_map_lookup
             (fun channel =>
                match latest_attempt channel (delivery_attempts n) None with
                | Some a => PStr (d_status a)
                | None => PStr "NOT_ATTEMPTED"
                end)).
  split.
  - intros Hc. rewrite decide_False by exact Hc. apply lookup_empty.
  - intros Hc. rewrite decide_True by exact Hc.
    pose proof (latest_attempt_spec c (delivery_attempts n) None) as H.
    destruct (latest_attempt c (delivery_attempts n) None) as [a |].
    + destruct H as ([H | H] & Hall & _); [discriminate |].
      split.
      * intros He. rewrite He in H. by apply elem_of_nil in H.
      * intros _. by exists a.
    + destruct H as [_ H]. split; [reflexivity | contradiction].
Qed.

Lemma delivery_status_by_channel_reports_latest_witness :
  let d := {| d_id := "d-1"; d_notification_id := "n-1"; d_channel := SMS;
              d_status := "SENT"; d_attempt_number := 1; d_sent_at := Some 1;
              d_delivered_at := None; d_failed_at := None; d_error_message := None;
              d_created_at := 0 |} in
  let n := {| id := "n-1"; recipient_id := "user-123"; notification_type := SYSTEM_ALERT;
              title := "Maintenance"; content := "Tonight"; channels := [EMAIL];
              priority := NORMAL; scheduled_at := None; expires_at := None;
              status := SENT; sent_at := Some 1; delivered_at := None; read_at := None;
              delivery_attempts := [d]; max_attempts := 3; metadata := ∅;
              created_by := "system"; created_at := 0; updated_at := 1 |} in
  get_delivery_status_by_channel n !! "SMS" = None
  /\ get_delivery_status_by_channel n !! "EMAIL" = Some (PStr "NOT_ATTEMPTED").
Proof.
  intros d n. split.
  - apply (proj1 (delivery_status_by_channel_reports_latest n SMS)).
    change (SMS ∉ [EMAIL]). intros H. inversion H as [| ? ? ? H1]; inversion H1.
  - apply (proj2 (delivery_status_by_channel_reports_latest n EMAIL)).
    + change (EMAIL ∈ [EMAIL]). constructor.
    + reflexivity.
Defined.

End DeliveryFurther.

(* ================================================================== *)
(** * Further properties of the notification service *)
(* ================================================================== *)

Lemma bind_returns {S A B : Type} (c : eff S A) (k : A -> eff S B) (s s' : S) (b : B) :
  bind c k s = (Return b, s') ->
  exists (a : A) (s1 : S), c s = (Return a, s1) /\ k a s1 = (Return b, s').
Proof.
  unfold bind. destruct (c s) as [[a | e] s1]; [| discriminate].
  intros H. by exists a, s1.
Qed.

Section ServiceFurther.
Import Notifications.
Context (lib : Library).

Lemma parse_channels_bad (pre : list string) (bad : string) (post : list string) :
  forall (parsed : list NotificationChannel) (w : World),
    Forall (fun c => is_Some (channel_of_value (str_upper lib c))) pre ->
    channel_of_value (str_upper lib bad) = None ->
    parse_channels lib (pre ++ bad :: post) parsed w
    = (Raise (BadRequest ("Invalid channel: " +:+ bad)), w).
Proof.
  induction pre as [| c rest IH]; intros parsed w Hpre Hbad.
  - cbn [app parse_channels]. by rewrite Hbad.
  - inversion Hpre as [| ? ? [x Hx] Hrest]; subst.
    cbn [app parse_channels]. rewrite Hx. by apply IH.
Qed.

Lemma parse_channels_good (requested : list string) :
  forall (parsed : list NotificationChannel) (w : World),
    Forall (fun c => is_Some (channel_of_value (str_upper lib c))) requested ->
    exists l : list NotificationChannel,
      parse_channels lib requested parsed w = (Return l, w).
Proof.
  induction requested as [| c rest IH]; intros parsed w Hall.
  - by exists parsed.
  - inversion Hall as [| ? ? [x Hx] Hrest]; subst.
    cbn [parse_channels]. rewrite Hx. by apply IH.
Qed.

Lemma parse_channels_world (requested : list string) :
  forall (parsed : list NotificationChannel) (w w' : World)
         (o : outcome (list NotificationChannel)),
    parse_channels lib requested parsed w = (o, w') -> w' = w.
Proof.
  induction requested as [| c rest IH]; intros parsed w w' o H.
  - by injection H as _ <-.
  - cbn [parse_channels] in H.
    destruct (channel_of_value (str_upper lib c)).
    + by eapply IH.
    + by injection H as _ <-.
Qed.

(** X13. [create_notification] rejects what does not parse before it does
    anything else: an unknown type, then an unknown priority, then the
    first unknown channel, then an unreadable schedule each raise
    BadRequest with the message naming the offending value, and the world
    is as before: no identifier drawn, no clock reading, nothing cached,
    nothing published. *)
Theorem create_notification_rejects_before_any_effect
    (recipient ty title content : string)
    (requested : option (list string)) (priority : string)
    (scheduled : option string) (metadata : option (gmap string pyval))
    (created_by : string) (w : World) :
  (type_of_value (str_upper lib ty) = None ->
   create_notification lib recipient ty title content requested priority scheduled
     metadata created_by w
   = (Raise (BadRequest ("Invalid notification type: " +:+ ty)), w))
  /\ (is_Some (type_of_value (str_upper lib ty)) ->
      priority_of_value (str_upper lib priority) = None ->
      create_notification lib recipient ty title content requested priority scheduled
        metadata created_by w
      = (Raise (BadRequest ("Invalid priority: " +:+ priority)), w))
  /\ (is_Some (type_of_value (str_upper lib ty)) ->
      is_Some (priority_of_value (str_upper lib priority)) ->
      forall (pre : list string) (bad : string) (post : list string),
        requested = Some (pre ++ bad :: post) ->
        Forall (fun c => is_Some (channel_of_value (str_upper lib c))) pre ->
        channel_of_value (str_upper lib bad) = None ->
        create_notification lib recipient ty title content requested priority scheduled
          metadata created_by w
        = (Raise (BadRequest ("Invalid channel: " +:+ bad)), w))
  /\ (is_Some (type_of_value (str_upper lib ty)) ->
      is_Some (priority_of_value (str_upper lib priority)) ->
      Forall (fun c => is_Some (channel_of_value (str_upper lib c))) (default [] requested) ->
      forall s : string,
        scheduled = Some s -> s <> "" -> parse_iso lib s = None ->
        create_notification lib recipient ty title content requested priority scheduled
          metadata created_by w
        = (Raise (BadRequest "Invalid scheduled_at format"), w)).
Proof.
  split; [| split; [| split]].
  - intros Ht. unfold create_notification. rewrite Ht. reflexivity.
  - intros [t Ht] Hp. unfold create_notification. rewrite Ht, Hp. reflexivity.
  - intros [t Ht] [p Hp] pre bad post -> Hpre Hbad.
    unfold create_notification. rewrite Ht, Hp.
    unfold bind at 1. unfold ret at 1.
    unfold bind at 1. unfold ret at 1.
    unfold bind at 1.
    assert (Hrun :
      match pre ++ bad :: post with
      | c :: cs => parse_channels lib (c :: cs) []
      | [] => ret [EMAIL]
      end w = (Raise (BadRequest ("Invalid channel: " +:+ bad)), w)).
    { pose proof (parse_channels_bad pre bad post [] w Hpre Hbad) as H.
      destruct (pre ++ bad :: post) eqn:E; [by destruct pre | exact H]. }
    rewrite Hrun. reflexivity.
  - intros [t Ht] [p Hp] Hch s -> Hs Hiso.
    unfold create_notification. rewrite Ht, Hp.
    unfold bind at 1. unfold ret at 1.
    unfold bind at 1. unfold ret at 1.
    unfold bind at 1.
    assert (Hrun : exists l : list NotificationChannel,
      match requested with
      | Some (c :: cs) => parse_channels lib (c :: cs) []
      | _ => ret [EMAIL]
      end w = (Return l, w)).
    { destruct requested as [[| c cs] |]; try by eexists.
      by apply parse_channels_good. }
    destruct Hrun as (l & Hrun). rewrite Hrun.
    unfold bind at 1.
    apply String.eqb_neq in Hs. rewrite Hs, Hiso. reflexivity.
Qed.


Lemma preference_dict_lookups (p : NotificationPreference) :
  exists fields : gmap string pyval,
    preference_to_dict p = PDict fields
    /\ fields !! "id" = Some (p_id p)
    /\ fields !! "user_id" = Some (p_user_id p)
    /\ fields !! "email_enabled" = Some (email_enabled p)
    /\ fields !! "sms_enabled" = Some (sms_enabled p)
    /\ fields !! "push_enabled" = Some (push_enabled p)
    /\ fields !! "in_app_enabled" = Some (in_app_enabled p).
Proof.
  eexists. split; [reflexivity |].
  repeat split; vm_compute; reflexivity.
Qed.

Lemma nonempty_dict_truthy (fields : gmap string pyval) (key : string) (v : pyval) :
  fields !! key = Some v -> truthy (PDict fields) = true.
Proof.
  intros H. cbn [truthy]. apply negb_true_iff, Nat.eqb_neq.
  intros Hz. apply map_size_empty_inv in Hz. subst. by rewrite lookup_empty in H.
Qed.

(** X14. Preferences read back from the cache keep the identifier, the user
    and the four channel switches they were stored with, and nothing else:
    the category switches are those of a new record, so whatever the stored
    record said, every type but MARKETING is enabled and MARKETING is
    disabled. The lookup changes neither the cache nor the events. *)
Theorem cached_preferences_keep_channel_switches_only
    (user : string) (p : NotificationPreference) (w : World) :
  cache w !! ("preferences:" +:+ user) = Some (preference_to_dict p) ->
  exists (p' : NotificationPreference) (w' : World),
    get_user_preferences lib user w = (Return (Some p'), w')
    /\ cache w' = cache w /\ events w' = events w
    /\ p_id p' = p_id p /\ p_user_id p' = p_user_id p
    /\ email_enabled p' = email_enabled p /\ sms_enabled p' = sms_enabled p
    /\ push_enabled p' = push_enabled p /\ in_app_enabled p' = in_app_enabled p
    /\ (forall t : NotificationType,
          is_type_enabled p' t = negb (bool_decide (t = MARKETING))).
Proof.
  intros Hc.
  destruct (preference_dict_lookups p) as (fields & Hd & H1 & H2 & H3 & H4 & H5 & H6).
  unfold get_user_preferences. unfold bind at 1. unfold cache_get at 1.
  rewrite Hc, Hd. cbn [from_option Datatypes.id].
  rewrite (nonempty_dict_truthy fields "id" _ H1).
  cbn [unwrap_cached]. unfold _dict_to_preferences, new_preference, data_get.
  run_eff. rewrite H1, H2, H3, H4, H5, H6. cbn [from_option Datatypes.id].
  eexists _, _. split; [reflexivity |].
  repeat split. intros t. by destruct t.
Qed.


Lemma dict_to_preferences_outcome (data : pyval) (w w' : World)
    (o : outcome NotificationPreference) :
  _dict_to_preferences data w = (o, w') ->
  match o with
  | Return p => marketing_notifications p = false
  | Raise _ => True
  end.
Proof.
  unfold _dict_to_preferences, new_preference, data_get.
  destruct data; run_eff; intros H; injection H as <- _; done.
Qed.

Lemma get_user_preferences_outcome (user : string) (w w' : World)
    (o : outcome (option NotificationPreference)) :
  get_user_preferences lib user w = (o, w') ->
  match o with
  | Return (Some p) => marketing_notifications p = false
  | Return None => False
  | Raise _ => True
  end.
Proof.
  unfold get_user_preferences. unfold bind at 1. unfold cache_get at 1.
  destruct (truthy (default PNone (cache w !! ("preferences:" +:+ user)))).
  - unfold bind at 1.
    destruct (unwrap_cached lib _ w) as [[data | e] w1] eqn:E.
    + unfold bind at 1.
      destruct (_dict_to_preferences data w1) as [[p | e] w2] eqn:E2.
      * apply dict_to_preferences_outcome in E2.
        unfold ret. intros H. by injection H as <- _.
      * intros H. by injection H as <- _.
    + intros H. by injection H as <- _.
  - unfold _load_user_preferences, new_preference. run_eff.
    intros H. by injection H as <- _.
Qed.

Lemma narrowed_never_webhook (p : NotificationPreference) (t : NotificationType)
    (parsed : list NotificationChannel) :
  Forall (fun c => c <> WEBHOOK) (NotificationSpec.narrowed p t parsed).
Proof.
  unfold NotificationSpec.narrowed.
  assert (Hf : Forall (fun c => c <> WEBHOOK)
                 (List.filter (fun c => truthy (is_channel_enabled p c) && is_type_enabled p t)
                    parsed)).
  { apply Forall_forall. intros c Hin. apply list_elem_of_In in Hin.
    apply filter_In in Hin as [_ Hc]. intros ->. discriminate. }
  destruct (List.filter _ parsed); [| exact Hf].
  constructor; [discriminate | constructor].
Qed.

Lemma narrowed_marketing (p : NotificationPreference) (parsed : list NotificationChannel) :
  marketing_notifications p = false ->
  NotificationSpec.narrowed p MARKETING parsed = [IN_APP].
Proof.
  intros Hm. unfold NotificationSpec.narrowed. cbn [is_type_enabled]. rewrite Hm.
  assert (Hf : List.filter (fun c => truthy (is_channel_enabled p c) && false) parsed = []).
  { induction parsed as [| c rest IH]; [reflexivity |].
    cbn [List.filter]. rewrite andb_false_r. exact IH. }
  by rewrite Hf.
Qed.

Lemma create_notification_returns
    (recipient ty title content : string)
    (requested : option (list string)) (priority : string)
    (scheduled : option string) (metadata : option (gmap string pyval))
    (created_by : string) (w w' : World) (n : Notification) :
  create_notification lib recipient ty title content requested priority scheduled
    metadata created_by w = (Return n, w') ->
  exists (p : NotificationPreference) (parsed : list NotificationChannel),
    type_of_value (str_upper lib ty) = Some (notification_type n)
    /\ marketing_notifications p = false
    /\ channels n = NotificationSpec.narrowed p (notification_type n) parsed
    /\ map d_channel (delivery_attempts n) = channels n
    /\ Forall (fun d => d_status d = "PENDING") (delivery_attempts n).
Proof.
  unfold create_notification. intros H.
  apply bind_returns in H as (t & w1 & Ht & H).
  destruct (type_of_value (str_upper lib ty)) as [t0 |]; [| discriminate].
  injection Ht as -> _.
  apply bind_returns in H as (pr & w2 & _ & H).
  apply bind_returns in H as (parsed & w3 & _ & H).
  apply bind_returns in H as (sch & w4 & _ & H).
  apply bind_returns in H as (prefs & w5 & Hp & H).
  apply get_user_preferences_outcome in Hp.
  destruct prefs as [p |]; [| contradiction].
  rewrite enabled_channels_filter, app_nil_l in H.
  fold (NotificationSpec.narrowed p t parsed) in H.
  set (final := NotificationSpec.narrowed p t parsed) in *.
  apply bind_returns in H as (i & w6 & _ & H).
  apply bind_returns in H as (c1 & w7 & _ & H).
  apply bind_returns in H as (c2 & w8 & _ & H).
  apply bind_returns in H as (n1 & w9 & Hadd & H).
  apply bind_returns in H as (d & w10 & _ & H).
  apply bind_returns in H as (u1 & w11 & _ & H).
  apply bind_returns in H as (stamp & w12 & _ & H).
  apply bind_returns in H as (u2 & w13 & _ & H).
  injection H as -> _.
  match type of Hadd with
  | add_attempts ?n0 final ?w0 = _ =>
      destruct (add_attempts_run final n0 w0) as (n' & wa & ds & Hrun & Hchan & Hds & Hmap & Hall)
  end.
  rewrite Hrun in Hadd. injection Hadd as -> _.
  cbn [channels delivery_attempts notification_type] in Hchan, Hds.
  rewrite app_nil_l in Hds. subst ds.
  apply add_attempts_keeps in Hrun as (Hrun & _ & _). cbn [notification_type] in Hrun.
  exists p, parsed. rewrite Hrun, Hchan.
  split; [reflexivity |]. split; [exact Hp |]. split; [reflexivity |].
  split; [exact Hmap | exact Hall].
Qed.

(** X15. The service as shipped never delivers by webhook, and sends
    marketing in-app only: whenever [create_notification] returns, no
    channel of the notification is WEBHOOK, its attempts are one per channel
    and all PENDING, and a MARKETING notification has IN_APP as its one
    channel, whatever channels were requested and whatever the cache holds
    for the recipient. *)
Theorem shipped_service_never_uses_webhook
    (recipient ty title content : string)
    (requested : option (list string)) (priority : string)
    (scheduled : option string) (metadata : option (gmap string pyval))
    (created_by : string) (w w' : World) (n : Notification) :
  create_notification lib recipient ty title content requested priority scheduled
    metadata created_by w = (Return n, w') ->
  Forall (fun c => c <> WEBHOOK) (channels n)
  /\ map d_channel (delivery_attempts n) = channels n
  /\ Forall (fun d => d_status d = "PENDING") (delivery_attempts n)
  /\ (notification_type n = MARKETING -> channels n = [IN_APP]).
Proof.
  intros H.
  apply create_notification_returns in H as (p & parsed & _ & Hm & Hch & Hmap & Hall).
  split; [rewrite Hch; apply narrowed_never_webhook |].
  split; [exact Hmap |]. split; [exact Hall |].
  intros Ht. rewrite Hch, Ht. by apply narrowed_marketing.
Qed.


Lemma add_attempts_world (cs : list NotificationChannel) :
  forall (n n' : Notification) (w w' : World),
    add_attempts n cs w = (Return n', w') ->
    cache w' = cache w /\ events w' = events w.
Proof.
  induction cs as [| c rest IH]; intros n n' w w' H.
  - by injection H as _ <-.
  - cbn [add_attempts] in H. unfold bind at 1 in H.
    destruct (add_delivery_attempt_run n c w) as (d & Hrun & _).
    rewrite Hrun in H. cbn [fst] in H.
    by apply IH in H.
Qed.

(** X24. A schedule with a time zone makes [create_notification] fail.
    When the type, the priority and the channels name members, the
    recipient has preferences and the schedule reads as an aware datetime,
    as a text that ends in Z does, the call raises TypeError: the
    notification is built, and serializing it for the cache compares the
    naive [utcnow()] with the schedule. No notification is cached and no
    event is published. *)
Theorem create_notification_with_zone_raises
    (recipient ty title content : string)
    (requested : option (list string)) (priority : string)
    (s : string) (metadata : option (gmap string pyval))
    (created_by : string) (w : World)
    (t : NotificationType) (pr : NotificationPriority)
    (parsed : list NotificationChannel) (time : datetime) (offset : Z)
    (p : NotificationPreference) (w1 : World) :
  type_of_value (str_upper lib ty) = Some t ->
  priority_of_value (str_upper lib priority) = Some pr ->
  NotificationSpec.names_channels lib requested parsed ->
  s <> "" -> parse_iso lib s = Some (Aware time offset) ->
  get_user_preferences lib recipient w = (Return (Some p), w1) ->
  exists w' : World,
    create_notification lib recipient ty title content requested priority (Some s)
      metadata created_by w
    = (Raise (TypeError "can't compare offset-naive and offset-aware datetimes"), w')
    /\ cache w' = cache w1 /\ events w' = events w1.
Proof.
  intros Ht Hpr Hch Hs Hiso Hprefs.
  unfold create_notification. rewrite Ht, Hpr.
  unfold bind at 1. unfold ret at 1.
  unfold bind at 1. unfold ret at 1.
  unfold bind at 1.
  assert (Hparse :
    match requested with
    | Some (c :: cs) => parse_channels lib (c :: cs) []
    | _ => ret [EMAIL]
    end w = (Return parsed, w)).
  { unfold NotificationSpec.names_channels in Hch.
    destruct requested as [[| c cs] |]; subst; try reflexivity.
    exact (parse_channels_run (c :: cs) parsed [] lib w Hch). }
  rewrite Hparse. clear Hparse.
  unfold bind at 1.
  apply String.eqb_neq in Hs. rewrite Hs, Hiso. unfold ret at 1.
  unfold bind at 1. rewrite Hprefs.
  rewrite enabled_channels_filter. rewrite app_nil_l.
  fold (NotificationSpec.narrowed p t parsed).
  set (final := NotificationSpec.narrowed p t parsed).
  unfold bind at 1. unfold uuid4 at 1.
  unfold bind at 1. unfold utcnow at 1.
  unfold bind at 1. unfold utcnow at 1.
  unfold bind at 1.
  match goal with
  | |- context [add_attempts ?n0 final ?w0] =>
      destruct (add_attempts_run final n0 w0) as (n' & w2 & ds & Hrun & _);
      destruct (add_attempts_keeps final n0 n' w0 w2 Hrun) as (_ & Hsch & Hexp);
      destruct (add_attempts_world final n0 n' w0 w2 Hrun) as (Hcache & Hevents)
  end.
  rewrite Hrun.
  unfold bind at 1.
  cbn [scheduled_at expires_at] in Hsch, Hexp.
  rewrite (to_dict_aware_schedule n' time offset w2 Hexp Hsch).
  exists (tick w2). split; [reflexivity |]. split; [exact Hcache | exact Hevents].
Qed.

End ServiceFurther.

Section ServiceExamples.
Import Notifications.

Lemma create_notification_rejects_before_any_effect_witness :
  create_notification sample_library "user-123" "quote_created" "Quote" "Your quote"
    (Some ["email"; "fax"; "sms"]) "high" None None "system" (sample_world 0 ∅)
  = (Raise (BadRequest "Invalid channel: fax"), sample_world 0 ∅).
Proof.
  refine (proj1 (proj2 (proj2
            (create_notification_rejects_before_any_effect sample_library "user-123"
               "quote_created" "Quote" "Your quote" (Some ["email"; "fax"; "sms"]) "high"
               None None "system" (sample_world 0 ∅))))
            _ _ ["email"] "fax" ["sms"] eq_refl _ eq_refl).
  - vm_compute. by eexists.
  - vm_compute. by eexists.
  - constructor; [vm_compute; by eexists | constructor].
Defined.

Lemma cached_preferences_keep_channel_switches_only_witness :
  let p := {| p_id := PStr "pref-1"; p_user_id := PStr "user-123";
              email_enabled := PBool false; sms_enabled := PBool true;
              push_enabled := PBool true; in_app_enabled := PBool true;
              quote_notifications := false; booking_notifications := true;
              shipment_notifications := true; payment_notifications := true;
              marketing_notifications := true; system_notifications := true;
              p_created_at := 0; p_updated_at := 0 |} in
  exists (p' : NotificationPreference) (w' : World),
    get_user_preferences sample_library "user-123"
      (sample_world 0 {[ "preferences:user-123" := preference_to_dict p ]})
    = (Return (Some p'), w')
    /\ is_type_enabled p QUOTE_CREATED = false
    /\ is_type_enabled p' QUOTE_CREATED = true
    /\ is_type_enabled p' MARKETING = false.
Proof.
  intros p.
  pose proof (cached_preferences_keep_channel_switches_only sample_library "user-123" p
                (sample_world 0 {[ "preferences:user-123" := preference_to_dict p ]})
                (lookup_singleton_eq (M:=gmap string) "preferences:user-123"
                   (preference_to_dict p)))
    as (p' & w' & Hrun & _ & _ & _ & _ & _ & _ & _ & _ & Hty).
  exists p', w'. split; [exact Hrun |]. split; [reflexivity |].
  split; [exact (Hty QUOTE_CREATED) | exact (Hty MARKETING)].
Defined.

Lemma shipped_service_never_uses_webhook_witness :
  exists (n : Notification) (w' : World),
    create_notification sample_library "user-123" "system_alert" "Maintenance" "Tonight"
      (Some ["webhook"]) "urgent" None None "ops" (sample_world 0 ∅) = (Return n, w')
    /\ Forall (fun c => c <> WEBHOOK) (channels n)
    /\ map d_channel (delivery_attempts n) = channels n.
Proof.
  destruct (create_notification sample_library "user-123" "system_alert" "Maintenance"
              "Tonight" (Some ["webhook"]) "urgent" None None "ops" (sample_world 0 ∅))
    as [[n | e] w'] eqn:E.
  - exists n, w'. split; [reflexivity |].
    pose proof (shipped_service_never_uses_webhook sample_library _ _ _ _ _ _ _ _ _ _ _ _ E)
      as (Hno & Hmap & _).
    by split.
  - exfalso.
    assert (H : match create_notification sample_library "user-123" "system_alert"
                        "Maintenance" "Tonight" (Some ["webhook"]) "urgent" None None "ops"
                        (sample_world 0 ∅) with
                | (Return _, _) => true
                | (Raise _, _) => false
                end = true) by (vm_compute; reflexivity).
    rewrite E in H. discriminate.
Defined.

Lemma create_notification_with_zone_raises_witness :
  exists w' : World,
    create_notification zoned_library "user-123" "reminder" "Pickup" "Pickup tomorrow"
      (Some ["email"]) "high" (Some "2030-01-01T00:00:00Z") None "system"
      (sample_world 0 ∅)
    = (Raise (TypeError "can't compare offset-naive and offset-aware datetimes"), w').
Proof.
  destruct (get_user_preferences zoned_library "user-123" (sample_world 0 ∅))
    as [[[p |] | e] w1] eqn:E.
  - destruct (create_notification_with_zone_raises zoned_library "user-123" "reminder"
                "Pickup" "Pickup tomorrow" (Some ["email"]) "high" "2030-01-01T00:00:00Z"
                None "system" (sample_world 0 ∅) REMINDER HIGH [EMAIL]
                1893456000000000 0 p w1)
      as (w' & Hrun & _).
    + reflexivity.
    + reflexivity.
    + repeat constructor.
    + discriminate.
    + reflexivity.
    + exact E.
    + exists w'. exact Hrun.
  - exfalso.
    assert (H : match get_user_preferences zoned_library "user-123" (sample_world 0 ∅) with
                | (Return (Some _), _) => true
                | _ => false
                end = true) by (vm_compute; reflexivity).
    rewrite E in H. discriminate.
  - exfalso.
    assert (H : match get_user_preferences zoned_library "user-123" (sample_world 0 ∅) with
                | (Return (Some _), _) => true
                | _ => false
                end = true) by (vm_compute; reflexivity).
    rewrite E in H. discriminate.
Defined.

End ServiceExamples.

(* ================================================================== *)
(** * Further properties of shipments and tracking *)
(* ================================================================== *)

Section ShipmentFurther.
Import BookingService.

Lemma sorted_last_is_latest (l : list TrackingEvent) (e : TrackingEvent) :
  Sorted by_time l -> last l = Some e ->
  Forall (fun x => instant (event_time x) <= instant (event_time e)) l.
Proof.
  induction l as [| x rest IH]; intros Hs Hl; [constructor |].
  inversion Hs as [| ? ? Hrest Hhd]; subst.
  destruct rest as [| y rest'].
  - injection Hl as ->. constructor; [lia | constructor].
  - change (last (x :: y :: rest')) with (last (y :: rest')) in Hl.
    specialize (IH Hrest Hl).
    constructor; [| exact IH].
    inversion Hhd as [| ? ? Hxy]; subst. unfold by_time in Hxy.
    inversion IH; subst. lia.
Qed.

Lemma in_time_order_nonempty (l : list TrackingEvent) :
  l <> [] -> in_time_order l <> [].
Proof.
  intros Hne He. pose proof (in_time_order_perm l) as Hp. rewrite He in Hp.
  apply Permutation_nil in Hp. contradiction.
Qed.

(** X17. [get_current_location] is None for a shipment without events; for
    events whose times are all naive or all aware it is the location of an
    event that no event of the shipment is later than, wherever that event
    was appended; and it raises TypeError when naive and aware times mix.
    So an event added with a time before all others changes the status of
    the shipment and leaves its current location as it was. *)
Theorem current_location_is_that_of_a_latest_event (s : Shipment) (w : World) :
  (tracking_events s = [] -> get_current_location s w = (Return None, w))
  /\ (tracking_events s <> [] -> mixed_times (tracking_events s) = false ->
      exists e : TrackingEvent,
        e ∈ tracking_events s
        /\ get_current_location s w = (Return (Some (e_location e)), w)
        /\ Forall (fun x => instant (event_time x) <= instant (event_time e))
             (tracking_events s))
  /\ (mixed_times (tracking_events s) = true ->
      get_current_location s w
      = (Raise (TypeError "can't compare offset-naive and offset-aware datetimes"), w))
  /\ (forall (c : TrackingCall) (t : moment) (w0 : World),
        tracking_events s <> [] -> call_time c = Some t ->
        Forall (fun x => is_aware (event_time x) = is_aware t) (tracking_events s) ->
        Forall (fun x => instant t < instant (event_time x)) (tracking_events s) ->
        exists (s' : Shipment) (e : TrackingEvent) (w' : World),
          add_tracking_event s (call_status c) (call_location c) (call_description c)
            (call_time c) (call_vessel c) (call_voyage c) w0 = (Return (s', e), w')
          /\ status s' = call_status c
          /\ get_current_location s' w = get_current_location s w).
Proof.
  split; [| split; [| split]].
  - intros H. unfold get_current_location. by rewrite H.
  - intros Hne Hm. rewrite (get_current_location_run s w Hm).
    destruct (tracking_events s) as [| x rest] eqn:E; [contradiction |].
    rewrite <- E.
    destruct (last (in_time_order (tracking_events s))) as [e |] eqn:El.
    + exists e. split; [| split; [reflexivity |]].
      * rewrite <- (in_time_order_perm (tracking_events s)).
        by apply last_Some_elem_of.
      * pose proof (sorted_last_is_latest _ e (in_time_order_sorted _) El) as Hall.
        by rewrite (in_time_order_perm (tracking_events s)) in Hall.
    + apply last_None in El. exfalso.
      apply (in_time_order_nonempty (tracking_events s)); [by rewrite E | exact El].
  - intros Hm. unfold get_current_location.
    destruct (tracking_events s) as [| x rest] eqn:E; [discriminate |].
    unfold bind. by rewrite (sorted_by_time_mixed _ w Hm).
  - intros c t w0 Hne Ht Hkind Hall.
    destruct (add_tracking_event_run s c w0) as (e & w' & u & Hrun & Hst & Htime).
    rewrite Ht in Htime. cbn in Htime.
    eexists _, e, w'. split; [exact Hrun |]. split; [reflexivity |].
    assert (Hold : mixed_times (tracking_events s) = false)
      by exact (one_kind_not_mixed _ _ Hkind).
    assert (Hnew : mixed_times (tracking_events s ++ [e]) = false).
    { apply (one_kind_not_mixed (is_aware t)). apply Forall_app. split; [exact Hkind |].
      constructor; [by rewrite Htime | constructor]. }
    rewrite (get_current_location_run s w Hold).
    rewrite get_current_location_run
      by (cbn [tracking_events set_updated_at set_status set_tracking_events]; exact Hnew).
    cbn [tracking_events set_updated_at set_status set_tracking_events].
    rewrite in_time_order_snoc_earliest by (by rewrite Htime).
    destruct (tracking_events s) as [| x rest] eqn:E; [contradiction |].
    cbn [app]. rewrite <- E.
    destruct (in_time_order (tracking_events s)) as [| y ys] eqn:Es.
    + exfalso. apply (in_time_order_nonempty (tracking_events s)); [by rewrite E | exact Es].
    + reflexivity.
Qed.

End ShipmentFurther.

Section TrackingFurther.
Import BookingService.
Import TrackingSpec.
Context (lib : Library) (store : Tracking.Store).


Lemma parsed_time_run (time : option string) (w : World) :
  exists (pt : moment) (w' : World),
    match time with
    | Some t =>
        if String.eqb t "" then let! t := utcnow in ret (Naive t)
        else match parse_iso lib t with
             | Some t0 => ret t0
             | None => let! t := utcnow in ret (Naive t)
             end
    | None => let! t := utcnow in ret (Naive t)
    end w = (Return pt, w')
    /\ is_aware pt = reported_aware lib time
    /\ cache w' = cache w /\ events w' = events w.
Proof.
  unfold reported_aware.
  destruct time as [t |]; [| by eexists _, _].
  destruct (String.eqb t ""); [by eexists _, _ |].
  destruct (parse_iso lib t); by eexists _, _.
Qed.


(** X25. A tracking event reported with a time zone on a shipment whose
    events have naive times, as the event that [confirm_booking] adds has,
    makes [TrackingService.add_tracking_event] fail: the status is valid
    and the event is appended to the loaded shipment, but serializing the
    shipment sorts naive and aware times and raises TypeError. Nothing is
    cached or cleared and nothing is published. The same holds for a naive
    time on a shipment with an aware one. *)
Theorem tracking_event_of_another_kind_raises
    (shipment_id status_name location description : string)
    (time vessel voyage : option string)
    (s : Shipment) (st : ShipmentStatus) (x : TrackingEvent) (w w1 : World) :
  Tracking._load_shipment store shipment_id w = (Return (Some s), w1) ->
  enum_of_value Tracking.all_shipment_statuses shipment_status_value status_name = Some st ->
  BookingSpec.times_serialize s ->
  x ∈ tracking_events s ->
  is_aware (event_time x) <> reported_aware lib time ->
  exists w' : World,
    Tracking.add_tracking_event lib store shipment_id status_name location description
      time vessel voyage w
    = (Raise (TypeError "can't compare offset-naive and offset-aware datetimes"), w')
    /\ cache w' = cache w1 /\ events w' = events w1.
Proof.
  intros Hload Hst Hv Hx Hkind.
  unfold Tracking.add_tracking_event. unfold bind at 1. rewrite Hload.
  destruct (parsed_time_run time w1) as (pt & w2 & Htime & Hpt & Hc2 & He2).
  unfold bind at 1. rewrite Htime. rewrite Hst.
  unfold add_tracking_event. run_eff.
  cbn [fst snd e_estimated_arrival].
  unfold shipment_to_dict.
  match goal with
  | |- context [vessel_details ?s1] =>
      destruct (vessel_to_dict_run s1 (tick (tick (draw w2)))) as (vd & Hvessel)
  end.
  { unfold BookingSpec.times_serialize in *.
    cbn [vessel_details set_updated_at set_status set_tracking_events]. exact Hv. }
  unfold bind at 1. rewrite Hvessel.
  unfold bind at 1.
  assert (Hmixed : forall e : TrackingEvent,
             event_time e = pt -> mixed_times (tracking_events s ++ [e]) = true).
  { intros e He. unfold mixed_times. rewrite !existsb_app. cbn [existsb]. rewrite He.
    assert (Hin : In x (tracking_events s)) by (by apply list_elem_of_In).
    destruct (is_aware (event_time x)) eqn:Ex.
    - assert (Hp : is_aware pt = false) by (rewrite Hpt; by destruct (reported_aware lib time)).
      rewrite Hp. cbn [negb orb]. rewrite !orb_true_r, andb_true_r.
      apply orb_true_iff. left. apply existsb_exists. exists x. by split.
    - assert (Hp : is_aware pt = true) by (rewrite Hpt; by destruct (reported_aware lib time)).
      rewrite Hp. cbn [negb orb]. rewrite !orb_true_r, andb_true_l.
      apply orb_true_iff. left. apply existsb_exists. exists x. split; [exact Hin |].
      by rewrite Ex. }
  unfold get_current_location.
  cbn [tracking_events set_updated_at set_status set_tracking_events].
  match goal with
  | |- context [tracking_events s ++ [?e0]] => pose proof (Hmixed e0 eq_refl) as Hm
  end.
  clear Hmixed.
  destruct (tracking_events s) as [| y rest]; [by apply elem_of_nil in Hx |].
  cbn [app] in Hm |- *.
  unfold bind at 1. rewrite (sorted_by_time_mixed _ _ Hm).
  eexists. split; [reflexivity |].
  cbn [cache events tick draw]. split; assumption.
Qed.

End TrackingFurther.

Section ShipmentExamples.
Import BookingService.

Lemma current_location_is_that_of_a_latest_event_witness :
  exists (s' : Shipment) (e : TrackingEvent) (w' : World),
    add_tracking_event BookingSpec.delivered_shipment IN_TRANSIT (PStr "USNYC")
      "Vessel departed" (Some (Naive 200)) None None (sample_world 600 ∅)
    = (Return (s', e), w')
    /\ status s' = IN_TRANSIT
    /\ get_current_location s' w' = (Return (Some (PStr "CNSHA")), w').
Proof.
  destruct (proj2 (proj2 (proj2 (current_location_is_that_of_a_latest_event
                                   BookingSpec.delivered_shipment (sample_world 600 ∅))))
              BookingSpec.late_departure (Naive 200) (sample_world 600 ∅))
    as (s' & e & w' & Hrun & Hst & Hloc).
  - discriminate.
  - reflexivity.
  - repeat constructor.
  - repeat constructor.
  - exists s', e, w'. split; [exact Hrun |]. split; [exact Hst |].
    assert (Hm : mixed_times (tracking_events s') = false).
    { vm_compute in Hrun. injection Hrun as <- _ _. reflexivity. }
    assert (Hsame : forall w0, get_current_location s' w0
                               = (Return (Some (PStr "CNSHA")), w0)).
    { intros w0. rewrite (get_current_location_run s' w0 Hm).
      rewrite (get_current_location_run s' _ Hm) in Hloc.
      injection Hloc as Hloc. rewrite Hloc. reflexivity. }
    apply Hsame.
Defined.


Lemma tracking_event_of_another_kind_raises_witness :
  let store := {| Tracking._load_shipment := fun _ => ret (Some BookingSpec.delivered_shipment);
                  Tracking._load_shipment_by_tracking := fun _ => ret None |} in
  exists w' : World,
    Tracking.add_tracking_event zoned_library store "s-1" "IN_TRANSIT" "USNYC"
      "Vessel departed" (Some "2030-01-01T00:00:00Z") None None (sample_world 600 ∅)
    = (Raise (TypeError "can't compare offset-naive and offset-aware datetimes"), w')
    /\ events w' = [].
Proof.
  intros store.
  destruct (tracking_event_of_another_kind_raises zoned_library store
              "s-1" "IN_TRANSIT" "USNYC" "Vessel departed" (Some "2030-01-01T00:00:00Z")
              None None BookingSpec.delivered_shipment IN_TRANSIT
              {| e_id := "e-1"; e_shipment_id := "s-1"; e_status := BOOKED;
                 e_location := PStr "USNYC";
                 e_description := "Shipment booked and confirmed";
                 event_time := Naive 300; e_vessel_name := None; e_voyage_number := None;
                 e_estimated_arrival := None; e_created_at := 300 |}
              (sample_world 600 ∅) (sample_world 600 ∅) eq_refl eq_refl I)
    as (w' & Hrun & _ & Hev).
  - left.
  - discriminate.
  - exists w'. split; [exact Hrun | exact Hev].
Defined.

End ShipmentExamples.

(* ================================================================== *)
(** * Further properties of the booking engine *)
(* ================================================================== *)

Section BookingFurther.
Import BookingService.
Import AllocationSpec.
Context (lib : Library).

Lemma booking_dict_lookups (b : Booking) :
  exists fields : gmap string pyval,
    booking_to_dict b = PDict fields
    /\ fields !! "id" = Some (b_id b)
    /\ fields !! "quote_id" = Some (quote_id b)
    /\ fields !! "customer_id" = Some (customer_id b)
    /\ fields !! "booking_number" = Some (booking_number b)
    /\ fields !! "status" = Some (PStr (booking_status_value (b_status b))).
Proof.
  eexists. split; [reflexivity |].
  repeat split; vm_compute; reflexivity.
Qed.

Lemma booking_status_round (s : BookingStatus) (w : World) :
  booking_status_of (PStr (booking_status_value s)) w = (Return s, w).
Proof. by destruct s. Qed.

Lemma dict_to_booking_run (b : Booking) (w : World) :
  exists (b' : Booking) (w' : World),
    _dict_to_booking lib (booking_to_dict b) w = (Return b', w')
    /\ cache w' = cache w /\ events w' = events w
    /\ b_id b' = b_id b /\ quote_id b' = quote_id b /\ customer_id b' = customer_id b
    /\ booking_number b' = booking_number b /\ b_status b' = b_status b
    /\ created_by b' = "" /\ special_instructions b' = None /\ confirmed_at b' = None.
Proof.
  destruct (booking_dict_lookups b) as (fields & Hd & H1 & H2 & H3 & H4 & H5).
  rewrite Hd. unfold _dict_to_booking, new_booking, data_get. run_eff.
  rewrite H1, H2, H3, H4, H5. cbn [from_option Datatypes.id].
  rewrite booking_status_round.
  eexists _, _. split; [reflexivity |]. repeat split.
Qed.

Lemma get_booking_cached (backend : Backend) (booking_id user_id : string)
    (b : Booking) (w : World) :
  cache w !! ("booking:" +:+ booking_id) = Some (booking_to_dict b) ->
  exists (b' : Booking) (w' : World),
    get_booking lib backend booking_id user_id w
    = (Return (if String.eqb "" user_id || _is_admin backend user_id
               then Some b' else None), w')
    /\ cache w' = cache w /\ events w' = events w
    /\ b_id b' = b_id b /\ quote_id b' = quote_id b /\ customer_id b' = customer_id b
    /\ booking_number b' = booking_number b /\ b_status b' = b_status b
    /\ created_by b' = "" /\ special_instructions b' = None /\ confirmed_at b' = None.
Proof.
  intros Hc.
  destruct (dict_to_booking_run b w)
    as (b' & w' & Hrun & Hcache & Hev & H1 & H2 & H3 & H4 & H5 & H6 & H7 & H8).
  destruct (booking_dict_lookups b) as (fields & Hd & Hid & _).
  unfold get_booking. unfold bind at 1. unfold cache_get at 1.
  rewrite Hc. cbn [from_option Datatypes.id].
  assert (Ht : truthy (booking_to_dict b) = true).
  { rewrite Hd. exact (nonempty_dict_truthy fields "id" _ Hid). }
  assert (Hu : unwrap_cached lib (booking_to_dict b) = ret (booking_to_dict b)).
  { by rewrite Hd. }
  rewrite Ht, Hu.
  unfold bind at 1. unfold ret at 1.
  unfold bind at 1. rewrite Hrun.
  unfold _can_access_booking. rewrite H6.
  exists b', w'.
  destruct (String.eqb "" user_id || _is_admin backend user_id);
    (split; [reflexivity |]); repeat split; assumption.
Qed.

Lemma create_booking_run (quote customer : string) (instructions : option string)
    (w : World) :
  exists (b : Booking) (i : string) (w1 : World),
    create_booking lib quote customer instructions w = (Return b, w1)
    /\ b_id b = PStr i /\ quote_id b = PStr quote /\ customer_id b = PStr customer
    /\ created_by b = customer /\ b_status b = PENDING
    /\ special_instructions b = instructions
    /\ cache w1 = <["booking:" +:+ i := booking_to_dict b]> (cache w)
    /\ exists payload : pyval, events w1 = events w ++ [("booking.created", payload)].
Proof.
  unfold create_booking, _get_quote, _get_customer.
  unfold bind at 1. unfold ret at 1.
  set (q := list_to_map _).
  assert (Hq : Nat.eqb (size q) 0 = false /\ q !! "status" = Some (PStr "ACCEPTED")).
  { subst q. split; vm_compute; reflexivity. }
  destruct Hq as [Hsize Hstatus]. rewrite Hsize, Hstatus.
  cbn [from_option Datatypes.id equals_str String.eqb Ascii.eqb Bool.eqb negb].
  run_eff.
  eexists _, _, _. split; [reflexivity |]. repeat split.
  by eexists.
Qed.

(** X19. A booking read back from the cache has lost its creator.
    [create_booking] caches the booking it returns, with [created_by] set
    to the customer; [get_booking] rebuilds a cached booking from its id,
    quote, customer, number and status only, so [created_by] is empty and
    the special instructions are gone. Hence an administrator gets the
    booking, and any other user with a non-empty id gets None, the customer
    who created the booking included. *)
Theorem cached_booking_forgets_its_creator
    (backend : Backend) (quote customer : string) (instructions : option string)
    (user_id : string) (w : World) :
  exists (b : Booking) (i : string) (w1 : World),
    create_booking lib quote customer instructions w = (Return b, w1)
    /\ b_id b = PStr i /\ created_by b = customer /\ b_status b = PENDING
    /\ special_instructions b = instructions
    /\ cache w1 !! ("booking:" +:+ i) = Some (booking_to_dict b)
    /\ (_is_admin backend user_id = true ->
        exists (b' : Booking) (w2 : World),
          get_booking lib backend i user_id w1 = (Return (Some b'), w2)
          /\ b_id b' = b_id b /\ quote_id b' = PStr quote
          /\ customer_id b' = PStr customer /\ booking_number b' = booking_number b
          /\ b_status b' = PENDING
          /\ created_by b' = "" /\ special_instructions b' = None)
    /\ (_is_admin backend user_id = false -> user_id <> "" ->
        exists w2 : World, get_booking lib backend i user_id w1 = (Return None, w2)).
Proof.
  destruct (create_booking_run quote customer instructions w)
    as (b & i & w1 & Hrun & Hid & Hq & Hcu & Hby & Hst & Hin & Hcache & _).
  exists b, i, w1. split; [exact Hrun |].
  split; [exact Hid |]. split; [exact Hby |]. split; [exact Hst |]. split; [exact Hin |].
  assert (Hc : cache w1 !! ("booking:" +:+ i) = Some (booking_to_dict b)).
  { rewrite Hcache. apply lookup_insert_eq. }
  split; [exact Hc |].
  destruct (get_booking_cached backend i user_id b w1 Hc)
    as (b' & w2 & Hget & _ & _ & H1 & H2 & H3 & H4 & H5 & H6 & H7 & _).
  split.
  - intros Hadmin. rewrite Hadmin, orb_true_r in Hget.
    exists b', w2. split; [exact Hget |].
    rewrite H2, H3, H5, Hq, Hcu, Hst. repeat split; assumption.
  - intros Hadmin Huser. rewrite Hadmin, orb_false_r in Hget.
    assert (He : String.eqb "" user_id = false).
    { apply String.eqb_neq. congruence. }
    rewrite He in Hget. by exists w2.
Qed.


Lemma get_quote_run (quote : pyval) (w : World) :
  exists q : gmap string pyval,
    _get_quote quote w = (Return (Some q), w)
    /\ q !! "origin_port" = Some (PStr "USNYC")
    /\ q !! "destination_port" = Some (PStr "CNSHA").
Proof.
  unfold _get_quote. eexists. split; [reflexivity |].
  split; vm_compute; reflexivity.
Qed.

Lemma confirmed_is_not_pending (backend : Backend) (bid user_id : string)
    (vessel : option (gmap string pyval))
    (container_details : option (list (gmap string pyval)))
    (b : Booking) (w : World) :
  cache w !! ("booking:" +:+ bid) = Some (booking_to_dict b) ->
  b_status b <> PENDING ->
  _is_admin backend user_id = true ->
  exists w' : World,
    confirm_booking lib backend bid user_id vessel container_details w
    = (Raise (Conflict "Booking is not in pending status"), w')
    /\ cache w' = cache w /\ events w' = events w.
Proof.
  intros Hc Hst Hadmin.
  destruct (get_booking_cached backend bid user_id b w Hc)
    as (b' & w' & Hget & Hcache & Hev & _ & _ & _ & _ & Hs & _).
  rewrite Hadmin, orb_true_r in Hget.
  unfold confirm_booking. unfold bind at 1. rewrite Hget.
  rewrite Hs. rewrite bool_decide_eq_false_2 by exact Hst.
  exists w'. split; [reflexivity |]. by split.
Qed.

Lemma confirm_booking_run
    (backend : Backend) (bid user_id : string) (b : Booking) (w : World) :
  cache w !! ("booking:" +:+ bid) = Some (booking_to_dict b) ->
  b_status b = PENDING ->
  _is_admin backend user_id = true ->
  exists (s : Shipment) (fields : gmap string pyval) (b2 : Booking) (w1 : World),
    confirm_booking lib backend bid user_id None None w = (Return s, w1)
    /\ status s = BOOKED /\ booking_id s = bid /\ container_ids s = []
    /\ map e_status (tracking_events s) = [BOOKED]
    /\ map e_location (tracking_events s) = [PStr "USNYC"]
    /\ shipment_to_dict s w1 = (Return (PDict fields), w1)
    /\ fields !! "booking_id" = Some (PStr bid)
    /\ fields !! "container_ids" = Some (PList [])
    /\ cache w1 !! ("shipment:" +:+ s_id s) = Some (PDict fields)
    /\ cache w1 !! ("tracking:" +:+ tracking_number s) = Some (PDict fields)
    /\ cache w1 !! ("booking:" +:+ bid) = Some (booking_to_dict b2)
    /\ b_status b2 = CONFIRMED
    /\ map fst (events w1) = map fst (events w) ++ ["booking.confirmed"; "shipment.created"].
Proof.
  intros Hc Hst Hadmin.
  destruct (get_booking_cached backend bid user_id b w Hc)
    as (b' & w' & Hget & Hcache & Hev & _ & _ & _ & _ & Hs & _).
  rewrite Hadmin, orb_true_r in Hget.
  unfold confirm_booking at 1. unfold bind at 1. rewrite Hget.
  rewrite Hs, Hst. rewrite bool_decide_eq_true_2 by reflexivity. cbn [negb].
  destruct (get_quote_run (quote_id b') w') as (q & Hq & Ho & Hd).
  unfold bind at 1. rewrite Hq.
  unfold add_tracking_event, shipment_to_dict. run_eff.
  rewrite Ho. cbn [from_option Datatypes.id].
  cbn [fst vessel_details set_updated_at set_status set_tracking_events]. run_eff.
  cbn [fst s_id tracking_number set_updated_at set_status set_tracking_events].
  eexists _, _, _, _. split; [reflexivity |].
  cbn [status booking_id container_ids tracking_events s_id tracking_number
       set_updated_at set_status set_tracking_events app map e_status e_location
       cache events with_cache with_events tick draw].
  split; [reflexivity |]. split; [reflexivity |]. split; [reflexivity |].
  split; [reflexivity |]. split; [reflexivity |].
  split; [reflexivity |].
  split; [reflexivity |]. split; [reflexivity |].
  split.
  { rewrite lookup_insert_ne by discriminate. apply lookup_insert_eq. }
  split; [apply lookup_insert_eq |].
  split.
  { rewrite !lookup_insert_ne by discriminate. apply lookup_insert_eq. }
  split; [reflexivity |].
  rewrite Hev, !map_app. cbn [map fst]. rewrite <- app_assoc. reflexivity.
Qed.


(** X26. After [confirm_booking] the public lookup by tracking number
    serves the cached shipment as it is: [track_shipment] finds the
    dictionary that [confirm_booking] stored under the tracking number and
    returns it whole, with the booking id and the container ids, without
    asking the datastore and without building the shorter public record. *)
Theorem public_tracking_serves_the_cached_shipment
    (backend : Backend) (store : Tracking.Store) (bid user_id : string)
    (b : Booking) (w : World) :
  cache w !! ("booking:" +:+ bid) = Some (booking_to_dict b) ->
  b_status b = PENDING ->
  _is_admin backend user_id = true ->
  exists (s : Shipment) (fields : gmap string pyval) (w1 : World),
    confirm_booking lib backend bid user_id None None w = (Return s, w1)
    /\ Tracking.track_shipment lib store (tracking_number s) w1
       = (Return (Some (PDict fields)), w1)
    /\ shipment_to_dict s w1 = (Return (PDict fields), w1)
    /\ fields !! "booking_id" = Some (PStr bid)
    /\ fields !! "container_ids" = Some (PList []).
Proof.
  intros Hc Hst Hadmin.
  destruct (confirm_booking_run backend bid user_id b w Hc Hst Hadmin)
    as (s & fields & b2 & w1 & Hrun & _ & _ & _ & _ & _ & Hdict & Hbid & Hids & _ & Hct & _).
  exists s, fields, w1.
  split; [exact Hrun |]. split; [| by repeat split].
  unfold Tracking.track_shipment. unfold bind at 1, cache_get at 1.
  rewrite Hct. cbn [from_option Datatypes.id].
  rewrite (nonempty_dict_truthy fields "booking_id" _ Hbid).
  reflexivity.
Qed.

(** X21. Confirming with an arrival or departure time of the vessel always
    fails, and half-way. For a cached PENDING booking, an administrator and
    vessel details that name the vessel and the voyage and give a non-empty
    [eta] or [etd], [confirm_booking] raises AttributeError, which the route
    answers with 500: the times are kept as they came and have no
    [isoformat] when the shipment is serialized. By then the booking is
    cached as CONFIRMED; no shipment is cached and no event is published,
    and a second attempt raises Conflict. *)
Theorem confirm_booking_with_vessel_times_fails_half_way
    (backend : Backend) (bid user_id : string) (b : Booking)
    (d : gmap string pyval) (name voyage : pyval) (w : World) :
  cache w !! ("booking:" +:+ bid) = Some (booking_to_dict b) ->
  b_status b = PENDING ->
  _is_admin backend user_id = true ->
  dom d ⊆ ({[ "vessel_name"; "voyage_number"; "imo_number"; "eta"; "etd" ]} : gset string) ->
  d !! "vessel_name" = Some name -> d !! "voyage_number" = Some voyage ->
  truthy (default PNone (d !! "eta")) = true \/ truthy (default PNone (d !! "etd")) = true ->
  exists (w1 : World) (b2 : Booking),
    confirm_booking lib backend bid user_id (Some d) None w
    = (Raise (AttributeError "object has no attribute 'isoformat'"), w1)
    /\ confirm_booking_except (AttributeError "object has no attribute 'isoformat'") = 500
    /\ cache w1 = <["booking:" +:+ bid := booking_to_dict b2]> (cache w)
    /\ b_status b2 = CONFIRMED
    /\ events w1 = events w
    /\ exists w2 : World,
         confirm_booking lib backend bid user_id (Some d) None w1
         = (Raise (Conflict "Booking is not in pending status"), w2).
Proof.
  intros Hc Hst Hadmin Hdom Hname Hvoyage Htimes.
  destruct (get_booking_cached backend bid user_id b w Hc)
    as (b' & w' & Hget & Hcache & Hev & _ & _ & _ & _ & Hs & _).
  rewrite Hadmin, orb_true_r in Hget.
  unfold confirm_booking at 1. unfold bind at 1. rewrite Hget.
  rewrite Hs, Hst. rewrite bool_decide_eq_true_2 by reflexivity. cbn [negb].
  destruct (get_quote_run (quote_id b') w') as (q & Hq & Ho & Hd).
  unfold bind at 1. rewrite Hq.
  assert (Hsize : Nat.eqb (size d) 0 = false).
  { apply Nat.eqb_neq. intros Hz. apply map_size_empty_inv in Hz. subst.
    by rewrite lookup_empty in Hname. }
  rewrite Hsize.
  unfold vessel_of_dict. rewrite bool_decide_eq_true_2 by exact Hdom.
  rewrite Hname, Hvoyage. cbn [negb].
  unfold add_tracking_event, shipment_to_dict, vessel_to_dict, iso_or_none. run_eff.
  cbn [fst vessel_details set_updated_at set_status set_tracking_events eta etd].
  destruct (truthy (default PNone (d !! "eta"))) eqn:Ea.
  - run_eff. eexists _, _. split; [reflexivity |]. split; [reflexivity |].
    cbn [cache events with_cache with_events tick draw].
    split; [by rewrite Hcache |]. split; [reflexivity |]. split; [exact Hev |].
    match goal with
    | |- exists w2 : World, confirm_booking _ _ _ _ _ _ ?w1 = _ =>
        match goal with
        | |- context [booking_to_dict (set_confirmed ?t ?t' ?bb)] =>
            edestruct (confirmed_is_not_pending backend bid user_id (Some d) None
                         (set_confirmed t t' bb) w1) as (w2 & H2 & _)
        end
    end.
    + cbn [cache with_cache with_events tick draw]. apply lookup_insert_eq.
    + discriminate.
    + exact Hadmin.
    + exists w2. exact H2.
  - destruct Htimes as [Ht | Ht]; [discriminate |].
    rewrite Ht. run_eff. eexists _, _. split; [reflexivity |]. split; [reflexivity |].
    cbn [cache events with_cache with_events tick draw].
    split; [by rewrite Hcache |]. split; [reflexivity |]. split; [exact Hev |].
    match goal with
    | |- exists w2 : World, confirm_booking _ _ _ _ _ _ ?w1 = _ =>
        match goal with
        | |- context [booking_to_dict (set_confirmed ?t ?t' ?bb)] =>
            edestruct (confirmed_is_not_pending backend bid user_id (Some d) None
                         (set_confirmed t t' bb) w1) as (w2 & H2 & _)
        end
    end.
    + cbn [cache with_cache with_events tick draw]. apply lookup_insert_eq.
    + discriminate.
    + exact Hadmin.
    + exists w2. exact H2.
Qed.


Lemma allocate_each_ids (containers : list Container) :
  forall (allocated : list string) (w : World),
  exists w' : World,
    allocate_each containers allocated w = (Return (allocated ++ map k_id containers), w').
Proof.
  induction containers as [| c rest IH]; intros allocated w.
  - exists w. cbn [allocate_each map]. by rewrite app_nil_r.
  - cbn [allocate_each map]. unfold bind at 1, utcnow at 1.
    destruct (IH (allocated ++ [k_id c]) (tick w)) as (w' & Hrun).
    exists w'. rewrite Hrun. by rewrite <- app_assoc.
Qed.

Lemma slice_to_length (l : list Container) (z : Z) :
  length l = Z.to_nat z -> length (slice_to l z) = Z.to_nat z.
Proof.
  intros Hl. unfold slice_to. destruct (z <? 0) eqn:E.
  - apply Z.ltb_lt in E. rewrite length_firstn. lia.
  - apply Z.ltb_ge in E. rewrite length_firstn. lia.
Qed.

Lemma container_type_round (t : ContainerType) (w : World) :
  container_type_of (PStr (container_type_value t)) w = (Return t, w).
Proof. by destruct t. Qed.

Lemma container_type_of_outcome (v : pyval) (w w' : World) (e : exn) :
  container_type_of v w = (Raise e, w') -> exists msg : string, e = ValueError msg.
Proof.
  unfold container_type_of. intros H.
  repeat case_match; inversion H; subst; by eexists.
Qed.

(** X22. [_allocate_containers] hands out one container id per container
    asked for: when every requirement names a container type by its value
    and has an int quantity, it returns the ids allocated before followed by
    as many new ids as the quantities add up to, a negative quantity
    counting for none. And it never raises the BadRequest of a shortage,
    whatever the requirements: the stand-in inventory makes up as many
    containers as are asked for. *)
Theorem allocate_containers_one_id_per_container
    (requirements : list (gmap string pyval)) (allocated : list string) (w : World) :
  (Forall (fun r => names_a_type r /\ BookingSpec.quantity_is_int r) requirements ->
   exists (ids : list string) (w' : World),
     _allocate_containers lib requirements allocated w = (Return (allocated ++ ids), w')
     /\ length ids = sum_list (map containers_asked requirements))
  /\ (forall (e : exn) (w' : World),
        _allocate_containers lib requirements allocated w = (Raise e, w') ->
        forall msg : string, e <> BadRequest msg).
Proof.
  split.
  - revert allocated w.
    induction requirements as [| r rest IH]; intros allocated w Hall.
    + exists [], w. cbn [_allocate_containers]. by rewrite app_nil_r.
    + inversion Hall as [| ? ? [[t Ht] [z Hz]] Hrest]; subst.
      cbn [_allocate_containers]. rewrite Ht. cbn [from_option Datatypes.id].
      unfold bind at 1. rewrite container_type_round.
      unfold bind at 1, _find_available_containers. rewrite Hz.
      destruct (new_containers_run lib t (Z.to_nat z) [] w) as (l & w1 & Hnew & Hlen).
      rewrite Hnew. cbn [length Nat.add] in Hlen.
      destruct (Z.of_nat (length l) <? z) eqn:Elt.
      { apply Z.ltb_lt in Elt. lia. }
      unfold bind at 1.
      destruct (allocate_each_ids (slice_to l z) allocated w1) as (w2 & Heach).
      rewrite Heach.
      destruct (IH (allocated ++ map k_id (slice_to l z)) w2 Hrest) as (ids & w3 & Hrun & Hn).
      exists (map k_id (slice_to l z) ++ ids), w3.
      rewrite Hrun, <- app_assoc. split; [reflexivity |].
      rewrite length_app, length_map, (slice_to_length l z Hlen), Hn.
      cbn [map sum_list sum_list_with]. unfold containers_asked at 2. by rewrite Hz.
  - revert allocated w.
    induction requirements as [| r rest IH]; intros allocated w e w' H msg.
    + discriminate.
    + cbn [_allocate_containers] in H. unfold bind at 1 in H.
      destruct (container_type_of (default (PStr "DRY_20") (r !! "type")) w)
        as [[t | e0] w0] eqn:Ety.
      * unfold bind at 1, _find_available_containers in H.
        destruct (as_int (default (PInt 1) (r !! "quantity"))) as [z |] eqn:Ez.
        -- destruct (new_containers_run lib t (Z.to_nat z) [] w0) as (l & w1 & Hnew & Hlen).
           rewrite Hnew in H. cbn [length Nat.add] in Hlen.
           destruct (Z.of_nat (length l) <? z) eqn:Elt.
           { apply Z.ltb_lt in Elt. lia. }
           unfold bind at 1 in H.
           destruct (allocate_each_ids (slice_to l z) allocated w1) as (w2 & Heach).
           rewrite Heach in H. by eapply IH.
        -- injection H as <- _. discriminate.
      * injection H as <- _.
        apply container_type_of_outcome in Ety as [m ->]. discriminate.
Qed.


Lemma bookings_of_run (bs : list Booking) :
  forall (acc : list Booking) (w : World),
  exists (bs' : list Booking) (w' : World),
    bookings_of lib (map booking_to_dict bs) acc w = (Return (acc ++ bs'), w')
    /\ map b_id bs' = map b_id bs /\ map b_status bs' = map b_status bs
    /\ Forall (fun b => created_by b = "") bs'.
Proof.
  induction bs as [| b rest IH]; intros acc w.
  - exists [], w. cbn [map bookings_of]. rewrite app_nil_r. repeat split. constructor.
  - cbn [map bookings_of]. unfold bind at 1.
    destruct (dict_to_booking_run b w)
      as (b' & w1 & Hrun & _ & _ & Hid & _ & _ & _ & Hst & Hby & _).
    rewrite Hrun.
    destruct (IH (acc ++ [b']) w1) as (bs' & w' & Hrest & Hids & Hsts & Hbys).
    exists (b' :: bs'), w'. rewrite Hrest, <- app_assoc. split; [reflexivity |].
    cbn [map]. rewrite Hid, Hst, Hids, Hsts. repeat split. by constructor.
Qed.

(** X23. [get_bookings] asks the datastore only for bookings created by the
    caller, whatever the other filters. When the datastore answers such a
    query with the dictionaries of some bookings and a total, the listing
    has those bookings in order, rebuilt without their creator, the total,
    and as page count the total divided by the page size and rounded up. A
    page size of 0 raises ZeroDivisionError. *)
Theorem get_bookings_counts_pages
    (store : Store) (user_id : string) (customer status : option string)
    (page_no page_size : Z) (bs : list Booking) (n : Z) (w w1 : World) :
  (forall f : gmap string pyval,
      f !! "created_by" = Some (PStr user_id) ->
      _query_bookings store f page_no page_size w = (Return (map booking_to_dict bs, n), w1)) ->
  (page_size = 0 ->
   exists w' : World,
     get_bookings lib store user_id customer status page_no page_size w
     = (Raise (ZeroDivisionError "integer division or modulo by zero"), w'))
  /\ (page_size <> 0 ->
      exists (p : Page Booking) (w' : World),
        get_bookings lib store user_id customer status page_no page_size w = (Return p, w')
        /\ page p = page_no /\ per_page p = page_size /\ total p = n
        /\ map b_id (items p) = map b_id bs
        /\ map b_status (items p) = map b_status bs
        /\ Forall (fun b => created_by b = "") (items p)
        /\ (0 < page_size -> 0 <= n ->
            (pages p - 1) * page_size < n <= pages p * page_size)).
Proof.
  intros Hstore.
  assert (Hprefix : exists (bs' : list Booking) (w2 : World),
    get_bookings lib store user_id customer status page_no page_size w
    = (let! count := floordiv (n + page_size - 1) page_size in
       ret {| items := bs'; page := page_no; per_page := page_size;
              total := n; pages := count |}) w2
    /\ map b_id bs' = map b_id bs /\ map b_status bs' = map b_status bs
    /\ Forall (fun b => created_by b = "") bs').
  { unfold get_bookings.
    match goal with
    | |- context [_query_bookings store ?f page_no page_size] => set (filters := f)
    end.
    assert (Hf : filters !! "created_by" = Some (PStr user_id)).
    { subst filters.
      destruct customer as [c |], status as [s |];
        try destruct (String.eqb c ""); try destruct (String.eqb s "");
        rewrite ?lookup_insert_ne by discriminate; apply lookup_singleton_eq. }
    unfold bind at 1. rewrite (Hstore filters Hf). cbn [fst snd].
    destruct (bookings_of_run bs [] w1) as (bs' & w2 & Hrun & Hids & Hsts & Hbys).
    unfold bind at 1. rewrite Hrun. cbn [app].
    exists bs', w2. split; [reflexivity |]. split; [exact Hids |].
    split; [exact Hsts | exact Hbys]. }
  destruct Hprefix as (bs' & w2 & Hrun & Hids & Hsts & Hbys).
  rewrite Hrun. unfold bind, floordiv.
  split.
  - intros ->. cbn [Z.eqb]. by eexists.
  - intros Hps. pose proof Hps as Hps'. apply Z.eqb_neq in Hps'. rewrite Hps'. unfold ret.
    eexists _, _. split; [reflexivity |]. cbn [page per_page total items pages].
    split; [reflexivity |]. split; [reflexivity |]. split; [reflexivity |].
    split; [exact Hids |]. split; [exact Hsts |]. split; [exact Hbys |].
    intros Hpos Hn.
    pose proof (Z.mul_div_le (n + page_size - 1) page_size ltac:(lia)).
    pose proof (Z.mul_succ_div_gt (n + page_size - 1) page_size ltac:(lia)).
    nia.
Qed.

End BookingFurther.

Section BookingExamples.
Import BookingService.

Lemma cached_booking_forgets_its_creator_witness :
  let nobody_admin := {| _is_admin := fun _ => false; _load_booking := fun _ => ret None |} in
  exists (b : Booking) (i : string) (w1 w2 : World),
    create_booking sample_library "q-1" "alice" None (sample_world 0 ∅) = (Return b, w1)
    /\ b_id b = PStr i /\ created_by b = "alice"
    /\ get_booking sample_library nobody_admin i "alice" w1 = (Return None, w2).
Proof.
  intros nobody_admin.
  destruct (cached_booking_forgets_its_creator sample_library nobody_admin "q-1" "alice"
              None "alice" (sample_world 0 ∅))
    as (b & i & w1 & Hrun & Hid & Hby & _ & _ & _ & _ & Hrefused).
  destruct (Hrefused eq_refl ltac:(discriminate)) as (w2 & Hget).
  exists b, i, w1, w2.
  split; [exact Hrun |]. split; [exact Hid |]. split; [exact Hby | exact Hget].
Defined.


Lemma confirm_booking_with_vessel_times_fails_half_way_witness :
  let vessel : gmap string pyval :=
    list_to_map [ ("vessel_name", PStr "Ever Given"); ("voyage_number", PStr "V-12");
                  ("eta", PStr "2024-02-01T00:00:00") ] in
  exists (w1 w2 : World),
    confirm_booking sample_library shipped "b-1" "ops" (Some vessel) None
      (sample_world 0 BookingSpec.alice_cache)
    = (Raise (AttributeError "object has no attribute 'isoformat'"), w1)
    /\ events w1 = []
    /\ confirm_booking sample_library shipped "b-1" "ops" (Some vessel) None w1
       = (Raise (Conflict "Booking is not in pending status"), w2).
Proof.
  intros vessel.
  assert (Hc : cache (sample_world 0 BookingSpec.alice_cache) !! ("booking:" +:+ "b-1")
               = Some (booking_to_dict BookingSpec.alice_booking)).
  { rewrite alice_fields_cached.
    exact (lookup_singleton_eq (M:=gmap string) "booking:b-1" (PDict BookingSpec.alice_fields)). }
  assert (Hdom : dom vessel
                 ⊆ ({[ "vessel_name"; "voyage_number"; "imo_number"; "eta"; "etd" ]}
                    : gset string)).
  { apply (bool_decide_unpack _). vm_compute. exact I. }
  destruct (confirm_booking_with_vessel_times_fails_half_way sample_library shipped
              "b-1" "ops" BookingSpec.alice_booking vessel (PStr "Ever Given") (PStr "V-12")
              (sample_world 0 BookingSpec.alice_cache)
              Hc eq_refl eq_refl Hdom eq_refl eq_refl (or_introl eq_refl))
    as (w1 & b2 & Hrun & _ & _ & _ & Hev & w2 & Hagain).
  exists w1, w2.
  split; [exact Hrun |]. split; [exact Hev | exact Hagain].
Defined.

Lemma allocate_containers_one_id_per_container_witness :
  let requirements : list (gmap string pyval) :=
    [ list_to_map [ ("type", PStr "40FT_DRY"); ("quantity", PInt 2) ];
      list_to_map [ ("type", PStr "20FT_REEFER") ];
      list_to_map [ ("type", PStr "20FT_DRY"); ("quantity", PInt (-3)) ] ] in
  exists (ids : list string) (w' : World),
    _allocate_containers sample_library requirements [] (sample_world 0 ∅)
    = (Return ids, w')
    /\ length ids = 3%nat.
Proof.
  intros requirements.
  destruct (proj1 (allocate_containers_one_id_per_container sample_library requirements
                     [] (sample_world 0 ∅)))
    as (ids & w' & Hrun & Hlen).
  - repeat constructor.
    + by exists DRY_40.
    + by exists (2 : Z).
    + by exists REEFER_20.
    + by exists (1 : Z).
    + by exists DRY_20.
    + by exists (-3 : Z).
  - exists ids, w'. split; [exact Hrun | exact Hlen].
Defined.

Lemma get_bookings_counts_pages_witness :
  let store := {| _query_bookings :=
                    fun _ _ _ => ret (map booking_to_dict [BookingSpec.alice_booking], 41) |} in
  exists (p : Page Booking) (w' : World),
    get_bookings sample_library store "alice" None (Some "PENDING") 1 20 (sample_world 0 ∅)
    = (Return p, w')
    /\ total p = 41
    /\ (pages p - 1) * 20 < 41 <= pages p * 20.
Proof.
  intros store.
  destruct (proj2 (get_bookings_counts_pages sample_library store "alice" None
                     (Some "PENDING") 1 20 [BookingSpec.alice_booking] 41
                     (sample_world 0 ∅) (sample_world 0 ∅) (fun _ _ => eq_refl))
              ltac:(discriminate))
    as (p & w' & Hrun & _ & _ & Htotal & _ & _ & _ & Hpages).
  exists p, w'. split; [exact Hrun |]. split; [exact Htotal |].
  apply Hpages; [reflexivity | discriminate].
Defined.

Lemma public_tracking_serves_the_cached_shipment_witness :
  let store := {| Tracking._load_shipment := fun _ => ret None;
                  Tracking._load_shipment_by_tracking := fun _ => ret None |} in
  exists (s : Shipment) (fields : gmap string pyval) (w1 : World),
    confirm_booking sample_library shipped "b-1" "ops" None None
      (sample_world 0 BookingSpec.alice_cache) = (Return s, w1)
    /\ Tracking.track_shipment sample_library store (tracking_number s) w1
       = (Return (Some (PDict fields)), w1)
    /\ fields !! "booking_id" = Some (PStr "b-1").
Proof.
  intros store.
  assert (Hc : cache (sample_world 0 BookingSpec.alice_cache) !! ("booking:" +:+ "b-1")
               = Some (booking_to_dict BookingSpec.alice_booking)).
  { rewrite alice_fields_cached.
    exact (lookup_singleton_eq (M:=gmap string) "booking:b-1" (PDict BookingSpec.alice_fields)). }
  destruct (public_tracking_serves_the_cached_shipment sample_library shipped store
              "b-1" "ops" BookingSpec.alice_booking
              (sample_world 0 BookingSpec.alice_cache) Hc eq_refl eq_refl)
    as (s & fields & w1 & Hrun & Htrack & _ & Hbid & _).
  exists s, fields, w1.
  split; [exact Hrun |]. split; [exact Htrack | exact Hbid].
Defined.

End BookingExamples.
